(** * The entity store of the mock BOSH Director

    A shallow embedding of [internal/mockbosh/state.go] (the [State]
    operations over [StateData]) and of [GetTaskOutput] from
    [internal/mockbosh/tasks.go], with the properties of the store that the
    design document states.
    After the store come the goroutines of the task simulator ([tasks.go]),
    the HTTP handlers ([handlers.go]) and the two routers of [server.go],
    with the properties that the code shows of them.

    Conventions of the embedding.
    - Go's [int] and [int64] are 64-bit two's complement integers: they are
      modelled as [Z] and the one arithmetic operation of the store, the
      increment of [nextTaskID], wraps around ([wrap_int]).
    - Go's [string] is a byte sequence: [string] of the standard library.
    - A Go map is a [gmap]; maps are initialised (not the nil map), as
      [DefaultFixtures] builds them.
    - [Tasks] is a [map[int]*Task]: the map holds pointers.  The pointers are
      locations of [taskObjects], the memory holding the [Task] values, so
      that a pointer handed out by the store aliases the stored record.
      A location with no object stands for the nil pointer: dereferencing it
      is a run-time panic ([Panics]).
    - [Deployments] is a [map[string]*Deployment] as well; no operation of
      the store writes through these pointers, so an entry of the map is
      modelled as the record behind the pointer, or [None] for the nil
      pointer, whose dereference is a run-time panic.
    - A slice read out of a map ([vms := s.data.VMs[deployment]]) shares its
      backing array with the map entry, so the element assignments of
      [RecreateVMs] and [ChangeJobState] update the entry in place: [alter].
    - Every slice of the store has its backing array to itself: the lists
      stored under two names, and the [Processes] of two instances, are
      separate values.  This is so in the store that [DefaultFixtures]
      builds, where each slice is a literal of its own, and the operations
      of the store keep it so: none stores a slice that it was given or
      that it has read.  A store handed to [NewStateWithData] in which two
      slices share an array is not represented; there an element assignment
      through one slice shows through the other.  The frame and the
      commutation of [ChangeJobState] (X8, X11) depend on this, and say so.
    - The mutex is not modelled: each operation holds the lock for its whole
      body, so an operation is one atomic step of the state. *)

From Stdlib Require Import ZArith String DecimalString DecimalPos Lia.
From stdpp Require Import gmap strings list fin_maps sorting.

Open Scope string_scope.
Open Scope Z_scope.

(** ** Machine integers and formatting *)

Definition max_int : Z := 2 ^ 63 - 1.
Definition min_int : Z := - 2 ^ 63.

(** The value of a 64-bit signed integer after an arithmetic operation whose
    mathematical result is [z]. *)
Definition wrap_int (z : Z) : Z := (z + 2 ^ 63) mod 2 ^ 64 - 2 ^ 63.

(** [fmt.Sprintf("%d", n)]: the decimal text of [n], with a leading minus
    sign for negative numbers. *)
Definition fmt_d (n : Z) : string := NilZero.string_of_int (Z.to_int n).

(** Pointers to heap objects. *)
Abbreviation ptr := positive.

(** ** The data model (types.go) *)

Module VM.
Record t := mk {
  VMCID : string;
  Active : bool;
  AgentID : string;
  AZ : string;
  Bootstrap : bool;
  Deployment : string;
  IPs : list string;
  Job : string;
  Index : Z;
  ID : string;
  ProcessState : string;
  State : string;
  VMType : string;
  Ignore : bool
}.

Definition set_VMCID (x : string) (v : t) : t :=
  mk x (Active v) (AgentID v) (AZ v) (Bootstrap v) (Deployment v) (IPs v)
     (Job v) (Index v) (ID v) (ProcessState v) (State v) (VMType v) (Ignore v).

Definition set_ProcessState (x : string) (v : t) : t :=
  mk (VMCID v) (Active v) (AgentID v) (AZ v) (Bootstrap v) (Deployment v) (IPs v)
     (Job v) (Index v) (ID v) x (State v) (VMType v) (Ignore v).

Definition set_State (x : string) (v : t) : t :=
  mk (VMCID v) (Active v) (AgentID v) (AZ v) (Bootstrap v) (Deployment v) (IPs v)
     (Job v) (Index v) (ID v) (ProcessState v) x (VMType v) (Ignore v).
End VM.

Module Process.
(** [Uptime], [Memory] and [CPU] are pointers to records that the store
    never reads or writes: they are kept as pointers ([None] is nil). *)
Record t := mk {
  Name : string;
  State : string;
  Uptime : option ptr;
  Memory : option ptr;
  CPU : option ptr
}.

Definition set_State (x : string) (p : t) : t :=
  mk (Name p) x (Uptime p) (Memory p) (CPU p).
End Process.

Module Instance.
Record t := mk {
  AgentID : string;
  AZ : string;
  Bootstrap : bool;
  Deployment : string;
  Disk : string;
  Expects : bool;
  ID : string;
  IPs : list string;
  Job : string;
  Index : Z;
  State : string;
  VMType : string;
  VMCID : string;
  Processes : list Process.t
}.

Definition set_State (x : string) (i : t) : t :=
  mk (AgentID i) (AZ i) (Bootstrap i) (Deployment i) (Disk i) (Expects i)
     (ID i) (IPs i) (Job i) (Index i) x (VMType i) (VMCID i) (Processes i).

Definition set_Processes (x : list Process.t) (i : t) : t :=
  mk (AgentID i) (AZ i) (Bootstrap i) (Deployment i) (Disk i) (Expects i)
     (ID i) (IPs i) (Job i) (Index i) (State i) (VMType i) (VMCID i) x.
End Instance.

Module Task.
Record t := mk {
  ID : Z;
  State : string;
  Description : string;
  Timestamp : Z;
  Result : string;
  User : string;
  Deployment : string;
  ContextID : string
}.

Definition set_State (x : string) (k : t) : t :=
  mk (ID k) x (Description k) (Timestamp k) (Result k) (User k)
     (Deployment k) (ContextID k).

Definition set_Result (x : string) (k : t) : t :=
  mk (ID k) (State k) (Description k) (Timestamp k) x (User k)
     (Deployment k) (ContextID k).
End Task.

Module NameVersion.
Record t := mk { Name : string; Version : string }.
End NameVersion.

Module Deployment.
Record t := mk {
  Name : string;
  CloudConfig : string;
  Releases : list NameVersion.t;
  Stemcells : list NameVersion.t
}.
End Deployment.

Module Stemcell.
Record t := mk {
  Name : string;
  OperatingSystem : string;
  Version : string;
  CID : string;
  Deployments : list string
}.

Definition set_Deployments (x : list string) (c : t) : t :=
  mk (Name c) (OperatingSystem c) (Version c) (CID c) x.
End Stemcell.

Module Release.
Record t := mk {
  Name : string;
  Version : string;
  CommitHash : string;
  UncommittedChanges : bool
}.
End Release.

Module CloudConfig.
Record t := mk { Properties : string; CreatedAt : string }.
End CloudConfig.

Module RuntimeConfig.
Record t := mk { Name : string; Properties : string; CreatedAt : string }.
End RuntimeConfig.

Module CPIConfig.
Record t := mk { Properties : string; CreatedAt : string }.
End CPIConfig.

Module Variable_.
Record t := mk { ID : string; Name : string }.
End Variable_.

Module Lock.
Record t := mk {
  Type_ : string;
  Resource : string;
  Timeout : string;
  TaskID : string
}.
End Lock.

(** ** The store (state.go) *)

Module StateData.
Record t := mk {
  (** [Some d] is a pointer to the record [d], [None] the nil pointer *)
  Deployments : gmap string (option Deployment.t);
  VMs : gmap string (list VM.t);
  Instances : gmap string (list Instance.t);
  Variables : gmap string (list Variable_.t);
  Tasks : gmap Z ptr;
  Stemcells : list Stemcell.t;
  Releases : list Release.t;
  CloudConfig : option CloudConfig.t;
  RuntimeConfigs : list RuntimeConfig.t;
  CPIConfig : option CPIConfig.t;
  Locks : list Lock.t;
  nextTaskID : Z;
  (** the [Task] objects that the pointers of [Tasks] refer to *)
  taskObjects : gmap ptr Task.t
}.

Definition set_Deployments (x : gmap string (option Deployment.t)) (s : t) : t :=
  mk x (VMs s) (Instances s) (Variables s) (Tasks s) (Stemcells s) (Releases s)
     (CloudConfig s) (RuntimeConfigs s) (CPIConfig s) (Locks s) (nextTaskID s)
     (taskObjects s).

Definition set_VMs (x : gmap string (list VM.t)) (s : t) : t :=
  mk (Deployments s) x (Instances s) (Variables s) (Tasks s) (Stemcells s)
     (Releases s) (CloudConfig s) (RuntimeConfigs s) (CPIConfig s) (Locks s)
     (nextTaskID s) (taskObjects s).

Definition set_Instances (x : gmap string (list Instance.t)) (s : t) : t :=
  mk (Deployments s) (VMs s) x (Variables s) (Tasks s) (Stemcells s)
     (Releases s) (CloudConfig s) (RuntimeConfigs s) (CPIConfig s) (Locks s)
     (nextTaskID s) (taskObjects s).

Definition set_Variables (x : gmap string (list Variable_.t)) (s : t) : t :=
  mk (Deployments s) (VMs s) (Instances s) x (Tasks s) (Stemcells s)
     (Releases s) (CloudConfig s) (RuntimeConfigs s) (CPIConfig s) (Locks s)
     (nextTaskID s) (taskObjects s).

Definition set_Tasks (x : gmap Z ptr) (s : t) : t :=
  mk (Deployments s) (VMs s) (Instances s) (Variables s) x (Stemcells s)
     (Releases s) (CloudConfig s) (RuntimeConfigs s) (CPIConfig s) (Locks s)
     (nextTaskID s) (taskObjects s).

Definition set_Stemcells (x : list Stemcell.t) (s : t) : t :=
  mk (Deployments s) (VMs s) (Instances s) (Variables s) (Tasks s) x
     (Releases s) (CloudConfig s) (RuntimeConfigs s) (CPIConfig s) (Locks s)
     (nextTaskID s) (taskObjects s).

Definition set_nextTaskID (x : Z) (s : t) : t :=
  mk (Deployments s) (VMs s) (Instances s) (Variables s) (Tasks s)
     (Stemcells s) (Releases s) (CloudConfig s) (RuntimeConfigs s)
     (CPIConfig s) (Locks s) x (taskObjects s).

Definition set_taskObjects (x : gmap ptr Task.t) (s : t) : t :=
  mk (Deployments s) (VMs s) (Instances s) (Variables s) (Tasks s)
     (Stemcells s) (Releases s) (CloudConfig s) (RuntimeConfigs s)
     (CPIConfig s) (Locks s) (nextTaskID s) x.
End StateData.

(** The errors built with [fmt.Errorf]: the NotFound errors of the design
    document. *)
Inductive error :=
  | DeploymentNotFound (name : string)
  | TaskNotFound (id : Z).

(** The text of an error ([err.Error()]). *)
Definition error_text (e : error) : string :=
  match e with
  | DeploymentNotFound name => "deployment '" ++ name ++ "' not found"
  | TaskNotFound id => "task " ++ fmt_d id ++ " not found"
  end.

(** How a call ends: it returns a value (with a nil error), it returns a
    non-nil error, or it panics on a nil pointer. *)
Inductive outcome (A : Type) :=
  | Returns (a : A)
  | Fails (e : error)
  | Panics.
Arguments Returns {A} a.
Arguments Fails {A} e.
Arguments Panics {A}.

(** [s != ""] *)
Definition nonempty (s : string) : bool := negb (String.eqb s "").

(** [a != b] on strings *)
Definition differs (a b : string) : bool := negb (String.eqb a b).

(** *** GetDeployment, HasDeployment *)

Definition GetDeployment (name : string) (s : StateData.t) : outcome Deployment.t :=
  match StateData.Deployments s !! name with
  | None => Fails (DeploymentNotFound name)
  | Some None => Panics
  | Some (Some d) => Returns d
  end.

Definition HasDeployment (name : string) (s : StateData.t) : bool :=
  match StateData.Deployments s !! name with
  | None => false
  | Some _ => true
  end.

(** *** DeleteDeployment *)

(** The inner loop of [DeleteDeployment]: the references of one stemcell
    without [name], in their order. *)
Fixpoint strip_deployment (name : string) (deps : list string) : list string :=
  match deps with
  | [] => []
  | d :: rest =>
      if differs d name then d :: strip_deployment name rest
      else strip_deployment name rest
  end.

Definition DeleteDeployment (name : string) (s : StateData.t)
  : outcome unit * StateData.t :=
  match StateData.Deployments s !! name with
  | None => (Fails (DeploymentNotFound name), s)
  | Some _ =>
      let s := StateData.set_Deployments (delete name (StateData.Deployments s)) s in
      let s := StateData.set_VMs (delete name (StateData.VMs s)) s in
      let s := StateData.set_Instances (delete name (StateData.Instances s)) s in
      let s := StateData.set_Variables (delete name (StateData.Variables s)) s in
      let s := StateData.set_Stemcells
                 (map (fun c => Stemcell.set_Deployments
                                  (strip_deployment name (Stemcell.Deployments c)) c)
                      (StateData.Stemcells s)) s in
      (Returns tt, s)
  end.

(** *** GetVMs, GetInstances, GetVariables *)

Definition GetVMs (deployment : string) (s : StateData.t) : outcome (list VM.t) :=
  match StateData.Deployments s !! deployment with
  | None => Fails (DeploymentNotFound deployment)
  | Some _ => Returns (default [] (StateData.VMs s !! deployment))
  end.

Definition GetInstances (deployment : string) (s : StateData.t)
  : outcome (list Instance.t) :=
  match StateData.Deployments s !! deployment with
  | None => Fails (DeploymentNotFound deployment)
  | Some _ => Returns (default [] (StateData.Instances s !! deployment))
  end.

Definition GetVariables (deployment : string) (s : StateData.t)
  : outcome (list Variable_.t) :=
  match StateData.Deployments s !! deployment with
  | None => Fails (DeploymentNotFound deployment)
  | Some _ => Returns (default [] (StateData.Variables s !! deployment))
  end.

Definition GetStemcells (s : StateData.t) : list Stemcell.t :=
  StateData.Stemcells s.

(** *** GetTasks, GetTask *)

(** The two [continue] tests of the loop of [GetTasks]: the task is skipped
    when a filter is given and the task's field differs from it. *)
Definition skipped (state deployment : string) (t : Task.t) : bool :=
  (nonempty state && differs (Task.State t) state)
  || (nonempty deployment && differs (Task.Deployment t) deployment).

(** The loop of [GetTasks] over the entries of the map, in the order [ps] in
    which the iteration visits them.  Every visited pointer is dereferenced
    (by one of the tests or by [*t]); [None] is the panic on a nil pointer. *)
Fixpoint collect (state deployment : string) (mem : gmap ptr Task.t)
    (ps : list (Z * ptr)) : option (list Task.t) :=
  match ps with
  | [] => Some []
  | (_, p) :: rest =>
      match mem !! p, collect state deployment mem rest with
      | Some t, Some result =>
          Some (if skipped state deployment t then result else t :: result)
      | _, _ => None
      end
  end.

(** The order that [sort.Slice] establishes with the comparison
    [result[i].ID > result[j].ID]: no element is followed by one that is
    less than it, i.e. by one of greater ID. *)
Definition newest_first (a b : Task.t) : Prop :=
  Task.ID b ≤ Task.ID a.

#[global] Instance newest_first_dec a b : Decision (newest_first a b).
Proof. unfold newest_first. apply _. Defined.

(** [result[:limit]] under the guard [limit > 0 && len(result) > limit]. *)
Definition truncate (limit : Z) (result : list Task.t) : list Task.t :=
  if (0 <? limit) && (limit <? Z.of_nat (length result))
  then take (Z.to_nat limit) result
  else result.

(** Go leaves open the order in which a map is iterated and how
    [sort.Slice] arranges elements that compare equal.  The model iterates in
    the order of [map_to_list] and sorts with a merge sort; when the IDs of
    the collected tasks are pairwise distinct the sorted result is the same
    for every iteration order and every sorting algorithm
    ([sorted_result_unique] below). *)
Definition GetTasks (state deployment : string) (limit : Z) (s : StateData.t)
  : outcome (list Task.t) :=
  match collect state deployment (StateData.taskObjects s)
          (map_to_list (StateData.Tasks s)) with
  | None => Panics
  | Some result => Returns (truncate limit (merge_sort newest_first result))
  end.

Definition GetTask (id : Z) (s : StateData.t) : outcome Task.t :=
  match StateData.Tasks s !! id with
  | None => Fails (TaskNotFound id)
  | Some p =>
      match StateData.taskObjects s !! p with
      | None => Panics
      | Some t => Returns t
      end
  end.

(** *** CreateTask, UpdateTaskState *)

(** The location of a new [Task] object, [&Task{...}]: one that holds no
    object and that no entry of the task map refers to, so that a nil
    pointer of the map is still nil after the allocation. *)
Definition new_task (s : StateData.t) : ptr :=
  fresh (dom (StateData.taskObjects s) ∪ map_img (SA:=gset ptr) (StateData.Tasks s)).

(** [now] is the reading of the clock, [time.Now().Unix()].  The result is
    the pointer [task] that the function returns: the very pointer that it
    has stored in the map. *)
Definition CreateTask (description deployment user : string) (now : Z)
    (s : StateData.t) : ptr * StateData.t :=
  let s := StateData.set_nextTaskID (wrap_int (StateData.nextTaskID s + 1)) s in
  let task := new_task s in
  let s := StateData.set_taskObjects
             (<[task := Task.mk (StateData.nextTaskID s) "queued" description
                          now "" user deployment ""]> (StateData.taskObjects s)) s in
  let s := StateData.set_Tasks
             (<[StateData.nextTaskID s := task]> (StateData.Tasks s)) s in
  (task, s).

Definition UpdateTaskState (id : Z) (state result : string) (s : StateData.t)
  : outcome unit * StateData.t :=
  match StateData.Tasks s !! id with
  | None => (Fails (TaskNotFound id), s)
  | Some p =>
      match StateData.taskObjects s !! p with
      | None => (Panics, s)
      | Some t =>
          let t := Task.set_State state t in
          let t := if nonempty result then Task.set_Result result t else t in
          (Returns tt,
           StateData.set_taskObjects (<[p := t]> (StateData.taskObjects s)) s)
      end
  end.

(** What the holder of a [*Task] can do with it outside the store: read the
    record, and assign to its fields. *)
Definition read_through (p : ptr) (s : StateData.t) : option Task.t :=
  StateData.taskObjects s !! p.

Definition write_through (p : ptr) (f : Task.t -> Task.t) (s : StateData.t)
  : StateData.t :=
  StateData.set_taskObjects (alter f p (StateData.taskObjects s)) s.

(** *** RecreateVMs *)

(** The identifier given to a recreated VM. *)
Definition recreated_cid (deployment : string) (v : VM.t) : string :=
  "vm-" ++ deployment ++ "-" ++ VM.Job v ++ "-" ++ fmt_d (VM.Index v)
  ++ "-recreated".

(** The body of the loop of [RecreateVMs] on one slot of the slice. *)
Definition recreate_vm (deployment job index : string) (v : VM.t) : VM.t :=
  if nonempty job && differs (VM.Job v) job then v
  else if nonempty index && differs (fmt_d (VM.Index v)) index then v
  else VM.set_VMCID (recreated_cid deployment v) v.

Definition RecreateVMs (deployment job index : string) (s : StateData.t)
  : outcome unit * StateData.t :=
  match StateData.Deployments s !! deployment with
  | None => (Fails (DeploymentNotFound deployment), s)
  | Some _ =>
      (Returns tt,
       StateData.set_VMs
         (alter (map (recreate_vm deployment job index)) deployment
                (StateData.VMs s)) s)
  end.

(** *** ChangeJobState *)

(** The [switch] of [ChangeJobState]; each variable starts as "running". *)
Definition processState_of (newState : string) : string :=
  if String.eqb newState "stopped" then "stopped"
  else if String.eqb newState "started" || String.eqb newState "restart"
       then "running"
       else "running".

Definition vmProcessState_of (newState : string) : string :=
  if String.eqb newState "stopped" then "stopped"
  else if String.eqb newState "started" || String.eqb newState "restart"
       then "running"
       else "running".

(** The body of the first loop on one slot of the slice of VMs. *)
Definition change_vm (job newState : string) (v : VM.t) : VM.t :=
  if nonempty job && differs (VM.Job v) job then v
  else
    let v := VM.set_ProcessState (vmProcessState_of newState) v in
    if String.eqb newState "stopped" then VM.set_State "stopped" v
    else VM.set_State "started" v.

(** The body of the second loop on one slot of the slice of instances.  The
    assignments [Processes[j].State = processState] go through the slice of
    the instance: the instance has its array of processes to itself (see
    the conventions), so they change the processes of this instance only. *)
Definition change_instance (job newState : string) (i : Instance.t) : Instance.t :=
  if nonempty job && differs (Instance.Job i) job then i
  else
    let i := Instance.set_State (processState_of newState) i in
    Instance.set_Processes
      (map (Process.set_State (processState_of newState)) (Instance.Processes i)) i.

Definition ChangeJobState (deployment job newState : string) (s : StateData.t)
  : outcome unit * StateData.t :=
  match StateData.Deployments s !! deployment with
  | None => (Fails (DeploymentNotFound deployment), s)
  | Some _ =>
      let s := StateData.set_VMs
                 (alter (map (change_vm job newState)) deployment
                        (StateData.VMs s)) s in
      let s := StateData.set_Instances
                 (alter (map (change_instance job newState)) deployment
                        (StateData.Instances s)) s in
      (Returns tt, s)
  end.

(** ** The read-side view of a task (tasks.go) *)

Definition newline : string := String (Ascii.ascii_of_nat 10) "".

(** The argument [task *Task] is only read: it is passed as the record. *)
Definition GetTaskOutput (task : Task.t) (outputType : string) : string :=
  let outputType := if String.eqb outputType "" then "result" else outputType in
  if String.eqb outputType "result" then
    if nonempty (Task.Result task) then Task.Result task
    else "Task " ++ fmt_d (Task.ID task) ++ ": " ++ Task.Description task
  else if String.eqb outputType "debug" then
    "DEBUG: Task " ++ fmt_d (Task.ID task) ++ " started at "
    ++ fmt_d (Task.Timestamp task) ++ newline
    ++ "DEBUG: State: " ++ Task.State task ++ newline
    ++ "DEBUG: Deployment: " ++ Task.Deployment task
  else if String.eqb outputType "cpi" then
    "CPI: No CPI operations for task " ++ fmt_d (Task.ID task)
  else if String.eqb outputType "event" then
    "EVENT: Task " ++ fmt_d (Task.ID task) ++ " " ++ Task.State task ++ " at "
    ++ fmt_d (Task.Timestamp task)
  else Task.Result task.

(** ** The rest of the store (state.go) *)

Definition set_Locks (x : list Lock.t) (s : StateData.t) : StateData.t :=
  StateData.mk (StateData.Deployments s) (StateData.VMs s) (StateData.Instances s)
    (StateData.Variables s) (StateData.Tasks s) (StateData.Stemcells s)
    (StateData.Releases s) (StateData.CloudConfig s) (StateData.RuntimeConfigs s)
    (StateData.CPIConfig s) x (StateData.nextTaskID s) (StateData.taskObjects s).

(** [GetDeployments]: a record for each entry of the map, in the order in
    which the map is iterated (here the order of [map_to_list]); the loop
    dereferences every entry, and panics on a nil pointer. *)
Definition GetDeployments (s : StateData.t) : outcome (list Deployment.t) :=
  match mapM id (map_to_list (StateData.Deployments s)).*2 with
  | Some deployments => Returns deployments
  | None => Panics
  end.

Definition GetReleases (s : StateData.t) : list Release.t :=
  StateData.Releases s.

Definition GetCloudConfig (s : StateData.t) : option CloudConfig.t :=
  StateData.CloudConfig s.

Definition GetRuntimeConfigs (s : StateData.t) : list RuntimeConfig.t :=
  StateData.RuntimeConfigs s.

Definition GetCPIConfig (s : StateData.t) : option CPIConfig.t :=
  StateData.CPIConfig s.

Definition GetLocks (s : StateData.t) : list Lock.t :=
  StateData.Locks s.

(** [AddLock].  The duration enters the store as its text only: [timeout]
    is that text, [timeout.String()]. *)
Definition AddLock (lockType resource taskID timeout : string) (s : StateData.t)
  : StateData.t :=
  set_Locks (StateData.Locks s ++ [Lock.mk lockType resource timeout taskID]) s.

(** The loop of [RemoveLock]: the locks of the other resources, in their
    order. *)
Fixpoint other_locks (resource : string) (locks : list Lock.t) : list Lock.t :=
  match locks with
  | [] => []
  | l :: rest =>
      if differs (Lock.Resource l) resource then l :: other_locks resource rest
      else other_locks resource rest
  end.

Definition RemoveLock (resource : string) (s : StateData.t) : StateData.t :=
  set_Locks (other_locks resource (StateData.Locks s)) s.

(** ** The task simulator (tasks.go) *)

(** The body of a goroutine started by the simulator, as the sequence of its
    calls of the store.  Each call runs under the mutex of the store and is
    one atomic step; between two calls other goroutines may run.  The
    continuation [k] receives what the call returned.  The pauses
    ([time.Sleep]) and the debug log do not touch the store and are left
    out. *)
Inductive goroutine : Type :=
  | Exit
  | Call {A : Type} (op : StateData.t → outcome A * StateData.t)
      (k : outcome A → goroutine).

(** A method of the store that returns nothing. *)
Definition void (f : StateData.t → StateData.t) (s : StateData.t)
  : outcome unit * StateData.t :=
  (Returns tt, f s).

(** [(30 * time.Minute).String()] *)
Definition lock_timeout : string := "30m0s".

Definition ExecuteDelete (taskID : Z) (deployment : string) (force : bool)
  : goroutine :=
  Call (UpdateTaskState taskID "processing" "") (λ _,
  Call (void (AddLock "deployment" deployment (fmt_d taskID) lock_timeout)) (λ _,
  Call (DeleteDeployment deployment) (λ err,
    match err with
    | Fails e =>
        Call (UpdateTaskState taskID "error" (error_text e)) (λ _,
        Call (void (RemoveLock deployment)) (λ _, Exit))
    | _ =>
        Call (void (RemoveLock deployment)) (λ _,
        Call (UpdateTaskState taskID "done" ("Deleted deployment " ++ deployment))
          (λ _, Exit))
    end))).

(** The result text of a recreation. *)
Definition recreate_result (deployment job index : string) : string :=
  if nonempty job then
    if nonempty index then
      "Recreated VM " ++ deployment ++ "/" ++ job ++ "/" ++ index
    else "Recreated VMs for " ++ deployment ++ "/" ++ job
  else "Recreated VMs for deployment " ++ deployment.

Definition ExecuteRecreate (taskID : Z) (deployment job index : string)
  : goroutine :=
  Call (UpdateTaskState taskID "processing" "") (λ _,
  Call (void (AddLock "deployment" deployment (fmt_d taskID) lock_timeout)) (λ _,
  Call (RecreateVMs deployment job index) (λ err,
    match err with
    | Fails e =>
        Call (UpdateTaskState taskID "error" (error_text e)) (λ _,
        Call (void (RemoveLock deployment)) (λ _, Exit))
    | _ =>
        Call (void (RemoveLock deployment)) (λ _,
        Call (UpdateTaskState taskID "done" (recreate_result deployment job index))
          (λ _, Exit))
    end))).

(** The result text of a start, stop or restart; [verb] is "Started",
    "Stopped" or "Restarted". *)
Definition job_result (verb deployment job : string) : string :=
  if nonempty job then verb ++ " job " ++ job ++ " in deployment " ++ deployment
  else verb ++ " jobs in deployment " ++ deployment.

Definition ExecuteStart (taskID : Z) (deployment job : string) : goroutine :=
  Call (UpdateTaskState taskID "processing" "") (λ _,
  Call (void (AddLock "deployment" deployment (fmt_d taskID) lock_timeout)) (λ _,
  Call (ChangeJobState deployment job "started") (λ err,
    match err with
    | Fails e =>
        Call (UpdateTaskState taskID "error" (error_text e)) (λ _,
        Call (void (RemoveLock deployment)) (λ _, Exit))
    | _ =>
        Call (void (RemoveLock deployment)) (λ _,
        Call (UpdateTaskState taskID "done" (job_result "Started" deployment job))
          (λ _, Exit))
    end))).

Definition ExecuteStop (taskID : Z) (deployment job : string) : goroutine :=
  Call (UpdateTaskState taskID "processing" "") (λ _,
  Call (void (AddLock "deployment" deployment (fmt_d taskID) lock_timeout)) (λ _,
  Call (ChangeJobState deployment job "stopped") (λ err,
    match err with
    | Fails e =>
        Call (UpdateTaskState taskID "error" (error_text e)) (λ _,
        Call (void (RemoveLock deployment)) (λ _, Exit))
    | _ =>
        Call (void (RemoveLock deployment)) (λ _,
        Call (UpdateTaskState taskID "done" (job_result "Stopped" deployment job))
          (λ _, Exit))
    end))).

Definition ExecuteRestart (taskID : Z) (deployment job : string) : goroutine :=
  Call (UpdateTaskState taskID "processing" "") (λ _,
  Call (void (AddLock "deployment" deployment (fmt_d taskID) lock_timeout)) (λ _,
  Call (ChangeJobState deployment job "stopped") (λ err,
    match err with
    | Fails e =>
        Call (UpdateTaskState taskID "error" (error_text e)) (λ _,
        Call (void (RemoveLock deployment)) (λ _, Exit))
    | _ =>
        Call (ChangeJobState deployment job "started") (λ err,
          match err with
          | Fails e =>
              Call (UpdateTaskState taskID "error" (error_text e)) (λ _,
              Call (void (RemoveLock deployment)) (λ _, Exit))
          | _ =>
              Call (void (RemoveLock deployment)) (λ _,
              Call (UpdateTaskState taskID "done"
                      (job_result "Restarted" deployment job)) (λ _, Exit))
          end)
    end))).

(** A goroutine that runs with no other goroutine in between.  The result
    is the store that it leaves and whether it has returned ([true]) or died
    of a panic ([false]). *)
Fixpoint run (g : goroutine) (s : StateData.t) : StateData.t * bool :=
  match g with
  | Exit => (s, true)
  | Call op k =>
      match op s with
      | (Panics, s') => (s', false)
      | (o, s') => run (k o) s'
      end
  end.

(** A goroutine among others: before each of its calls the other goroutines
    do to the store what the next element of [others] says (nothing more
    once the list is used up). *)
Fixpoint run_among (others : list (StateData.t → StateData.t)) (g : goroutine)
    (s : StateData.t) : StateData.t * bool :=
  match g with
  | Exit => (s, true)
  | Call op k =>
      match op (hd id others s) with
      | (Panics, s') => (s', false)
      | (o, s') => run_among (tl others) (k o) s'
      end
  end.

(** ** The HTTP handlers (handlers.go) *)

(** What the handlers read of a request: the method, the path, the decoded
    query ([r.URL.Query()], the pairs in their order) and the credentials of
    [r.BasicAuth()] when there are any. *)
Module Request.
Record t := mk {
  Method : string;
  Path : string;
  Query : list (string * string);
  BasicAuth : option (string * string)
}.
End Request.

(** [r.URL.Query().Get(key)]: the first value of the key, the empty text
    when the key is absent. *)
Fixpoint Query_Get (key : string) (query : list (string * string)) : string :=
  match query with
  | [] => ""
  | (k, v) :: rest => if String.eqb k key then v else Query_Get key rest
  end.

(** What a handler writes as the body.  The JSON encoding is not modelled:
    the body is the value that is encoded. *)
Inductive body :=
  | NoBody
  | JSON_ErrorResponse (Code : Z) (Description : string)
  | JSON_Deployments (deployments : list Deployment.t)
  | JSON_Deployment (d : Deployment.t)
  | JSON_VMs (vms : list VM.t)
  | JSON_Instances (instances : list Instance.t)
  | JSON_Variables (variables : list Variable_.t)
  | JSON_Tasks (tasks : list Task.t)
  | JSON_Task (task : Task.t)
  | Text (output : string).

Module Response.
Record t := mk {
  Status : Z;
  Header : list (string * string);
  Body : body
}.
End Response.

(** How the call of a handler ends: it has written a response, it leaves
    the store [store], and it may have started a goroutine of the simulator;
    or it has panicked.  The calls of the store that a handler makes are
    taken one after the other, with no other goroutine in between. *)
Inductive served :=
  | Served (response : Response.t) (store : StateData.t)
      (started : option goroutine)
  | HandlerPanics.

Definition MethodGet : string := "GET".
Definition MethodPut : string := "PUT".
Definition MethodDelete : string := "DELETE".
Definition StatusOK : Z := 200.
Definition StatusFound : Z := 302.
Definition StatusBadRequest : Z := 400.
Definition StatusUnauthorized : Z := 401.
Definition StatusNotFound : Z := 404.
Definition StatusMethodNotAllowed : Z := 405.

Definition writeJSON (status : Z) (v : body) : Response.t :=
  Response.mk status [("Content-Type", "application/json")] v.

Definition writeError (status : Z) (message : string) : Response.t :=
  writeJSON status (JSON_ErrorResponse status message).

(** The answer to an accepted operation: the location of the task. *)
Definition task_location (id : Z) : Response.t :=
  Response.mk StatusFound [("Location", "/tasks/" ++ fmt_d id)] NoBody.

Module Handlers.
Record t := mk { username : string; password : string }.
End Handlers.

Definition CheckAuth (h : Handlers.t) (r : Request.t) : bool :=
  match Request.BasicAuth r with
  | None => false
  | Some (user, pass) =>
      String.eqb user (Handlers.username h) && String.eqb pass (Handlers.password h)
  end.

Definition HandleDeployments (h : Handlers.t) (r : Request.t) (s : StateData.t)
  : served :=
  if differs (Request.Method r) MethodGet then
    Served (writeError StatusMethodNotAllowed "method not allowed") s None
  else
    match GetDeployments s with
    | Returns deployments =>
        Served (writeJSON StatusOK (JSON_Deployments deployments)) s None
    | _ => HandlerPanics
    end.

Definition HandleDeploymentVMs (h : Handlers.t) (r : Request.t)
    (deployment : string) (s : StateData.t) : served :=
  if differs (Request.Method r) MethodGet then
    Served (writeError StatusMethodNotAllowed "method not allowed") s None
  else
    match GetVMs deployment s with
    | Returns vms => Served (writeJSON StatusOK (JSON_VMs vms)) s None
    | Fails err => Served (writeError StatusNotFound (error_text err)) s None
    | Panics => HandlerPanics
    end.

Definition HandleDeploymentInstances (h : Handlers.t) (r : Request.t)
    (deployment : string) (s : StateData.t) : served :=
  if differs (Request.Method r) MethodGet then
    Served (writeError StatusMethodNotAllowed "method not allowed") s None
  else
    match GetInstances deployment s with
    | Returns instances =>
        let format := Query_Get "format" (Request.Query r) in
        let instances :=
          if differs format "full"
          then map (Instance.set_Processes []) instances
          else instances in
        Served (writeJSON StatusOK (JSON_Instances instances)) s None
    | Fails err => Served (writeError StatusNotFound (error_text err)) s None
    | Panics => HandlerPanics
    end.

Definition HandleDeploymentVariables (h : Handlers.t) (r : Request.t)
    (deployment : string) (s : StateData.t) : served :=
  if differs (Request.Method r) MethodGet then
    Served (writeError StatusMethodNotAllowed "method not allowed") s None
  else
    match GetVariables deployment s with
    | Returns variables =>
        Served (writeJSON StatusOK (JSON_Variables variables)) s None
    | Fails err => Served (writeError StatusNotFound (error_text err)) s None
    | Panics => HandlerPanics
    end.

(** The end of the three handlers that accept an operation: the task is
    created, a goroutine of the simulator is started with the [ID] read from
    the task, and the location of the task is returned.  [now] is the
    reading of the clock in [CreateTask]. *)
Definition accept (h : Handlers.t) (description deployment : string) (now : Z)
    (simulate : Z → goroutine) (s : StateData.t) : served :=
  let '(task, s) := CreateTask description deployment (Handlers.username h) now s in
  match read_through task s with
  | None => HandlerPanics
  | Some t => Served (task_location (Task.ID t)) s (Some (simulate (Task.ID t)))
  end.

Definition HandleDeleteDeployment (h : Handlers.t) (r : Request.t)
    (deployment : string) (now : Z) (s : StateData.t) : served :=
  if differs (Request.Method r) MethodDelete then
    Served (writeError StatusMethodNotAllowed "method not allowed") s None
  else if negb (HasDeployment deployment s) then
    Served (writeError StatusNotFound ("deployment '" ++ deployment ++ "' not found"))
      s None
  else
    let force := String.eqb (Query_Get "force" (Request.Query r)) "true" in
    accept h ("delete deployment " ++ deployment) deployment now
      (λ id, ExecuteDelete id deployment force) s.

(** [strings.SplitN(job, "/", 2)] for a job that contains "/": what is
    before the first "/" and what is after it; [None] when the job does not
    contain "/" ([strings.Contains]). *)
Fixpoint cut_slash (job : string) : option (string * string) :=
  match job with
  | EmptyString => None
  | String c rest =>
      if String.eqb (String c "") "/" then Some ("", rest)
      else match cut_slash rest with
           | Some (before, after) => Some (String c before, after)
           | None => None
           end
  end.

Definition HandleDeploymentJobs (h : Handlers.t) (r : Request.t)
    (deployment job : string) (now : Z) (s : StateData.t) : served :=
  if differs (Request.Method r) MethodPut then
    Served (writeError StatusMethodNotAllowed "method not allowed") s None
  else if negb (HasDeployment deployment s) then
    Served (writeError StatusNotFound ("deployment '" ++ deployment ++ "' not found"))
      s None
  else
    let state := Query_Get "state" (Request.Query r) in
    if String.eqb state "" then
      Served (writeError StatusBadRequest "state parameter is required") s None
    else
      let '(jobName, index) :=
        match cut_slash job with
        | Some (before, after) => (before, after)
        | None => (job, "")
        end in
      if String.eqb state "started" then
        accept h
          (if nonempty jobName
           then "start job " ++ jobName ++ " in deployment " ++ deployment
           else "start jobs in deployment " ++ deployment)
          deployment now (λ id, ExecuteStart id deployment jobName) s
      else if String.eqb state "stopped" then
        accept h
          (if nonempty jobName
           then "stop job " ++ jobName ++ " in deployment " ++ deployment
           else "stop jobs in deployment " ++ deployment)
          deployment now (λ id, ExecuteStop id deployment jobName) s
      else if String.eqb state "restart" then
        accept h
          (if nonempty jobName
           then "restart job " ++ jobName ++ " in deployment " ++ deployment
           else "restart jobs in deployment " ++ deployment)
          deployment now (λ id, ExecuteRestart id deployment jobName) s
      else if String.eqb state "recreate" then
        accept h
          (if nonempty jobName then
             if nonempty index
             then "recreate VM " ++ deployment ++ "/" ++ jobName ++ "/" ++ index
             else "recreate VMs for " ++ deployment ++ "/" ++ jobName
           else "recreate VMs for deployment " ++ deployment)
          deployment now (λ id, ExecuteRecreate id deployment jobName index) s
      else
        Served (writeError StatusBadRequest ("unknown state: " ++ state)) s None.

Definition HandleDeploymentRecreate (h : Handlers.t) (r : Request.t)
    (deployment : string) (now : Z) (s : StateData.t) : served :=
  if differs (Request.Method r) MethodPut then
    Served (writeError StatusMethodNotAllowed "method not allowed") s None
  else if negb (HasDeployment deployment s) then
    Served (writeError StatusNotFound ("deployment '" ++ deployment ++ "' not found"))
      s None
  else if differs (Query_Get "state" (Request.Query r)) "recreate" then
    Served (writeError StatusBadRequest "state=recreate is required") s None
  else
    accept h ("recreate VMs for deployment " ++ deployment) deployment now
      (λ id, ExecuteRecreate id deployment "" "") s.

(** [strconv.Atoi] of the standard library, after its documentation: an
    optional sign, then one or more decimal digits, the value within the
    range of [int]; [None] is the error. *)
Definition digit (c : Ascii.ascii) : option Z :=
  let n := Z.of_nat (Ascii.nat_of_ascii c) in
  if (48 <=? n) && (n <=? 57) then Some (n - 48) else None.

Fixpoint digits (text : string) (value : Z) : option Z :=
  match text with
  | EmptyString => Some value
  | String c rest =>
      match digit c with
      | Some d => digits rest (10 * value + d)
      | None => None
      end
  end.

Definition Atoi (text : string) : option Z :=
  let '(negative, rest) :=
    match text with
    | String c rest =>
        if String.eqb (String c "") "-" then (true, rest)
        else if String.eqb (String c "") "+" then (false, rest)
        else (false, text)
    | EmptyString => (false, text)
    end in
  match rest with
  | EmptyString => None
  | _ =>
      match digits rest 0 with
      | None => None
      | Some n =>
          let value := if negative : bool then - n else n in
          if (min_int <=? value) && (value <=? max_int) then Some value else None
      end
  end.

Definition HandleTasks (h : Handlers.t) (r : Request.t) (s : StateData.t) : served :=
  if differs (Request.Method r) MethodGet then
    Served (writeError StatusMethodNotAllowed "method not allowed") s None
  else
    let state := Query_Get "state" (Request.Query r) in
    let deployment := Query_Get "deployment" (Request.Query r) in
    let limitStr := Query_Get "limit" (Request.Query r) in
    match (if nonempty limitStr then Atoi limitStr else Some 0) with
    | None => Served (writeError StatusBadRequest "invalid limit parameter") s None
    | Some limit =>
        match GetTasks state deployment limit s with
        | Returns tasks => Served (writeJSON StatusOK (JSON_Tasks tasks)) s None
        | _ => HandlerPanics
        end
    end.

Definition HandleTask (h : Handlers.t) (r : Request.t) (taskID : Z)
    (s : StateData.t) : served :=
  if differs (Request.Method r) MethodGet then
    Served (writeError StatusMethodNotAllowed "method not allowed") s None
  else
    match GetTask taskID s with
    | Returns task => Served (writeJSON StatusOK (JSON_Task task)) s None
    | Fails err => Served (writeError StatusNotFound (error_text err)) s None
    | Panics => HandlerPanics
    end.

Definition HandleTaskOutput (h : Handlers.t) (r : Request.t) (taskID : Z)
    (s : StateData.t) : served :=
  if differs (Request.Method r) MethodGet then
    Served (writeError StatusMethodNotAllowed "method not allowed") s None
  else
    match GetTask taskID s with
    | Returns task =>
        let outputType := Query_Get "type" (Request.Query r) in
        Served (Response.mk StatusOK [("Content-Type", "text/plain")]
                  (Text (GetTaskOutput task outputType))) s None
    | Fails err => Served (writeError StatusNotFound (error_text err)) s None
    | Panics => HandlerPanics
    end.

(** ** Routing (server.go) *)

(** [strings.TrimPrefix] *)
Fixpoint TrimPrefix_from (text prefix whole : string) : string :=
  match prefix with
  | EmptyString => text
  | String p prefix' =>
      match text with
      | String c text' =>
          if Ascii.eqb c p then TrimPrefix_from text' prefix' whole else whole
      | EmptyString => whole
      end
  end.

Definition TrimPrefix (text prefix : string) : string :=
  TrimPrefix_from text prefix text.

(** [strings.Split(text, "/")]: the pieces between the "/", at least one. *)
Fixpoint Split (text : string) : list string :=
  match text with
  | EmptyString => [""]
  | String c rest =>
      if String.eqb (String c "") "/" then "" :: Split rest
      else match Split rest with
           | piece :: pieces => String c piece :: pieces
           | [] => [String c ""]
           end
  end.

Definition routeDeployments (h : Handlers.t) (r : Request.t) (now : Z)
    (s : StateData.t) : served :=
  let path := Request.Path r in
  if String.eqb path "/deployments" then HandleDeployments h r s
  else
    let parts := Split (TrimPrefix path "/deployments/") in
    match parts with
    | [] => Served (writeError StatusNotFound "deployment name required") s None
    | deployment :: others =>
        if String.eqb deployment "" then
          Served (writeError StatusNotFound "deployment name required") s None
        else
          match others with
          | [] =>
              if String.eqb (Request.Method r) MethodGet then
                match GetDeployment deployment s with
                | Returns d => Served (writeJSON StatusOK (JSON_Deployment d)) s None
                | Fails err =>
                    Served (writeError StatusNotFound (error_text err)) s None
                | Panics => HandlerPanics
                end
              else if String.eqb (Request.Method r) MethodDelete then
                HandleDeleteDeployment h r deployment now s
              else if String.eqb (Request.Method r) MethodPut then
                if String.eqb (Query_Get "state" (Request.Query r)) "recreate"
                then HandleDeploymentRecreate h r deployment now s
                else Served (writeError StatusBadRequest "unknown operation") s None
              else
                Served (writeError StatusMethodNotAllowed "method not allowed") s None
          | [kind] =>
              if String.eqb kind "vms" then HandleDeploymentVMs h r deployment s
              else if String.eqb kind "instances"
              then HandleDeploymentInstances h r deployment s
              else if String.eqb kind "variables"
              then HandleDeploymentVariables h r deployment s
              else Served (writeError StatusNotFound "not found") s None
          | kind :: job :: more =>
              if String.eqb kind "jobs" then
                let job :=
                  match more with
                  | [index] => job ++ "/" ++ index
                  | _ => job
                  end in
                HandleDeploymentJobs h r deployment job now s
              else Served (writeError StatusNotFound "not found") s None
          end
    end.

Definition routeTasks (h : Handlers.t) (r : Request.t) (s : StateData.t) : served :=
  let path := Request.Path r in
  if String.eqb path "/tasks" then HandleTasks h r s
  else
    let parts := Split (TrimPrefix path "/tasks/") in
    match parts with
    | [] => Served (writeError StatusNotFound "task ID required") s None
    | first :: others =>
        if String.eqb first "" then
          Served (writeError StatusNotFound "task ID required") s None
        else
          match Atoi first with
          | None => Served (writeError StatusBadRequest "invalid task ID") s None
          | Some taskID =>
              match others with
              | [] => HandleTask h r taskID s
              | [kind] =>
                  if String.eqb kind "output" then HandleTaskOutput h r taskID s
                  else Served (writeError StatusNotFound "not found") s None
              | _ => Served (writeError StatusNotFound "not found") s None
              end
          end
    end.

(** ** A concrete store

    [DefaultFixtures] cut down to the deployments "cf" (two of its VMs) and
    "redis", the first tasks and the stemcells; [now] is the time of
    construction. *)

Definition defaultDeployments : gmap string (option Deployment.t) :=
  <["cf" := Some (Deployment.mk "cf" "latest"
              [NameVersion.mk "cf-deployment" "40.0.0"; NameVersion.mk "diego" "2.80.0"]
              [NameVersion.mk "bosh-google-kvm-ubuntu-jammy-go_agent" "1.200"])]>
  (<["redis" := Some (Deployment.mk "redis" "latest"
              [NameVersion.mk "redis" "16.0.0"]
              [NameVersion.mk "bosh-google-kvm-ubuntu-jammy-go_agent" "1.200"])]> ∅).

Definition defaultVMs : gmap string (list VM.t) :=
  <["cf" :=
      [VM.mk "vm-cf-diego-cell-0" true "agent-cf-dc0" "z1" false "cf" ["10.0.1.10"]
             "diego_cell" 0 "cf-dc0-id" "running" "started" "large" false;
       VM.mk "vm-cf-router-0" true "agent-cf-r0" "z1" true "cf" ["10.0.1.20"]
             "router" 0 "cf-r0-id" "running" "started" "medium" false]]>
  (<["redis" :=
      [VM.mk "vm-redis-0" true "agent-redis-0" "z1" true "redis" ["10.0.4.10"]
             "redis" 0 "redis-0-id" "running" "started" "medium" false;
       VM.mk "vm-redis-1" true "agent-redis-1" "z2" false "redis" ["10.0.4.11"]
             "redis" 1 "redis-1-id" "running" "started" "medium" false]]> ∅).

Definition defaultInstances : gmap string (list Instance.t) :=
  <["cf" :=
      [Instance.mk "agent-cf-r0" "z1" true "cf" "disk-cf-r0" true "cf-r0-id"
         ["10.0.1.20"] "router" 0 "running" "medium" "vm-cf-router-0"
         [Process.mk "gorouter" "running" (Some 1%positive) (Some 2%positive) (Some 3%positive);
          Process.mk "route_registrar" "running" (Some 4%positive) (Some 5%positive) (Some 6%positive)]]]>
  (<["redis" :=
      [Instance.mk "agent-redis-0" "z1" true "redis" "disk-redis-0" true "redis-0-id"
         ["10.0.4.10"] "redis" 0 "running" "medium" "vm-redis-0"
         [Process.mk "redis-server" "running" (Some 7%positive) (Some 8%positive) (Some 9%positive);
          Process.mk "redis-sentinel" "running" (Some 10%positive) (Some 11%positive) (Some 12%positive)];
       Instance.mk "agent-redis-1" "z2" false "redis" "disk-redis-1" true "redis-1-id"
         ["10.0.4.11"] "redis" 1 "running" "medium" "vm-redis-1"
         [Process.mk "redis-server" "running" (Some 13%positive) (Some 14%positive) (Some 15%positive);
          Process.mk "redis-sentinel" "running" (Some 16%positive) (Some 17%positive) (Some 18%positive)]]]> ∅).

Definition defaultVariables : gmap string (list Variable_.t) :=
  <["cf" := [Variable_.mk "var-1" "cf_admin_password"]]>
  (<["redis" := [Variable_.mk "var-10" "redis_password";
                 Variable_.mk "var-11" "redis_tls_ca"]]> ∅).

Definition defaultTaskObjects (now : Z) : gmap ptr Task.t :=
  <[1%positive := Task.mk 1 "done" "create deployment cf" (now - 86400)
                    "Created" "admin" "cf" ""]>
  (<[2%positive := Task.mk 2 "done" "create deployment redis" (now - 72000)
                    "Created" "admin" "redis" ""]>
  (<[3%positive := Task.mk 5 "error" "run errand acceptance_tests" (now - 28800)
                    "Error: Test failure in router tests" "admin" "cf" ""]>
  (<[4%positive := Task.mk 8 "done" "update cloud config" (now - 3600)
                    "Updated" "admin" "" ""]> ∅))).

Definition defaultTasks : gmap Z ptr :=
  <[1 := 1%positive]> (<[2 := 2%positive]> (<[5 := 3%positive]>
  (<[8 := 4%positive]> ∅))).

Definition defaultStemcells : list Stemcell.t :=
  [Stemcell.mk "bosh-google-kvm-ubuntu-jammy-go_agent" "ubuntu-jammy" "1.200"
     "stemcell-uuid-1200" ["cf"; "redis"; "mysql"];
   Stemcell.mk "bosh-google-kvm-ubuntu-jammy-go_agent" "ubuntu-jammy" "1.199"
     "stemcell-uuid-1199" [];
   Stemcell.mk "bosh-google-kvm-ubuntu-bionic-go_agent" "ubuntu-bionic" "1.150"
     "stemcell-uuid-bionic-1150" []].

Definition DefaultFixtures (now : Z) : StateData.t :=
  StateData.mk defaultDeployments defaultVMs defaultInstances defaultVariables
    defaultTasks defaultStemcells
    [Release.mk "redis" "16.0.0" "redis16abc" false]
    (Some (CloudConfig.mk "azs: []" "2024-01-01T00:00:00Z"))
    []
    None
    []
    100
    (defaultTaskObjects now).

(** The time of construction used in the examples. *)
Definition t0 : Z := 1700000000.

(** ** Vocabulary of the properties *)

(** The result view of the design document: the result text of the task,
    and the text "Task {id}: {description}" when the task has none. *)
Definition result_view (task : Task.t) : string :=
  if String.eqb (Task.Result task) "" then
    "Task " ++ fmt_d (Task.ID task) ++ ": " ++ Task.Description task
  else Task.Result task.

(** The kinds that [GetTaskOutput] knows by name. *)
Definition recognized (kind : string) : Prop :=
  kind = "result" ∨ kind = "debug" ∨ kind = "cpi" ∨ kind = "event".

(** The states that the design document gives for a requested job state:
    the lifecycle state of a VM and the process state. *)
Inductive state_mapping : string → string → string → Prop :=
  | map_stopped : state_mapping "stopped" "stopped" "stopped"
  | map_started : state_mapping "started" "started" "running"
  | map_restart : state_mapping "restart" "started" "running".

(** The VMs that a call of [RecreateVMs] selects: the job matches (every job
    when none is given) and the decimal text of the index is the index given
    (every index when none is given). *)
Definition selected (job index : string) (v : VM.t) : Prop :=
  (job = "" ∨ VM.Job v = job) ∧ (index = "" ∨ fmt_d (VM.Index v) = index).

(** A task passes the filters: each filter is either not given or equal to
    the task's field. *)
Definition task_matches (state deployment : string) (t : Task.t) : Prop :=
  (state = "" ∨ Task.State t = state)
  ∧ (deployment = "" ∨ Task.Deployment t = deployment).

#[global] Instance task_matches_dec state deployment t :
  Decision (task_matches state deployment t).
Proof. unfold task_matches. apply _. Defined.

(** The task records of the store: what the pointers of the task map point
    to, one record for each entry of the map. *)
Definition deref (mem : gmap ptr Task.t) (e : Z * ptr) : option Task.t :=
  mem !! e.2.

Definition stored_tasks (s : StateData.t) : list Task.t :=
  omap (deref (StateData.taskObjects s)) (map_to_list (StateData.Tasks s)).

(** No entry of the task map holds a nil pointer. *)
Definition tasks_allocated (s : StateData.t) : Prop :=
  ∀ id p, StateData.Tasks s !! id = Some p →
          is_Some (StateData.taskObjects s !! p).

(** Every outcome that the source of [GetTasks] can have: the map is
    iterated in some order, and [sort.Slice] leaves the collected tasks in
    some arrangement that is sorted for its comparison. *)
Definition GetTasks_may_return (state deployment : string) (limit : Z)
    (s : StateData.t) (out : outcome (list Task.t)) : Prop :=
  ∃ order,
    order ≡ₚ map_to_list (StateData.Tasks s)
    ∧ match collect state deployment (StateData.taskObjects s) order with
      | None => out = Panics
      | Some result =>
          ∃ sorted,
            sorted ≡ₚ result
            ∧ StronglySorted newest_first sorted
            ∧ out = Returns (truncate limit sorted)
      end.

(** In the stores that [DefaultFixtures] and [CreateTask] build, every task
    is stored under its own id. *)
Definition keyed_by_id (s : StateData.t) : Prop :=
  ∀ id p t, StateData.Tasks s !! id = Some p →
            StateData.taskObjects s !! p = Some t → Task.ID t = id.

(** A call of [CreateTask]: description, deployment, user, and the reading
    of the clock during the call. *)
Definition call : Type := string * string * string * Z.

(** A sequence of calls of [CreateTask] on one store; the result lists, in
    the order of the calls, the [ID] read from the task that each call
    returned. *)
Fixpoint create_all (calls : list call) (s : StateData.t) : list Z * StateData.t :=
  match calls with
  | [] => ([], s)
  | (description, deployment, user, now) :: rest =>
      let '(task, s1) := CreateTask description deployment user now s in
      let '(ids, s2) := create_all rest s1 in
      match read_through task s1 with
      | Some t => (Task.ID t :: ids, s2)
      | None => (ids, s2)
      end
  end.

(** The counter is not behind the tasks: no task is stored under an id
    greater than the counter, as in [DefaultFixtures]. *)
Definition ids_below_counter (s : StateData.t) : Prop :=
  ∀ id p, StateData.Tasks s !! id = Some p → id ≤ StateData.nextTaskID s.

(** The goroutines that the simulator starts for the task [taskID] on the
    deployment [deployment]. *)
Inductive simulated (taskID : Z) (deployment : string) : goroutine → Prop :=
  | simulated_delete force :
      simulated taskID deployment (ExecuteDelete taskID deployment force)
  | simulated_recreate job index :
      simulated taskID deployment (ExecuteRecreate taskID deployment job index)
  | simulated_start job :
      simulated taskID deployment (ExecuteStart taskID deployment job)
  | simulated_stop job :
      simulated taskID deployment (ExecuteStop taskID deployment job)
  | simulated_restart job :
      simulated taskID deployment (ExecuteRestart taskID deployment job).

(** What the other goroutines are assumed not to do to the task [taskID]:
    from [s] to [s1] the task map has the same pointer under the id, and the
    record behind that pointer is the same. *)
Definition task_untouched (taskID : Z) (s s1 : StateData.t) : Prop :=
  StateData.Tasks s1 !! taskID = StateData.Tasks s !! taskID
  ∧ ∀ p, StateData.Tasks s !! taskID = Some p →
         StateData.taskObjects s1 !! p = StateData.taskObjects s !! p.

(** What the other goroutines are assumed not to do to the locks: from [s]
    to [s1] no lock on [deployment] in the name of the task [taskID] has
    been added. *)
Definition no_lock_added (taskID : Z) (deployment : string)
    (s s1 : StateData.t) : Prop :=
  ∀ l, l ∈ StateData.Locks s1 → Lock.Resource l = deployment →
       Lock.TaskID l = fmt_d taskID → l ∈ StateData.Locks s.

(** The task [taskID] of the store is behind the pointer [p], and [φ] holds
    of it. *)
Definition task_is (taskID : Z) (p : ptr) (φ : Task.t → Prop)
    (s : StateData.t) : Prop :=
  StateData.Tasks s !! taskID = Some p
  ∧ ∃ t, StateData.taskObjects s !! p = Some t ∧ φ t.

(** [post] holds when the goroutine [g], started in [s], has returned,
    whatever the other goroutines do in between within [rely]; a panic is
    admitted when [crash] holds. *)
Fixpoint always_ends (rely : StateData.t → StateData.t → Prop) (crash : Prop)
    (g : goroutine) (post : StateData.t → Prop) (s : StateData.t) : Prop :=
  match g with
  | Exit => post s
  | Call op k =>
      ∀ s1, rely s s1 →
        match op s1 with
        | (Panics, _) => crash
        | (o, s') => always_ends rely crash (k o) post s'
        end
  end.

(** The store after the mutation [r] of a simulation has been settled: the
    task is updated once, to "error" with the text of the error when the
    mutation has failed and to "done" with [text] otherwise, and the locks
    on the deployment are removed. *)
Definition settled (taskID : Z) (deployment : string)
    (r : outcome unit * StateData.t) (text : string) : StateData.t :=
  RemoveLock deployment
    (UpdateTaskState taskID
       (match r.1 with Fails _ => "error" | _ => "done" end)
       (match r.1 with Fails e => error_text e | _ => text end)
       r.2).2.

(** A call that does not panic and does not touch the tasks or the locks,
    as the mutations of a simulation. *)
Definition entity_call (op : StateData.t → outcome unit * StateData.t) : Prop :=
  ∀ s, (op s).1 ≠ Panics
       ∧ StateData.Tasks (op s).2 = StateData.Tasks s
       ∧ StateData.taskObjects (op s).2 = StateData.taskObjects s
       ∧ StateData.Locks (op s).2 = StateData.Locks s.

(** The state in which a simulation leaves its task: a final state, with a
    result text. *)
Definition finished (t : Task.t) : Prop :=
  (Task.State t = "done" ∨ Task.State t = "error") ∧ Task.Result t ≠ "".

(** No lock on [deployment] is held in the name of the task [taskID]. *)
Definition lock_free (taskID : Z) (deployment : string) (s : StateData.t) : Prop :=
  ∀ l, l ∈ StateData.Locks s →
       ¬ (Lock.Resource l = deployment ∧ Lock.TaskID l = fmt_d taskID).

(** What [UpdateTaskState] returns and the task records that it leaves, as
    functions of the task map and the task records. *)
Definition update_outcome (id : Z) (T : gmap Z ptr) (O : gmap ptr Task.t)
  : outcome unit :=
  match T !! id with
  | None => Fails (TaskNotFound id)
  | Some p => match O !! p with None => Panics | Some _ => Returns tt end
  end.

Definition updated_objects (id : Z) (state result : string) (T : gmap Z ptr)
    (O : gmap ptr Task.t) : gmap ptr Task.t :=
  match T !! id with
  | None => O
  | Some p =>
      match O !! p with
      | None => O
      | Some t =>
          <[p := if nonempty result
                 then Task.set_Result result (Task.set_State state t)
                 else Task.set_State state t]> O
      end
  end.

(** A call that reads and writes neither the tasks nor the locks. *)
Definition entity_only (op : StateData.t → outcome unit * StateData.t) : Prop :=
  ∀ O L s,
    op (set_Locks L (StateData.set_taskObjects O s))
    = ((op s).1, set_Locks L (StateData.set_taskObjects O (op s).2)).

(** The map of deployments holds no nil pointer. *)
Definition deployments_allocated (s : StateData.t) : Prop :=
  ∀ name o, StateData.Deployments s !! name = Some o → is_Some o.

(** ** The vocabulary of the HTTP interface *)

(** The text contains no "/": [strings.Contains(text, "/")] is false. *)
Definition slash_free (text : string) : Prop := cut_slash text = None.

(** The value of a decimal numeral read from the left, after [value]. *)
Fixpoint numeral_value (d : Decimal.uint) (value : Z) : Z :=
  match d with
  | Decimal.Nil => value
  | Decimal.D0 l => numeral_value l (10 * value + 0)
  | Decimal.D1 l => numeral_value l (10 * value + 1)
  | Decimal.D2 l => numeral_value l (10 * value + 2)
  | Decimal.D3 l => numeral_value l (10 * value + 3)
  | Decimal.D4 l => numeral_value l (10 * value + 4)
  | Decimal.D5 l => numeral_value l (10 * value + 5)
  | Decimal.D6 l => numeral_value l (10 * value + 6)
  | Decimal.D7 l => numeral_value l (10 * value + 7)
  | Decimal.D8 l => numeral_value l (10 * value + 8)
  | Decimal.D9 l => numeral_value l (10 * value + 9)
  end.

(** The call of a handler has written a response other than the one of an
    accepted operation, and has left the store as it was and started
    nothing; it has not panicked. *)
Definition answered (s : StateData.t) (x : served) : Prop :=
  ∃ response,
    x = Served response s None ∧ Response.Status response ≠ StatusFound.


(** The call of a handler has panicked on a nil deployment pointer: the
    request is a GET, and the map of deployments holds the nil pointer under
    some name. *)
Definition nil_deployment_read (r : Request.t) (s : StateData.t) (x : served)
  : Prop :=
  x = HandlerPanics
  ∧ Request.Method r = MethodGet
  ∧ ∃ name, StateData.Deployments s !! name = Some None.

(** How a call of [routeDeployments] ends: with an answer, with [accept] for
    a deployment of the store and a simulation of it, or with a panic on a
    nil deployment pointer. *)
Definition operation (h : Handlers.t) (r : Request.t) (now : Z)
    (s : StateData.t) (x : served) : Prop :=
  answered s x
  ∨ (∃ deployment description simulate,
       HasDeployment deployment s = true
       ∧ (∀ id, simulated id deployment (simulate id))
       ∧ x = accept h description deployment now simulate s)
  ∨ nil_deployment_read r s x.

(** * Properties *)

(** ** String tests *)

Lemma nonempty_true (a : string) : nonempty a = true ↔ a ≠ "".
Proof.
  unfold nonempty. rewrite negb_true_iff. split.
  - intros H ->. discriminate.
  - intros H. destruct (String.eqb_spec a ""); congruence.
Qed.

Lemma nonempty_false (a : string) : nonempty a = false ↔ a = "".
Proof.
  unfold nonempty. rewrite negb_false_iff. apply String.eqb_eq.
Qed.

Lemma differs_true (a b : string) : differs a b = true ↔ a ≠ b.
Proof.
  unfold differs. rewrite negb_true_iff. apply String.eqb_neq.
Qed.

Lemma differs_false (a b : string) : differs a b = false ↔ a = b.
Proof.
  unfold differs. rewrite negb_false_iff. apply String.eqb_eq.
Qed.

(** The test that guards a slot of a slice: the slot is passed over when a
    job is given and the slot's job is another one. *)
Lemma job_guard_matches (job j : string) :
  job = "" ∨ j = job → nonempty job && differs j job = false.
Proof.
  intros [-> | ->].
  - reflexivity.
  - rewrite andb_false_iff. right. by apply differs_false.
Qed.

Lemma job_guard_passes_over (job j : string) :
  job ≠ "" → j ≠ job → nonempty job && differs j job = true.
Proof.
  intros H1 H2. rewrite andb_true_iff. split.
  - by apply nonempty_true.
  - by apply differs_true.
Qed.

(** ** DeleteDeployment *)

Lemma elem_of_strip_deployment (name d : string) (deps : list string) :
  d ∈ strip_deployment name deps ↔ d ∈ deps ∧ d ≠ name.
Proof.
  induction deps as [| x deps IH]; simpl.
  - rewrite elem_of_nil. tauto.
  - destruct (differs x name) eqn:E.
    + apply differs_true in E. rewrite !elem_of_cons, IH.
      split; [intros [-> | []]; auto | tauto].
    + apply differs_false in E. subst x. rewrite elem_of_cons, IH.
      split; [tauto | intros [[] ?]; [congruence | auto]].
Qed.

Lemma strip_deployment_gone (name : string) (deps : list string) :
  name ∉ strip_deployment name deps.
Proof. rewrite elem_of_strip_deployment. tauto. Qed.

(** An operation that only touches the deployment side of the store leaves
    the views of the tasks as they were. *)
Lemma task_views_frame (s s' : StateData.t) :
  StateData.Tasks s' = StateData.Tasks s →
  StateData.taskObjects s' = StateData.taskObjects s →
  (∀ id, GetTask id s' = GetTask id s)
  ∧ (∀ state deployment limit,
        GetTasks state deployment limit s' = GetTasks state deployment limit s).
Proof.
  intros HT HO. split.
  - intros id. unfold GetTask. by rewrite HT, HO.
  - intros state deployment limit. unfold GetTasks. by rewrite HT, HO.
Qed.

(** C2.  Deleting a deployment that exists succeeds; afterwards the store has
    no Deployment, VMs, Instances or Variables under that name, no stemcell
    lists the name among its deployments (the other references of each
    stemcell stay, and the stemcells are otherwise as before), and
    [GetDeployment] answers NotFound. *)
Theorem DeleteDeployment_cascades (name : string) (s : StateData.t) :
  is_Some (StateData.Deployments s !! name) →
  ∃ s',
    DeleteDeployment name s = (Returns tt, s')
    ∧ StateData.Deployments s' !! name = None
    ∧ StateData.VMs s' !! name = None
    ∧ StateData.Instances s' !! name = None
    ∧ StateData.Variables s' !! name = None
    ∧ (∀ c, c ∈ StateData.Stemcells s' → name ∉ Stemcell.Deployments c)
    ∧ Forall2 (λ c c',
         Stemcell.set_Deployments (Stemcell.Deployments c) c' = c
         ∧ ∀ d, d ∈ Stemcell.Deployments c' ↔ d ∈ Stemcell.Deployments c ∧ d ≠ name)
        (StateData.Stemcells s) (StateData.Stemcells s')
    ∧ GetDeployment name s' = Fails (DeploymentNotFound name).
Proof.
  intros [d Hd]. unfold DeleteDeployment. rewrite Hd.
  eexists. split; [reflexivity |]. simpl.
  repeat split.
  - apply lookup_delete_eq.
  - apply lookup_delete_eq.
  - apply lookup_delete_eq.
  - apply lookup_delete_eq.
  - intros c Hc. apply list_elem_of_fmap in Hc as (c0 & -> & _). simpl.
    apply strip_deployment_gone.
  - induction (StateData.Stemcells s) as [| c l IH]; simpl; constructor; auto.
    split; [by destruct c |]. intros d0. simpl. apply elem_of_strip_deployment.
  - unfold GetDeployment. simpl. by rewrite lookup_delete_eq.
Qed.

Lemma DeleteDeployment_cascades_witness :
  ∃ s',
    DeleteDeployment "redis" (DefaultFixtures t0) = (Returns tt, s')
    ∧ StateData.Deployments s' !! "redis" = None
    ∧ StateData.VMs s' !! "redis" = None
    ∧ StateData.Instances s' !! "redis" = None
    ∧ StateData.Variables s' !! "redis" = None
    ∧ (∀ c, c ∈ StateData.Stemcells s' → "redis" ∉ Stemcell.Deployments c)
    ∧ Forall2 (λ c c',
         Stemcell.set_Deployments (Stemcell.Deployments c) c' = c
         ∧ ∀ d, d ∈ Stemcell.Deployments c' ↔ d ∈ Stemcell.Deployments c ∧ d ≠ "redis")
        (StateData.Stemcells (DefaultFixtures t0)) (StateData.Stemcells s')
    ∧ GetDeployment "redis" s' = Fails (DeploymentNotFound "redis").
Proof.
  apply (DeleteDeployment_cascades "redis" (DefaultFixtures t0)).
  eexists. vm_compute. reflexivity.
Defined.

(** C3.  Deleting a name under which there is no deployment returns the
    NotFound error and the store is the one before the call. *)
Theorem DeleteDeployment_absent (name : string) (s : StateData.t) :
  StateData.Deployments s !! name = None →
  DeleteDeployment name s = (Fails (DeploymentNotFound name), s).
Proof.
  intros H. unfold DeleteDeployment. by rewrite H.
Qed.

Lemma DeleteDeployment_absent_witness :
  DeleteDeployment "nonexistent" (DefaultFixtures t0)
  = (Fails (DeploymentNotFound "nonexistent"), DefaultFixtures t0).
Proof.
  apply (DeleteDeployment_absent "nonexistent" (DefaultFixtures t0)).
  vm_compute. reflexivity.
Defined.

(** ** UpdateTaskState *)

(** C7.  On an id that the store has, [UpdateTaskState] succeeds and the
    task read back has the new state; its result text is the given one when
    that is not empty and the previous one when it is empty; the other
    fields, the task map and the tasks held at other pointers are as
    before.  On an id that the store does not have, it returns the NotFound
    error and the store is unchanged. *)
Theorem UpdateTaskState_spec (id : Z) (state result : string) (s : StateData.t) :
  (∀ p t,
      StateData.Tasks s !! id = Some p →
      StateData.taskObjects s !! p = Some t →
      ∃ s' t',
        UpdateTaskState id state result s = (Returns tt, s')
        ∧ GetTask id s' = Returns t'
        ∧ Task.State t' = state
        ∧ (result ≠ "" → Task.Result t' = result)
        ∧ (result = "" → Task.Result t' = Task.Result t)
        ∧ Task.set_State (Task.State t) (Task.set_Result (Task.Result t) t') = t
        ∧ StateData.Tasks s' = StateData.Tasks s
        ∧ (∀ q, q ≠ p → StateData.taskObjects s' !! q = StateData.taskObjects s !! q))
  ∧ (StateData.Tasks s !! id = None →
      UpdateTaskState id state result s = (Fails (TaskNotFound id), s)).
Proof.
  split.
  - intros p t Hp Ht. unfold UpdateTaskState. rewrite Hp, Ht.
    eexists. eexists. split; [reflexivity |].
    split.
    { unfold GetTask. simpl. rewrite Hp. by rewrite lookup_insert_eq. }
    destruct (nonempty result) eqn:E.
    + apply nonempty_true in E. repeat split; try done.
      * by destruct t.
      * intros q Hq. simpl. by rewrite lookup_insert_ne.
    + apply nonempty_false in E. repeat split; try done.
      * by destruct t.
      * intros q Hq. simpl. by rewrite lookup_insert_ne.
  - intros H. unfold UpdateTaskState. by rewrite H.
Qed.

Lemma UpdateTaskState_spec_witness :
  (∃ s' t',
      UpdateTaskState 2 "processing" "" (DefaultFixtures t0) = (Returns tt, s')
      ∧ GetTask 2 s' = Returns t'
      ∧ Task.State t' = "processing"
      ∧ Task.Result t' = "Created")
  ∧ UpdateTaskState 99999 "done" "" (DefaultFixtures t0)
    = (Fails (TaskNotFound 99999), DefaultFixtures t0).
Proof.
  split.
  - destruct (proj1 (UpdateTaskState_spec 2 "processing" "" (DefaultFixtures t0))
                2%positive
                (Task.mk 2 "done" "create deployment redis" (t0 - 72000)
                   "Created" "admin" "redis" ""))
      as (s' & t' & H1 & H2 & H3 & _ & H5 & _).
    + vm_compute. reflexivity.
    + vm_compute. reflexivity.
    + exists s', t'. repeat split; try assumption. by apply H5.
  - apply (proj2 (UpdateTaskState_spec 99999 "done" "" (DefaultFixtures t0))).
    vm_compute. reflexivity.
Defined.

(** ** GetTaskOutput *)

(** C9 as stated does not hold: for a kind that is not recognized the
    function returns the result text as it is, so a task without result text
    gives the empty text and not the fallback. *)
Lemma GetTaskOutput_unrecognized_counterexample :
  ¬ (∀ task kind,
        kind = "" ∨ ¬ recognized kind →
        GetTaskOutput task kind = result_view task).
Proof.
  intros H.
  specialize (H (Task.mk 7 "queued" "stop jobs in deployment cf" t0 "" "admin" "cf" "")
                "verbose").
  assert (Hk : "verbose" = "" ∨ ¬ recognized "verbose").
  { right. unfold recognized. intros [|[|[|]]]; discriminate. }
  specialize (H Hk). vm_compute in H. discriminate.
Qed.

(** C9, amended.  With no kind (the empty text), as with the kind "result",
    the function returns the result view.  With a kind that is not empty and
    not recognized it returns the result text of the task, which is the
    result view exactly when the task has a result text. *)
Theorem GetTaskOutput_default_kinds (task : Task.t) (kind : string) :
  (kind = "" ∨ kind = "result" → GetTaskOutput task kind = result_view task)
  ∧ (kind ≠ "" → ¬ recognized kind →
       GetTaskOutput task kind = Task.Result task
       ∧ (Task.Result task ≠ "" → GetTaskOutput task kind = result_view task)).
Proof.
  split.
  - intros [-> | ->]; unfold GetTaskOutput, result_view, nonempty; simpl;
      by destruct (String.eqb (Task.Result task) "").
  - intros Hne Hrec. unfold recognized in Hrec.
    assert (GetTaskOutput task kind = Task.Result task) as Hout.
    { unfold GetTaskOutput.
      destruct (String.eqb_spec kind ""); [done |].
      destruct (String.eqb_spec kind "result"); [tauto |].
      destruct (String.eqb_spec kind "debug"); [tauto |].
      destruct (String.eqb_spec kind "cpi"); [tauto |].
      destruct (String.eqb_spec kind "event"); [tauto |].
      reflexivity. }
    split; [done |].
    intros Hres. rewrite Hout. unfold result_view.
    by destruct (String.eqb_spec (Task.Result task) "").
Qed.

Lemma GetTaskOutput_default_kinds_witness :
  GetTaskOutput (Task.mk 7 "queued" "stop jobs in deployment cf" t0 "" "admin" "cf" "") ""
  = "Task 7: stop jobs in deployment cf"
  ∧ GetTaskOutput (Task.mk 7 "queued" "stop jobs in deployment cf" t0 "" "admin" "cf" "")
      "verbose" = "".
Proof.
  split.
  - apply (proj1 (GetTaskOutput_default_kinds
                    (Task.mk 7 "queued" "stop jobs in deployment cf" t0 "" "admin" "cf" "")
                    "")).
    left. reflexivity.
  - apply (proj2 (GetTaskOutput_default_kinds
                    (Task.mk 7 "queued" "stop jobs in deployment cf" t0 "" "admin" "cf" "")
                    "verbose")).
    + discriminate.
    + unfold recognized. intros [H|[H|[H|H]]]; discriminate H.
Defined.

(** ** Slices updated in place *)

(** A map entry whose slice is updated slot by slot: the slot [i] of the
    entry afterwards is the updated slot [i] of the entry before. *)
Lemma lookup_alter_map_slot {A : Type} (f : A → A) (k : string)
    (m : gmap string (list A)) (l : list A) (i : nat) (x : A) :
  m !! k = Some l → l !! i = Some x →
  alter (map f) k m !! k = Some (map f l) ∧ map f l !! i = Some (f x).
Proof.
  intros Hm Hl. split.
  - by rewrite lookup_alter_eq, Hm.
  - change (map f l) with (f <$> l). by rewrite list_lookup_fmap, Hl.
Qed.

(** ** ChangeJobState *)

Lemma change_vm_match (job newState : string) (v : VM.t) :
  job = "" ∨ VM.Job v = job →
  change_vm job newState v =
    VM.set_State (if String.eqb newState "stopped" then "stopped" else "started")
      (VM.set_ProcessState (vmProcessState_of newState) v).
Proof.
  intros H. unfold change_vm. rewrite (job_guard_matches _ _ H).
  by destruct (String.eqb newState "stopped").
Qed.

Lemma change_instance_match (job newState : string) (x : Instance.t) :
  job = "" ∨ Instance.Job x = job →
  change_instance job newState x =
    Instance.set_Processes
      (map (Process.set_State (processState_of newState)) (Instance.Processes x))
      (Instance.set_State (processState_of newState) x).
Proof.
  intros H. unfold change_instance. by rewrite (job_guard_matches _ _ H).
Qed.

Lemma state_mapping_computed (newState lifecycle proc : string) :
  state_mapping newState lifecycle proc →
  (if String.eqb newState "stopped" then "stopped" else "started") = lifecycle
  ∧ vmProcessState_of newState = proc
  ∧ processState_of newState = proc.
Proof. intros []; repeat split. Qed.

(** C5.  For a deployment that exists, [ChangeJobState] succeeds, and with
    the new state "stopped" (lifecycle "stopped", process state "stopped"),
    "started" or "restart" (lifecycle "started", process state "running"):
    every VM of the deployment whose job matches (every VM when no job is
    given) has afterwards that lifecycle state and that process state, its
    other fields unchanged; every Instance whose job matches has the process
    state as its state, and each of its processes, the same ones in number
    and in their other fields, has that state too. *)
Theorem ChangeJobState_sets_states
    (deployment job newState lifecycle proc : string) (s : StateData.t) :
  is_Some (StateData.Deployments s !! deployment) →
  state_mapping newState lifecycle proc →
  ∃ s',
    ChangeJobState deployment job newState s = (Returns tt, s')
    ∧ (∀ vms i v,
          StateData.VMs s !! deployment = Some vms → vms !! i = Some v →
          job = "" ∨ VM.Job v = job →
          ∃ vms' v',
            StateData.VMs s' !! deployment = Some vms'
            ∧ length vms' = length vms
            ∧ vms' !! i = Some v'
            ∧ VM.State v' = lifecycle
            ∧ VM.ProcessState v' = proc
            ∧ v' = VM.set_State lifecycle (VM.set_ProcessState proc v))
    ∧ (∀ instances i x,
          StateData.Instances s !! deployment = Some instances →
          instances !! i = Some x →
          job = "" ∨ Instance.Job x = job →
          ∃ instances' x',
            StateData.Instances s' !! deployment = Some instances'
            ∧ length instances' = length instances
            ∧ instances' !! i = Some x'
            ∧ Instance.State x' = proc
            ∧ Forall (λ p, Process.State p = proc) (Instance.Processes x')
            ∧ Forall2 (λ p p', p' = Process.set_State proc p)
                (Instance.Processes x) (Instance.Processes x')
            ∧ Instance.set_Processes (Instance.Processes x)
                (Instance.set_State (Instance.State x) x') = x).
Proof.
  intros [d Hd] Hmap. apply state_mapping_computed in Hmap as (Hl & Hv & Hp).
  unfold ChangeJobState. rewrite Hd. eexists. split; [reflexivity |].
  simpl. split.
  - intros vms i v Hvms Hi Hjob.
    destruct (lookup_alter_map_slot (change_vm job newState) _ _ _ _ _ Hvms Hi)
      as [H1 H2].
    eexists. eexists. split; [exact H1 |]. split; [apply length_map |].
    split; [exact H2 |].
    rewrite (change_vm_match _ _ _ Hjob), Hl, Hv. done.
  - intros instances i x Hins Hi Hjob.
    destruct (lookup_alter_map_slot (change_instance job newState) _ _ _ _ _ Hins Hi)
      as [H1 H2].
    eexists. eexists. split; [exact H1 |]. split; [apply length_map |].
    split; [exact H2 |].
    rewrite (change_instance_match _ _ _ Hjob), Hp. simpl.
    split; [done |]. split; [| split].
    + apply Forall_forall. intros p Hin.
      apply list_elem_of_fmap in Hin as (p0 & -> & _). done.
    + induction (Instance.Processes x); simpl; constructor; auto.
    + by destruct x.
Qed.

Lemma ChangeJobState_sets_states_witness :
  ∃ s',
    ChangeJobState "cf" "router" "stopped" (DefaultFixtures t0) = (Returns tt, s')
    ∧ (∃ vms' v',
          StateData.VMs s' !! "cf" = Some vms'
          ∧ vms' !! 1%nat = Some v'
          ∧ VM.State v' = "stopped" ∧ VM.ProcessState v' = "stopped")
    ∧ (∃ instances' x',
          StateData.Instances s' !! "cf" = Some instances'
          ∧ instances' !! 0%nat = Some x'
          ∧ Instance.State x' = "stopped"
          ∧ Forall (λ p, Process.State p = "stopped") (Instance.Processes x')).
Proof.
  destruct (ChangeJobState_sets_states "cf" "router" "stopped" "stopped" "stopped"
              (DefaultFixtures t0)) as (s' & Hrun & HV & HI).
  - eexists. vm_compute. reflexivity.
  - constructor.
  - exists s'. split; [exact Hrun |]. split.
    + destruct (HV (default [] (defaultVMs !! "cf")) 1%nat
                  (VM.mk "vm-cf-router-0" true "agent-cf-r0" "z1" true "cf" ["10.0.1.20"]
                     "router" 0 "cf-r0-id" "running" "started" "medium" false))
        as (vms' & v' & H1 & _ & H3 & H4 & H5 & _).
      * vm_compute. reflexivity.
      * vm_compute. reflexivity.
      * right. reflexivity.
      * exists vms', v'. auto.
    + destruct (HI (default [] (defaultInstances !! "cf")) 0%nat
                  (Instance.mk "agent-cf-r0" "z1" true "cf" "disk-cf-r0" true "cf-r0-id"
                     ["10.0.1.20"] "router" 0 "running" "medium" "vm-cf-router-0"
                     [Process.mk "gorouter" "running" (Some 1%positive) (Some 2%positive)
                        (Some 3%positive);
                      Process.mk "route_registrar" "running" (Some 4%positive)
                        (Some 5%positive) (Some 6%positive)]))
        as (ins' & x' & H1 & _ & H3 & H4 & H5 & _).
      * vm_compute. reflexivity.
      * vm_compute. reflexivity.
      * right. reflexivity.
      * exists ins', x'. auto.
Defined.

(** The slots of the other jobs are passed over. *)
Lemma ChangeJobState_other_jobs (job newState : string) (v : VM.t) (x : Instance.t) :
  job ≠ "" →
  (VM.Job v ≠ job → change_vm job newState v = v)
  ∧ (Instance.Job x ≠ job → change_instance job newState x = x).
Proof.
  intros Hjob. split; intros Hne.
  - unfold change_vm. by rewrite job_guard_passes_over.
  - unfold change_instance. by rewrite job_guard_passes_over.
Qed.

(** ** RecreateVMs *)

Example fmt_d_examples :
  fmt_d 0 = "0" ∧ fmt_d 7 = "7" ∧ fmt_d 120 = "120" ∧ fmt_d (-45) = "-45".
Proof. repeat split. Qed.

Lemma recreate_vm_selected (deployment job index : string) (v : VM.t) :
  selected job index v →
  recreate_vm deployment job index v = VM.set_VMCID (recreated_cid deployment v) v.
Proof.
  intros [Hj Hi]. unfold recreate_vm.
  rewrite (job_guard_matches _ _ Hj), (job_guard_matches _ _ Hi). reflexivity.
Qed.

Lemma recreate_vm_not_selected (deployment job index : string) (v : VM.t) :
  ¬ selected job index v → recreate_vm deployment job index v = v.
Proof.
  intros H. unfold recreate_vm.
  destruct (nonempty job && differs (VM.Job v) job) eqn:Ej; [done |].
  destruct (nonempty index && differs (fmt_d (VM.Index v)) index) eqn:Ei; [done |].
  exfalso. apply H. split.
  - apply andb_false_iff in Ej as [Ej | Ej].
    + left. by apply nonempty_false.
    + right. by apply differs_false.
  - apply andb_false_iff in Ei as [Ei | Ei].
    + left. by apply nonempty_false.
    + right. by apply differs_false.
Qed.

Lemma selected_dec (job index : string) (v : VM.t) :
  selected job index v ∨ ¬ selected job index v.
Proof.
  unfold selected.
  destruct (decide (job = "")), (decide (VM.Job v = job)),
    (decide (index = "")), (decide (fmt_d (VM.Index v) = index)); tauto.
Qed.

(** C8.  For a deployment that exists, [RecreateVMs] succeeds.  Slot by slot
    of the deployment's VMs: a selected VM gets the identifier
    "vm-{deployment}-{job of the VM}-{index of the VM}-recreated" and keeps
    every other field; a VM that is not selected is unchanged; the lifecycle
    state and the process state of every VM are as before.  The VMs of the
    other deployments are unchanged. *)
Theorem RecreateVMs_spec (deployment job index : string) (s : StateData.t) :
  is_Some (StateData.Deployments s !! deployment) →
  ∃ s',
    RecreateVMs deployment job index s = (Returns tt, s')
    ∧ (∀ vms i v,
          StateData.VMs s !! deployment = Some vms → vms !! i = Some v →
          ∃ vms' v',
            StateData.VMs s' !! deployment = Some vms'
            ∧ length vms' = length vms
            ∧ vms' !! i = Some v'
            ∧ VM.State v' = VM.State v
            ∧ VM.ProcessState v' = VM.ProcessState v
            ∧ VM.set_VMCID (VM.VMCID v) v' = v
            ∧ (selected job index v →
                 VM.VMCID v' = "vm-" ++ deployment ++ "-" ++ VM.Job v ++ "-"
                               ++ fmt_d (VM.Index v) ++ "-recreated")
            ∧ (¬ selected job index v → v' = v))
    ∧ (∀ d, d ≠ deployment → StateData.VMs s' !! d = StateData.VMs s !! d)
    ∧ StateData.set_VMs (StateData.VMs s) s' = s.
Proof.
  intros [d Hd]. unfold RecreateVMs. rewrite Hd.
  eexists. split; [reflexivity |]. simpl. split; [| split].
  - intros vms i v Hvms Hi.
    destruct (lookup_alter_map_slot (recreate_vm deployment job index)
                _ _ _ _ _ Hvms Hi) as [H1 H2].
    eexists. eexists. split; [exact H1 |]. split; [apply length_map |].
    split; [exact H2 |].
    destruct (selected_dec job index v) as [Hsel | Hsel].
    + rewrite (recreate_vm_selected _ _ _ _ Hsel).
      repeat split; try done. by destruct v.
    + rewrite (recreate_vm_not_selected _ _ _ _ Hsel).
      repeat split; try done. by destruct v.
  - intros d0 Hne. by rewrite lookup_alter_ne.
  - by destruct s.
Qed.

Lemma RecreateVMs_spec_witness :
  ∃ s' vms' v0 v1,
    RecreateVMs "redis" "redis" "0" (DefaultFixtures t0) = (Returns tt, s')
    ∧ StateData.VMs s' !! "redis" = Some vms'
    ∧ vms' !! 0%nat = Some v0
    ∧ VM.VMCID v0 = "vm-redis-redis-0-recreated"
    ∧ vms' !! 1%nat = Some v1
    ∧ VM.VMCID v1 = "vm-redis-1".
Proof.
  destruct (RecreateVMs_spec "redis" "redis" "0" (DefaultFixtures t0))
    as (s' & Hrun & HV & _).
  - eexists. vm_compute. reflexivity.
  - destruct (HV (default [] (defaultVMs !! "redis")) 0%nat
                (VM.mk "vm-redis-0" true "agent-redis-0" "z1" true "redis" ["10.0.4.10"]
                   "redis" 0 "redis-0-id" "running" "started" "medium" false))
      as (vms' & v0 & H1 & _ & H3 & _ & _ & _ & H7 & _);
      [vm_compute; reflexivity | vm_compute; reflexivity |].
    destruct (HV (default [] (defaultVMs !! "redis")) 1%nat
                (VM.mk "vm-redis-1" true "agent-redis-1" "z2" false "redis" ["10.0.4.11"]
                   "redis" 1 "redis-1-id" "running" "started" "medium" false))
      as (vms1 & v1 & G1 & _ & G3 & _ & _ & _ & _ & G8);
      [vm_compute; reflexivity | vm_compute; reflexivity |].
    rewrite H1 in G1. injection G1 as <-.
    exists s', vms', v0, v1. repeat split; try assumption.
    + apply H7. split; right; reflexivity.
    + rewrite G8; [reflexivity |].
      intros [_ [Hi | Hi]]; discriminate Hi.
Defined.

(** ** GetTasks *)

Lemma skipped_false (state deployment : string) (t : Task.t) :
  skipped state deployment t = false ↔ task_matches state deployment t.
Proof.
  unfold skipped, task_matches.
  rewrite orb_false_iff, !andb_false_iff, !nonempty_false, !differs_false.
  tauto.
Qed.

Lemma collect_allocated (state deployment : string) (mem : gmap ptr Task.t)
    (ps : list (Z * ptr)) :
  (∀ e, e ∈ ps → is_Some (mem !! e.2)) →
  collect state deployment mem ps
  = Some (filter (task_matches state deployment) (omap (deref mem) ps)).
Proof.
  induction ps as [| [id p] ps IH]; intros Hall; [reflexivity |].
  simpl. destruct (Hall (id, p)) as [t Ht]; [left |].
  simpl in Ht. unfold deref at 1. simpl. rewrite Ht.
  rewrite IH by (intros e He; apply Hall; by right).
  rewrite filter_cons.
  destruct (skipped state deployment t) eqn:E.
  - rewrite decide_False; [done |]. rewrite <- skipped_false. congruence.
  - rewrite decide_True; [done |]. by apply skipped_false.
Qed.

#[global] Instance newest_first_total : Total newest_first.
Proof. intros a b. unfold newest_first. lia. Qed.

#[global] Instance newest_first_trans : Transitive newest_first.
Proof. intros a b c. unfold newest_first. lia. Qed.

Lemma truncate_positive (limit : Z) (l : list Task.t) :
  0 < limit → truncate limit l = take (Z.to_nat limit) l.
Proof.
  intros H. unfold truncate.
  destruct (0 <? limit) eqn:E1; [| apply Z.ltb_ge in E1; lia].
  destruct (limit <? Z.of_nat (length l)) eqn:E2; [done |].
  apply Z.ltb_ge in E2. simpl. symmetry. apply take_ge. lia.
Qed.

Lemma truncate_unbounded (limit : Z) (l : list Task.t) :
  limit ≤ 0 → truncate limit l = l.
Proof.
  intros H. unfold truncate.
  destruct (0 <? limit) eqn:E1; [apply Z.ltb_lt in E1; lia | done].
Qed.

(** The function [GetTasks] of the model is one of the outcomes of the
    source. *)
Lemma GetTasks_may_return_GetTasks (state deployment : string) (limit : Z)
    (s : StateData.t) :
  GetTasks_may_return state deployment limit s (GetTasks state deployment limit s).
Proof.
  exists (map_to_list (StateData.Tasks s)). split; [done |].
  unfold GetTasks.
  destruct (collect state deployment (StateData.taskObjects s)
              (map_to_list (StateData.Tasks s))) as [result |]; [| done].
  exists (merge_sort newest_first result). split; [| split].
  - apply merge_sort_Permutation.
  - apply StronglySorted_merge_sort; apply _.
  - reflexivity.
Qed.

Lemma elem_of_stored_tasks (s : StateData.t) (t : Task.t) :
  t ∈ stored_tasks s
  ↔ ∃ id p, StateData.Tasks s !! id = Some p
            ∧ StateData.taskObjects s !! p = Some t.
Proof.
  unfold stored_tasks. rewrite list_elem_of_omap. split.
  - intros ([id p] & Hin & Hd). apply elem_of_map_to_list in Hin. eauto.
  - intros (id & p & Hin & Hd). exists (id, p). split; [| done].
    by apply elem_of_map_to_list.
Qed.

(** C4.  In a store whose task map holds no nil pointer, every outcome of
    [GetTasks] (whatever the iteration order of the map and the arrangement
    of equal ids by the sort) is a list built from the list [matches] of the
    tasks that pass both filters: a task is in [matches] exactly when it is
    stored and passes the state filter and the deployment filter (a filter
    that is empty lets every task pass), as often as it is stored;
    [matches] is ordered by id, greatest first; with [limit > 0] the outcome
    is the first [limit] tasks of [matches] (all of them when there are not
    more), with [limit <= 0] it is all of [matches]. *)
Theorem GetTasks_spec (state deployment : string) (limit : Z) (s : StateData.t)
    (out : outcome (list Task.t)) :
  tasks_allocated s →
  GetTasks_may_return state deployment limit s out →
  ∃ matches,
    (∀ t, t ∈ matches
          ↔ (∃ id p, StateData.Tasks s !! id = Some p
                     ∧ StateData.taskObjects s !! p = Some t)
            ∧ (state = "" ∨ Task.State t = state)
            ∧ (deployment = "" ∨ Task.Deployment t = deployment))
    ∧ matches ≡ₚ filter (task_matches state deployment) (stored_tasks s)
    ∧ StronglySorted (λ a b, Task.ID b ≤ Task.ID a) matches
    ∧ (0 < limit → out = Returns (take (Z.to_nat limit) matches))
    ∧ (limit ≤ 0 → out = Returns matches).
Proof.
  intros Halloc (order & Hperm & Hout).
  rewrite collect_allocated in Hout.
  2:{ intros [id p] He. rewrite Hperm in He.
      apply elem_of_map_to_list in He. by apply (Halloc id). }
  destruct Hout as (sorted & Hs & Hsorted & ->).
  assert (sorted ≡ₚ filter (task_matches state deployment) (stored_tasks s)) as HP.
  { rewrite Hs. unfold stored_tasks. by rewrite Hperm. }
  exists sorted. split; [| split; [| split; [| split]]].
  - intros t. rewrite HP, list_elem_of_filter, elem_of_stored_tasks.
    unfold task_matches. tauto.
  - exact HP.
  - exact Hsorted.
  - intros H. by rewrite truncate_positive.
  - intros H. by rewrite truncate_unbounded.
Qed.

Lemma tasks_allocated_fixtures : tasks_allocated (DefaultFixtures t0).
Proof.
  change (map_Forall (λ (_ : Z) (p : ptr),
            is_Some (StateData.taskObjects (DefaultFixtures t0) !! p))
            (StateData.Tasks (DefaultFixtures t0))).
  apply (bool_decide_unpack _). vm_compute. exact I.
Defined.

Lemma GetTasks_spec_witness :
  ∃ matches,
    (∀ t, t ∈ matches
          ↔ (∃ id p, StateData.Tasks (DefaultFixtures t0) !! id = Some p
                     ∧ StateData.taskObjects (DefaultFixtures t0) !! p = Some t)
            ∧ ("done" = "" ∨ Task.State t = "done")
            ∧ ("" = "" ∨ Task.Deployment t = ""))
    ∧ matches ≡ₚ filter (task_matches "done" "") (stored_tasks (DefaultFixtures t0))
    ∧ StronglySorted (λ a b, Task.ID b ≤ Task.ID a) matches
    ∧ (0 < 2 → GetTasks "done" "" 2 (DefaultFixtures t0)
               = Returns (take (Z.to_nat 2) matches))
    ∧ (2 ≤ 0 → GetTasks "done" "" 2 (DefaultFixtures t0) = Returns matches).
Proof.
  apply (GetTasks_spec "done" "" 2 (DefaultFixtures t0)
           (GetTasks "done" "" 2 (DefaultFixtures t0))).
  - exact tasks_allocated_fixtures.
  - apply GetTasks_may_return_GetTasks.
Defined.

Example GetTasks_newest_two :
  GetTasks "done" "" 2 (DefaultFixtures t0)
  = Returns [Task.mk 8 "done" "update cloud config" (t0 - 3600) "Updated" "admin" "" "";
             Task.mk 2 "done" "create deployment redis" (t0 - 72000) "Created"
               "admin" "redis" ""].
Proof. vm_compute. reflexivity. Qed.

Example GetTasks_after_delete :
  GetTasks "" "redis" 0 (DeleteDeployment "redis" (DefaultFixtures t0)).2
  = Returns [Task.mk 2 "done" "create deployment redis" (t0 - 72000) "Created"
               "admin" "redis" ""].
Proof. vm_compute. reflexivity. Qed.

Lemma keyed_by_id_distinct (s : StateData.t) (a b : Task.t) :
  keyed_by_id s → a ∈ stored_tasks s → b ∈ stored_tasks s →
  Task.ID a = Task.ID b → a = b.
Proof.
  intros Hk Ha Hb Hid.
  apply elem_of_stored_tasks in Ha as (ia & pa & Ha1 & Ha2).
  apply elem_of_stored_tasks in Hb as (ib & pb & Hb1 & Hb2).
  pose proof (Hk _ _ _ Ha1 Ha2). pose proof (Hk _ _ _ Hb1 Hb2).
  assert (ia = ib) by congruence. subst ib. congruence.
Qed.

(** X21.  With no nil task pointer and every task stored under its own id,
    [GetTasks] has only one outcome, the one of the model, whatever the
    order in which the map is iterated and however [sort.Slice] arranges
    equal elements. *)
Lemma sorted_result_unique (state deployment : string) (limit : Z)
    (s : StateData.t) (out : outcome (list Task.t)) :
  tasks_allocated s → keyed_by_id s →
  GetTasks_may_return state deployment limit s out →
  out = GetTasks state deployment limit s.
Proof.
  intros Halloc Hk (order & Hperm & Hout).
  assert (∀ l, l ≡ₚ map_to_list (StateData.Tasks s) →
               ∀ e, e ∈ l → is_Some (StateData.taskObjects s !! e.2)) as Hal.
  { intros l Hl [id p] He. rewrite Hl in He.
    apply elem_of_map_to_list in He. by apply (Halloc id). }
  rewrite collect_allocated in Hout by (by apply Hal).
  destruct Hout as (sorted & Hs & Hsorted & ->).
  unfold GetTasks. rewrite collect_allocated by (by apply Hal).
  f_equal. f_equal.
  apply (StronglySorted_unique_strong newest_first).
  - intros x1 x2 H1 H2 R1 R2. unfold newest_first in R1, R2.
    apply (keyed_by_id_distinct s); [done | | | lia].
    + rewrite Hs, Hperm in H1. apply list_elem_of_filter in H1. tauto.
    + rewrite merge_sort_Permutation in H2.
      apply list_elem_of_filter in H2. tauto.
  - exact Hsorted.
  - apply StronglySorted_merge_sort; apply _.
  - rewrite merge_sort_Permutation, Hs. by rewrite Hperm.
Qed.

(** In a store without nil task pointers [GetTasks] returns, and what it
    returns is computed from the stored tasks alone. *)
Lemma GetTasks_allocated (state deployment : string) (limit : Z) (s : StateData.t) :
  tasks_allocated s →
  GetTasks state deployment limit s
  = Returns (truncate limit
               (merge_sort newest_first
                  (filter (task_matches state deployment) (stored_tasks s)))).
Proof.
  intros Halloc. unfold GetTasks. rewrite collect_allocated; [done |].
  intros [id p] He. apply elem_of_map_to_list in He. by apply (Halloc id).
Qed.

(** ** DeleteDeployment and the tasks *)

(** C10.  [DeleteDeployment] does not touch the tasks: whatever it returns,
    the task map, the task records and the id counter are the ones before
    the call, so [GetTask] and [GetTasks] answer as before for every id and
    every filter.  In particular a task of the deleted deployment is still
    returned by [GetTask] under its id, and (the task map holding no nil
    pointer) it is in the list that [GetTasks] returns without filter and
    with the deleted deployment as filter. *)
Theorem DeleteDeployment_keeps_tasks (name : string) (s : StateData.t) :
  StateData.Tasks (DeleteDeployment name s).2 = StateData.Tasks s
  ∧ StateData.taskObjects (DeleteDeployment name s).2 = StateData.taskObjects s
  ∧ StateData.nextTaskID (DeleteDeployment name s).2 = StateData.nextTaskID s
  ∧ (∀ id, GetTask id (DeleteDeployment name s).2 = GetTask id s)
  ∧ (∀ state deployment limit,
        GetTasks state deployment limit (DeleteDeployment name s).2
        = GetTasks state deployment limit s)
  ∧ (∀ id p t,
        StateData.Tasks s !! id = Some p →
        StateData.taskObjects s !! p = Some t →
        Task.Deployment t = name →
        GetTask id (DeleteDeployment name s).2 = Returns t
        ∧ (tasks_allocated s →
           ∀ deployment, deployment = "" ∨ deployment = name →
             ∃ l, GetTasks "" deployment 0 (DeleteDeployment name s).2 = Returns l
                  ∧ t ∈ l)).
Proof.
  assert (StateData.Tasks (DeleteDeployment name s).2 = StateData.Tasks s
          ∧ StateData.taskObjects (DeleteDeployment name s).2 = StateData.taskObjects s
          ∧ StateData.nextTaskID (DeleteDeployment name s).2 = StateData.nextTaskID s)
    as (HT & HO & HN).
  { unfold DeleteDeployment. destruct (StateData.Deployments s !! name); done. }
  destruct (task_views_frame s (DeleteDeployment name s).2 HT HO) as [HG HL].
  split; [done |]. split; [done |]. split; [done |].
  split; [done |]. split; [done |].
  intros id p t Hp Ht Hdep. split.
  - rewrite HG. unfold GetTask. by rewrite Hp, Ht.
  - intros Halloc deployment Hfilter. rewrite HL.
    rewrite (GetTasks_allocated _ _ _ _ Halloc), truncate_unbounded by lia.
    eexists. split; [reflexivity |].
    rewrite merge_sort_Permutation, list_elem_of_filter, elem_of_stored_tasks.
    split; [| eauto]. split; [by left |]. destruct Hfilter; [by left | right; congruence].
Qed.

Lemma DeleteDeployment_keeps_tasks_witness :
  GetTask 2 (DeleteDeployment "redis" (DefaultFixtures t0)).2
  = Returns (Task.mk 2 "done" "create deployment redis" (t0 - 72000) "Created"
               "admin" "redis" "")
  ∧ ∃ l, GetTasks "" "redis" 0 (DeleteDeployment "redis" (DefaultFixtures t0)).2
         = Returns l
         ∧ Task.mk 2 "done" "create deployment redis" (t0 - 72000) "Created"
             "admin" "redis" "" ∈ l.
Proof.
  destruct (DeleteDeployment_keeps_tasks "redis" (DefaultFixtures t0))
    as (_ & _ & _ & _ & _ & H).
  destruct (H 2 2%positive
              (Task.mk 2 "done" "create deployment redis" (t0 - 72000) "Created"
                 "admin" "redis" "")) as [H1 H2].
  - vm_compute. reflexivity.
  - vm_compute. reflexivity.
  - reflexivity.
  - split; [exact H1 |].
    apply (H2 tasks_allocated_fixtures "redis"). right. reflexivity.
Defined.

(** ** CreateTask *)

Lemma wrap_int_in_range (z : Z) : min_int ≤ z ≤ max_int → wrap_int z = z.
Proof.
  unfold min_int, max_int, wrap_int. intros H.
  rewrite Z.mod_small by lia. lia.
Qed.

Lemma fresh_pointer_unused (s : StateData.t) :
  StateData.taskObjects s !! new_task s = None.
Proof.
  apply not_elem_of_dom. unfold new_task. intros H.
  apply (is_fresh (dom (StateData.taskObjects s)
                   ∪ map_img (SA:=gset ptr) (StateData.Tasks s))).
  by apply elem_of_union_l.
Qed.

(** The new location is not a pointer of the task map, nil or not. *)
Lemma fresh_pointer_unreferenced (s : StateData.t) (id : Z) :
  StateData.Tasks s !! id ≠ Some (new_task s).
Proof.
  unfold new_task. intros H.
  apply (is_fresh (dom (StateData.taskObjects s)
                   ∪ map_img (SA:=gset ptr) (StateData.Tasks s))).
  apply elem_of_union_r. apply elem_of_map_img. by exists id.
Qed.

(** What one call of [CreateTask] does to the store. *)
Lemma CreateTask_effect (description deployment user : string) (now : Z)
    (s : StateData.t) :
  ∃ p s1,
    CreateTask description deployment user now s = (p, s1)
    ∧ StateData.taskObjects s !! p = None
    ∧ StateData.nextTaskID s1 = wrap_int (StateData.nextTaskID s + 1)
    ∧ StateData.Tasks s1 = <[StateData.nextTaskID s1 := p]> (StateData.Tasks s)
    ∧ StateData.taskObjects s1
      = <[p := Task.mk (StateData.nextTaskID s1) "queued" description now ""
                user deployment ""]> (StateData.taskObjects s).
Proof.
  eexists. eexists. split; [reflexivity |]. simpl.
  split; [exact (fresh_pointer_unused (StateData.set_nextTaskID _ s)) | done].
Qed.

(** A nil pointer of the task map is still nil after [CreateTask], unless
    the new task takes its place in the map. *)
Lemma CreateTask_keeps_nil (description deployment user : string) (now id : Z)
    (s : StateData.t) :
  GetTask id s = Panics →
  id ≠ wrap_int (StateData.nextTaskID s + 1) →
  GetTask id (CreateTask description deployment user now s).2 = Panics.
Proof.
  unfold GetTask, CreateTask.
  cbn [snd StateData.Tasks StateData.taskObjects StateData.nextTaskID
         StateData.set_Tasks StateData.set_taskObjects StateData.set_nextTaskID].
  intros H Hid. rewrite lookup_insert_ne by done.
  destruct (StateData.Tasks s !! id) as [p |] eqn:E; [| done].
  rewrite lookup_insert_ne.
  - by destruct (StateData.taskObjects s !! p).
  - intros <-. by apply (fresh_pointer_unreferenced
                           (StateData.set_nextTaskID
                              (wrap_int (StateData.nextTaskID s + 1)) s) id).
Qed.





Lemma ids_below_counter_fixtures : ids_below_counter (DefaultFixtures t0).
Proof.
  intros id p Hp. apply elem_of_map_to_list in Hp. vm_compute in Hp.
  repeat (apply elem_of_cons in Hp as [Hp | Hp];
          [injection Hp as -> _; vm_compute; discriminate |]).
  by apply elem_of_nil in Hp.
Qed.



Example create_all_fixture_ids :
  (create_all [("first", "cf", "admin", t0); ("second", "redis", "admin", t0);
               ("third", "", "admin", t0)] (DefaultFixtures t0)).1
  = [101; 102; 103].
Proof. vm_compute. reflexivity. Qed.

(** [CreateTask] advances the counter to the next id, and stores under that
    id a task in state "queued" whose timestamp is the reading of the clock,
    with the description, deployment and user given and no result text; the
    pointer that it returns is the one stored in the task map. *)
Lemma CreateTask_stores (description deployment user : string) (now : Z)
    (s : StateData.t) :
  ∃ p s1,
    CreateTask description deployment user now s = (p, s1)
    ∧ StateData.nextTaskID s1 = wrap_int (StateData.nextTaskID s + 1)
    ∧ GetTask (StateData.nextTaskID s1) s1
      = Returns (Task.mk (StateData.nextTaskID s1) "queued" description now ""
                   user deployment "")
    ∧ StateData.Tasks s1 !! StateData.nextTaskID s1 = Some p.
Proof.
  destruct (CreateTask_effect description deployment user now s)
    as (p & s1 & Hrun & _ & Hn & HT & HO).
  exists p, s1. split; [done |]. split; [done |].
  unfold GetTask. rewrite HT, lookup_insert_eq, HO, lookup_insert_eq. done.
Qed.

(** The record that [CreateTask] returns is not a copy: an assignment to a
    field of the returned task is an assignment to the stored task, which
    [GetTask] then reports. *)
Lemma CreateTask_result_aliases_store (description deployment user : string)
    (now : Z) (s : StateData.t) (f : Task.t → Task.t) :
  ∃ p s1,
    CreateTask description deployment user now s = (p, s1)
    ∧ GetTask (StateData.nextTaskID s1) (write_through p f s1)
      = Returns (f (Task.mk (StateData.nextTaskID s1) "queued" description now ""
                      user deployment "")).
Proof.
  destruct (CreateTask_effect description deployment user now s)
    as (p & s1 & Hrun & _ & Hn & HT & HO).
  exists p, s1. split; [done |].
  unfold GetTask, write_through. simpl.
  rewrite HT, lookup_insert_eq, lookup_alter_eq, HO, lookup_insert_eq. done.
Qed.

(** C6 at a concrete store: the caller of [CreateTask] sets the state of the
    task that it was given to "done", and the store then reports the task
    101 as "done", although no operation of the store was called. *)
Lemma CreateTask_copy_failing_input :
  let '(p, s1) := CreateTask "delete deployment redis" "redis" "admin" t0
                    (DefaultFixtures t0) in
  GetTask 101 s1
  = Returns (Task.mk 101 "queued" "delete deployment redis" t0 "" "admin" "redis" "")
  ∧ StateData.Tasks s1 !! 101 = Some p
  ∧ GetTask 101 (write_through p (Task.set_State "done") s1)
    = Returns (Task.mk 101 "done" "delete deployment redis" t0 "" "admin" "redis" "")
  ∧ GetTask 101 (write_through p (Task.set_State "done") s1) ≠ GetTask 101 s1.
Proof. vm_compute. repeat split; discriminate. Qed.

(** ** Invariants of the task map *)

Lemma keyed_by_id_fixtures : keyed_by_id (DefaultFixtures t0).
Proof.
  intros id p t Hp Ht.
  apply elem_of_map_to_list in Hp. vm_compute in Hp.
  repeat (apply elem_of_cons in Hp as [Hp | Hp];
          [injection Hp as -> ->; vm_compute in Ht; by injection Ht as <- |]).
  by apply elem_of_nil in Hp.
Qed.

Lemma CreateTask_keeps_invariants (description deployment user : string)
    (now : Z) (s : StateData.t) :
  tasks_allocated s → keyed_by_id s →
  tasks_allocated (CreateTask description deployment user now s).2
  ∧ keyed_by_id (CreateTask description deployment user now s).2.
Proof.
  intros Ha Hk.
  destruct (CreateTask_effect description deployment user now s)
    as (p & s1 & -> & Hfresh & Hn & HT & HO). simpl.
  split.
  - intros id q. rewrite HT, HO. intros Hq.
    destruct (decide (q = p)) as [-> | Hne].
    + rewrite lookup_insert_eq. by eexists.
    + rewrite lookup_insert_ne by done.
      apply lookup_insert_Some in Hq as [[_ ?] | [_ Hq]]; [congruence |].
      by apply (Ha id).
  - intros id q t. rewrite HT, HO. intros Hq Ht.
    apply lookup_insert_Some in Hq as [[<- <-] | [Hid Hq]].
    + rewrite lookup_insert_eq in Ht. by injection Ht as <-.
    + destruct (decide (q = p)) as [-> | Hne].
      * destruct (Ha _ _ Hq) as [t' Ht']. congruence.
      * rewrite lookup_insert_ne in Ht by done. by apply (Hk id q).
Qed.

Lemma UpdateTaskState_keeps_invariants (id : Z) (state result : string)
    (s : StateData.t) :
  tasks_allocated s → keyed_by_id s →
  tasks_allocated (UpdateTaskState id state result s).2
  ∧ keyed_by_id (UpdateTaskState id state result s).2.
Proof.
  intros Ha Hk. unfold UpdateTaskState.
  destruct (StateData.Tasks s !! id) as [p |] eqn:Hp; [| done].
  destruct (StateData.taskObjects s !! p) as [t |] eqn:Ht; [| done].
  unfold tasks_allocated, keyed_by_id. simpl. split.
  - intros id' q Hq. destruct (decide (q = p)) as [-> | Hne].
    + rewrite lookup_insert_eq. by eexists.
    + rewrite lookup_insert_ne by done. by apply (Ha id').
  - intros id' q t' Hq Ht'. destruct (decide (q = p)) as [-> | Hne].
    + rewrite lookup_insert_eq in Ht'. injection Ht' as <-.
      rewrite <- (Hk _ _ _ Hq Ht). by destruct (nonempty result).
    + rewrite lookup_insert_ne in Ht' by done. by apply (Hk id' q).
Qed.

(** * Further properties of the store *)

(** ** Locks *)

Lemma other_locks_filter (resource : string) (locks : list Lock.t) :
  other_locks resource locks = filter (λ l, Lock.Resource l ≠ resource) locks.
Proof.
  induction locks as [| l locks IH]; [reflexivity |].
  simpl. rewrite filter_cons, IH.
  destruct (differs (Lock.Resource l) resource) eqn:E.
  - apply differs_true in E. by rewrite decide_True.
  - apply differs_false in E. by rewrite decide_False by tauto.
Qed.

Lemma elem_of_other_locks (resource : string) (locks : list Lock.t) (l : Lock.t) :
  l ∈ other_locks resource locks ↔ l ∈ locks ∧ Lock.Resource l ≠ resource.
Proof. rewrite other_locks_filter, list_elem_of_filter. tauto. Qed.

Lemma other_locks_app (resource : string) (l1 l2 : list Lock.t) :
  other_locks resource (l1 ++ l2)%list
  = (other_locks resource l1 ++ other_locks resource l2)%list.
Proof. rewrite !other_locks_filter. apply filter_app. Qed.

Lemma other_locks_none (resource : string) (locks : list Lock.t) :
  (∀ l, l ∈ locks → Lock.Resource l ≠ resource) →
  other_locks resource locks = locks.
Proof.
  induction locks as [| l locks IH]; intros H; [reflexivity |]. simpl.
  rewrite (proj2 (differs_true _ _)) by (apply H; left).
  f_equal. apply IH. intros l' Hl'. apply H. by right.
Qed.

Lemma set_Locks_same (s : StateData.t) : set_Locks (StateData.Locks s) s = s.
Proof. by destruct s. Qed.

(** X1.  [RemoveLock] drops every lock on the resource, whichever task
    holds it, and nothing else: the locks afterwards are the locks on other
    resources, in their order, and the store is otherwise as before.
    Removing again changes nothing. *)
Theorem RemoveLock_removes_all_of_resource (resource : string) (s : StateData.t) :
  (∀ l, l ∈ GetLocks (RemoveLock resource s)
        ↔ l ∈ GetLocks s ∧ Lock.Resource l ≠ resource)
  ∧ GetLocks (RemoveLock resource s) `sublist_of` GetLocks s
  ∧ set_Locks (GetLocks s) (RemoveLock resource s) = s
  ∧ RemoveLock resource (RemoveLock resource s) = RemoveLock resource s.
Proof.
  unfold GetLocks, RemoveLock. simpl. split; [| split; [| split]].
  - intros l. apply elem_of_other_locks.
  - rewrite other_locks_filter. apply sublist_filter.
  - by destruct s.
  - unfold set_Locks. simpl. f_equal.
    apply other_locks_none. intros l Hl. by apply elem_of_other_locks in Hl as [_ ?].
Qed.

(** X2.  A lock added for a resource and then removed: the removal takes
    with it every older lock on that resource, so the store is the one that
    the removal alone would give, and it is the store before the two calls
    exactly when no lock on the resource was there.  A lock added for another
    resource stays, as the last lock. *)
Theorem AddLock_RemoveLock (lockType resource taskID timeout other : string)
    (s : StateData.t) :
  RemoveLock resource (AddLock lockType resource taskID timeout s)
  = RemoveLock resource s
  ∧ (RemoveLock resource (AddLock lockType resource taskID timeout s) = s
     ↔ ∀ l, l ∈ GetLocks s → Lock.Resource l ≠ resource)
  ∧ (other ≠ resource →
     RemoveLock resource (AddLock lockType other taskID timeout s)
     = AddLock lockType other taskID timeout (RemoveLock resource s)).
Proof.
  assert (RemoveLock resource (AddLock lockType resource taskID timeout s)
          = RemoveLock resource s) as E.
  { unfold RemoveLock, AddLock, set_Locks. simpl. f_equal.
    rewrite other_locks_app. simpl.
    rewrite (proj2 (differs_false _ _)) by done. apply app_nil_r. }
  split; [exact E |]. split.
  - rewrite E. unfold GetLocks. split.
    + intros H l Hl. rewrite <- H in Hl. simpl in Hl.
      by apply elem_of_other_locks in Hl as [_ ?].
    + intros H. unfold RemoveLock. rewrite other_locks_none by done.
      apply set_Locks_same.
  - intros Hne. unfold RemoveLock, AddLock, set_Locks. simpl. f_equal.
    rewrite other_locks_app. simpl.
    by rewrite (proj2 (differs_true _ _)) by done.
Qed.

Lemma AddLock_RemoveLock_witness :
  RemoveLock "redis"
    (AddLock "deployment" "cf" "101" lock_timeout (DefaultFixtures t0))
  = AddLock "deployment" "cf" "101" lock_timeout
      (RemoveLock "redis" (DefaultFixtures t0)).
Proof.
  apply (AddLock_RemoveLock "deployment" "redis" "101" lock_timeout "cf"
           (DefaultFixtures t0)).
  discriminate.
Defined.

(** ** Whether a deployment exists *)

(** X3.  Every operation of the store decides whether a deployment exists by
    the map of deployments alone, so all agree with [HasDeployment].  When
    it answers true, the list getters return the VMs, instances and
    variables stored under the name, the empty list when nothing is stored
    there, and the three mutations succeed; [GetDeployment], the only one of
    them that follows the pointer, returns the record behind it, and panics
    exactly when the map holds the nil pointer under the name.  When
    [HasDeployment] answers false, the four getters and the three mutations
    return the same NotFound error, whatever is stored under the name in the
    other maps, and the mutations leave the store as it is. *)
Theorem HasDeployment_agrees (name job index newState : string) (s : StateData.t) :
  (HasDeployment name s = true →
     (∀ d, GetDeployment name s = Returns d
           ↔ StateData.Deployments s !! name = Some (Some d))
     ∧ (GetDeployment name s = Panics
        ↔ StateData.Deployments s !! name = Some None)
     ∧ GetVMs name s = Returns (default [] (StateData.VMs s !! name))
     ∧ GetInstances name s = Returns (default [] (StateData.Instances s !! name))
     ∧ GetVariables name s = Returns (default [] (StateData.Variables s !! name))
     ∧ (DeleteDeployment name s).1 = Returns tt
     ∧ (RecreateVMs name job index s).1 = Returns tt
     ∧ (ChangeJobState name job newState s).1 = Returns tt)
  ∧ (HasDeployment name s = false →
     GetDeployment name s = Fails (DeploymentNotFound name)
     ∧ GetVMs name s = Fails (DeploymentNotFound name)
     ∧ GetInstances name s = Fails (DeploymentNotFound name)
     ∧ GetVariables name s = Fails (DeploymentNotFound name)
     ∧ DeleteDeployment name s = (Fails (DeploymentNotFound name), s)
     ∧ RecreateVMs name job index s = (Fails (DeploymentNotFound name), s)
     ∧ ChangeJobState name job newState s = (Fails (DeploymentNotFound name), s)).
Proof.
  unfold HasDeployment, GetDeployment, GetVMs, GetInstances, GetVariables,
    DeleteDeployment, RecreateVMs, ChangeJobState.
  destruct (StateData.Deployments s !! name) as [[d |] |]; split;
    intros H; try discriminate H; repeat split; try done; congruence.
Qed.

Lemma HasDeployment_agrees_witness :
  GetVMs "nonexistent" (DefaultFixtures t0) = Fails (DeploymentNotFound "nonexistent")
  ∧ ChangeJobState "nonexistent" "" "stopped" (DefaultFixtures t0)
    = (Fails (DeploymentNotFound "nonexistent"), DefaultFixtures t0).
Proof.
  destruct (proj2 (HasDeployment_agrees "nonexistent" "" "" "stopped"
                     (DefaultFixtures t0)))
    as (_ & H2 & _ & _ & _ & _ & H7).
  - vm_compute. reflexivity.
  - exact (conj H2 H7).
Defined.

(** ** DeleteDeployment, continued *)

Lemma DeleteDeployment_state (name : string) (s : StateData.t) :
  StateData.Deployments (DeleteDeployment name s).2
  = delete name (StateData.Deployments s).
Proof.
  unfold DeleteDeployment.
  destruct (StateData.Deployments s !! name) eqn:E; simpl; [done |].
  symmetry. by apply delete_id.
Qed.

(** X4.  After [DeleteDeployment], with success or not, the deployment is
    gone for every reader, and a second [DeleteDeployment] of the name
    returns NotFound and changes nothing. *)
Theorem DeleteDeployment_twice (name : string) (s : StateData.t) :
  HasDeployment name (DeleteDeployment name s).2 = false
  ∧ GetVMs name (DeleteDeployment name s).2 = Fails (DeploymentNotFound name)
  ∧ GetInstances name (DeleteDeployment name s).2 = Fails (DeploymentNotFound name)
  ∧ GetVariables name (DeleteDeployment name s).2 = Fails (DeploymentNotFound name)
  ∧ DeleteDeployment name (DeleteDeployment name s).2
    = (Fails (DeploymentNotFound name), (DeleteDeployment name s).2).
Proof.
  pose proof (DeleteDeployment_state name s) as E.
  generalize dependent (DeleteDeployment name s).2. intros s1 E.
  unfold HasDeployment, GetVMs, GetInstances, GetVariables, DeleteDeployment.
  rewrite E, lookup_delete_eq. done.
Qed.

(** X5.  [DeleteDeployment] leaves the other deployments alone: every
    reader answers for another name as before, and the locks, the releases
    and the configurations are as before. *)
Theorem DeleteDeployment_frame (name other : string) (s : StateData.t) :
  other ≠ name →
  GetDeployment other (DeleteDeployment name s).2 = GetDeployment other s
  ∧ HasDeployment other (DeleteDeployment name s).2 = HasDeployment other s
  ∧ GetVMs other (DeleteDeployment name s).2 = GetVMs other s
  ∧ GetInstances other (DeleteDeployment name s).2 = GetInstances other s
  ∧ GetVariables other (DeleteDeployment name s).2 = GetVariables other s
  ∧ GetLocks (DeleteDeployment name s).2 = GetLocks s
  ∧ GetReleases (DeleteDeployment name s).2 = GetReleases s
  ∧ GetCloudConfig (DeleteDeployment name s).2 = GetCloudConfig s
  ∧ GetRuntimeConfigs (DeleteDeployment name s).2 = GetRuntimeConfigs s
  ∧ GetCPIConfig (DeleteDeployment name s).2 = GetCPIConfig s
  ∧ length (GetStemcells (DeleteDeployment name s).2) = length (GetStemcells s).
Proof.
  intros Hne.
  unfold GetDeployment, HasDeployment, GetVMs, GetInstances, GetVariables,
    GetLocks, GetReleases, GetCloudConfig, GetRuntimeConfigs, GetCPIConfig,
    GetStemcells, DeleteDeployment.
  destruct (StateData.Deployments s !! name) eqn:E; simpl; [| done].
  rewrite !lookup_delete_ne by done. rewrite length_map. done.
Qed.

Lemma DeleteDeployment_frame_witness :
  GetVMs "cf" (DeleteDeployment "redis" (DefaultFixtures t0)).2
  = GetVMs "cf" (DefaultFixtures t0)
  ∧ GetLocks (DeleteDeployment "redis" (DefaultFixtures t0)).2
    = GetLocks (DefaultFixtures t0).
Proof.
  destruct (DeleteDeployment_frame "redis" "cf" (DefaultFixtures t0))
    as (_ & _ & H3 & _ & _ & H6 & _).
  - discriminate.
  - exact (conj H3 H6).
Defined.

(** ** ChangeJobState and RecreateVMs, continued *)

Lemma alter_map_twice {A : Type} (f g h : A → A) (k : string)
    (m : gmap string (list A)) :
  (∀ x, f (g x) = h x) →
  alter (map f) k (alter (map g) k m) = alter (map h) k m.
Proof.
  intros H. rewrite alter_alter_eq. apply alter_ext. intros l _.
  simpl. rewrite map_map. apply map_ext. auto.
Qed.

Lemma change_vm_Job (job newState : string) (v : VM.t) :
  VM.Job (change_vm job newState v) = VM.Job v.
Proof.
  unfold change_vm. destruct (nonempty job && differs (VM.Job v) job); [done |].
  by destruct (String.eqb newState "stopped").
Qed.

Lemma change_instance_Job (job newState : string) (x : Instance.t) :
  Instance.Job (change_instance job newState x) = Instance.Job x.
Proof.
  unfold change_instance.
  by destruct (nonempty job && differs (Instance.Job x) job).
Qed.

Lemma recreate_vm_Job_Index (deployment job index : string) (v : VM.t) :
  VM.Job (recreate_vm deployment job index v) = VM.Job v
  ∧ VM.Index (recreate_vm deployment job index v) = VM.Index v.
Proof.
  unfold recreate_vm.
  destruct (nonempty job && differs (VM.Job v) job); [done |].
  by destruct (nonempty index && differs (fmt_d (VM.Index v)) index).
Qed.

Lemma change_vm_twice (job n1 n2 : string) (v : VM.t) :
  change_vm job n2 (change_vm job n1 v) = change_vm job n2 v.
Proof.
  unfold change_vm at 1 3. rewrite change_vm_Job.
  destruct (nonempty job && differs (VM.Job v) job) eqn:E.
  - unfold change_vm. by rewrite E.
  - unfold change_vm. rewrite E.
    by destruct (String.eqb n1 "stopped"), (String.eqb n2 "stopped").
Qed.

Lemma change_instance_twice (job n1 n2 : string) (x : Instance.t) :
  change_instance job n2 (change_instance job n1 x) = change_instance job n2 x.
Proof.
  unfold change_instance at 1 3. rewrite change_instance_Job.
  destruct (nonempty job && differs (Instance.Job x) job) eqn:E.
  - unfold change_instance. by rewrite E.
  - unfold change_instance. rewrite E. unfold Instance.set_Processes. simpl.
    f_equal. rewrite map_map. by apply map_ext.
Qed.

Lemma ChangeJobState_then (deployment job n1 n2 : string) (s : StateData.t) :
  ChangeJobState deployment job n2 (ChangeJobState deployment job n1 s).2
  = ChangeJobState deployment job n2 s.
Proof.
  unfold ChangeJobState.
  destruct (StateData.Deployments s !! deployment) eqn:E; simpl; rewrite E.
  - f_equal. unfold StateData.set_Instances, StateData.set_VMs. simpl. f_equal.
    + apply alter_map_twice, change_vm_twice.
    + apply alter_map_twice, change_instance_twice.
  - done.
Qed.

(** X6.  Two [ChangeJobState] on the same deployment and job: the second
    wins.  The store after both, and what the second returns, are those of
    the second alone; in particular stopping and then starting (a restart)
    leaves the store that starting alone leaves. *)
Theorem ChangeJobState_last_wins (deployment job n1 n2 : string) (s : StateData.t) :
  ChangeJobState deployment job n2 (ChangeJobState deployment job n1 s).2
  = ChangeJobState deployment job n2 s
  ∧ (ChangeJobState deployment job "started"
       (ChangeJobState deployment job "stopped" s).2).2
    = (ChangeJobState deployment job "started" s).2.
Proof.
  split; [apply ChangeJobState_then | by rewrite ChangeJobState_then].
Qed.

Lemma states_of_unknown (newState : string) :
  newState ≠ "stopped" →
  String.eqb newState "stopped" = false
  ∧ vmProcessState_of newState = "running"
  ∧ processState_of newState = "running".
Proof.
  intros H. apply String.eqb_neq in H.
  unfold vmProcessState_of, processState_of. rewrite H.
  by destruct (String.eqb newState "started" || String.eqb newState "restart").
Qed.

(** X7.  [ChangeJobState] treats every new state other than "stopped" as
    "started": an unknown state is not refused, it starts the jobs. *)
Theorem ChangeJobState_unknown_state_starts (deployment job newState : string)
    (s : StateData.t) :
  newState ≠ "stopped" →
  ChangeJobState deployment job newState s
  = ChangeJobState deployment job "started" s.
Proof.
  intros H. destruct (states_of_unknown newState H) as (H1 & H2 & H3).
  unfold ChangeJobState.
  destruct (StateData.Deployments s !! deployment); [| done].
  f_equal. unfold StateData.set_Instances, StateData.set_VMs. simpl.
  assert (alter (map (change_vm job newState)) deployment (StateData.VMs s)
          = alter (map (change_vm job "started")) deployment (StateData.VMs s))
    as ->.
  { apply alter_ext. intros l _. apply map_ext. intros v.
    unfold change_vm. by rewrite H1, H2. }
  assert (alter (map (change_instance job newState)) deployment
            (StateData.Instances s)
          = alter (map (change_instance job "started")) deployment
              (StateData.Instances s)) as ->.
  { apply alter_ext. intros l _. apply map_ext. intros x.
    unfold change_instance. by rewrite H3. }
  reflexivity.
Qed.

Lemma ChangeJobState_unknown_state_starts_witness :
  ChangeJobState "cf" "router" "detached" (DefaultFixtures t0)
  = ChangeJobState "cf" "router" "started" (DefaultFixtures t0).
Proof.
  apply (ChangeJobState_unknown_state_starts "cf" "router" "detached"
           (DefaultFixtures t0)).
  discriminate.
Defined.

(** X8.  What [ChangeJobState] leaves alone, in a store whose slices have
    their backing arrays to themselves (no two instances share an array of
    processes, no two names an array of VMs or of instances; with a shared
    array the assignments through one slice show through the other).  In
    the deployment, a VM or an instance of another job is unchanged, and a
    VM keeps every field but its two states, an instance every field but its
    state and the states of its processes, whose names and number are as
    before; the VMs and instances of the other deployments are unchanged; so
    is the rest of the store. *)
Theorem ChangeJobState_frame (deployment job newState : string) (s : StateData.t) :
  (∀ vms i v,
      StateData.VMs s !! deployment = Some vms → vms !! i = Some v →
      ∃ vms' v',
        StateData.VMs (ChangeJobState deployment job newState s).2 !! deployment
        = Some vms'
        ∧ vms' !! i = Some v'
        ∧ VM.set_State (VM.State v) (VM.set_ProcessState (VM.ProcessState v) v') = v
        ∧ (job ≠ "" → VM.Job v ≠ job → v' = v))
  ∧ (∀ instances i x,
      StateData.Instances s !! deployment = Some instances →
      instances !! i = Some x →
      ∃ instances' x',
        StateData.Instances (ChangeJobState deployment job newState s).2 !! deployment
        = Some instances'
        ∧ instances' !! i = Some x'
        ∧ Instance.set_State (Instance.State x)
            (Instance.set_Processes (Instance.Processes x) x') = x
        ∧ Process.Name <$> Instance.Processes x' = Process.Name <$> Instance.Processes x
        ∧ (job ≠ "" → Instance.Job x ≠ job → x' = x))
  ∧ (∀ other, other ≠ deployment →
      StateData.VMs (ChangeJobState deployment job newState s).2 !! other
      = StateData.VMs s !! other
      ∧ StateData.Instances (ChangeJobState deployment job newState s).2 !! other
        = StateData.Instances s !! other)
  ∧ StateData.set_VMs (StateData.VMs s)
      (StateData.set_Instances (StateData.Instances s)
         (ChangeJobState deployment job newState s).2) = s.
Proof.
  unfold ChangeJobState.
  destruct (StateData.Deployments s !! deployment) eqn:E; simpl.
  - split; [| split; [| split]].
    + intros vms i v Hvms Hi.
      destruct (lookup_alter_map_slot (change_vm job newState) _ _ _ _ _ Hvms Hi)
        as [H1 H2].
      eexists. eexists. split; [exact H1 |]. split; [exact H2 |]. split.
      * unfold change_vm.
        destruct (nonempty job && differs (VM.Job v) job); [by destruct v |].
        destruct (String.eqb newState "stopped"); by destruct v.
      * intros Hj Hne. unfold change_vm. by rewrite job_guard_passes_over.
    + intros instances i x Hins Hi.
      destruct (lookup_alter_map_slot (change_instance job newState) _ _ _ _ _ Hins Hi)
        as [H1 H2].
      eexists. eexists. split; [exact H1 |]. split; [exact H2 |]. split; [| split].
      * unfold change_instance.
        destruct (nonempty job && differs (Instance.Job x) job); by destruct x.
      * unfold change_instance.
        destruct (nonempty job && differs (Instance.Job x) job); [done |].
        simpl. rewrite <- list_fmap_compose. by apply list_fmap_ext.
      * intros Hj Hne. unfold change_instance. by rewrite job_guard_passes_over.
    + intros other Hne. by rewrite !lookup_alter_ne.
    + by destruct s.
  - split; [| split; [| split]].
    + intros vms i v Hvms Hi. exists vms, v. repeat split; try done. by destruct v.
    + intros instances i x Hins Hi. exists instances, x.
      repeat split; try done. by destruct x.
    + done.
    + by destruct s.
Qed.

Lemma recreate_vm_twice (deployment job index : string) (v : VM.t) :
  recreate_vm deployment job index (recreate_vm deployment job index v)
  = recreate_vm deployment job index v.
Proof.
  unfold recreate_vm.
  destruct (nonempty job && differs (VM.Job v) job) eqn:Ej; [by rewrite Ej |].
  destruct (nonempty index && differs (fmt_d (VM.Index v)) index) eqn:Ei.
  - by rewrite Ej, Ei.
  - simpl. by rewrite Ej, Ei.
Qed.

(** X9.  [RecreateVMs] is idempotent: the identifier of a recreated VM is
    derived from the deployment, the job and the index only, so a second
    recreation with the same arguments returns the same and leaves the store
    of the first. *)
Theorem RecreateVMs_twice (deployment job index : string) (s : StateData.t) :
  RecreateVMs deployment job index (RecreateVMs deployment job index s).2
  = RecreateVMs deployment job index s.
Proof.
  unfold RecreateVMs.
  destruct (StateData.Deployments s !! deployment) eqn:E; simpl; rewrite E; [| done].
  f_equal. unfold StateData.set_VMs. simpl. f_equal.
  apply alter_map_twice, recreate_vm_twice.
Qed.

Lemma recreate_change_commute (d job index j newState : string) (v : VM.t) :
  recreate_vm d job index (change_vm j newState v)
  = change_vm j newState (recreate_vm d job index v).
Proof.
  unfold change_vm at 2.
  destruct (recreate_vm_Job_Index d job index v) as [-> _].
  unfold change_vm.
  destruct (nonempty j && differs (VM.Job v) j); [done |].
  unfold recreate_vm.
  destruct (String.eqb newState "stopped"); simpl;
    destruct (nonempty job && differs (VM.Job v) job); try done;
    by destruct (nonempty index && differs (fmt_d (VM.Index v)) index).
Qed.

(** X10.  [RecreateVMs] and [ChangeJobState] commute, whatever their
    deployments and filters: each returns the same in either order and the
    store after both is the same.  The one writes the identifiers, the other
    the states, and neither changes the job or the index that the filters
    read. *)
Theorem RecreateVMs_ChangeJobState_commute
    (d1 job1 index1 d2 job2 newState : string) (s : StateData.t) :
  (ChangeJobState d2 job2 newState (RecreateVMs d1 job1 index1 s).2).1
  = (ChangeJobState d2 job2 newState s).1
  ∧ (RecreateVMs d1 job1 index1 (ChangeJobState d2 job2 newState s).2).1
    = (RecreateVMs d1 job1 index1 s).1
  ∧ (ChangeJobState d2 job2 newState (RecreateVMs d1 job1 index1 s).2).2
    = (RecreateVMs d1 job1 index1 (ChangeJobState d2 job2 newState s).2).2.
Proof.
  unfold RecreateVMs, ChangeJobState.
  destruct (StateData.Deployments s !! d1) eqn:E1,
    (StateData.Deployments s !! d2) eqn:E2; simpl;
    rewrite ?E1, ?E2; simpl; try done.
  split; [done |]. split; [done |].
  unfold StateData.set_Instances, StateData.set_VMs. simpl. f_equal.
  destruct (decide (d2 = d1)) as [-> | Hne].
  - rewrite (alter_map_twice _ _
               (λ v, change_vm job2 newState (recreate_vm d1 job1 index1 v)))
      by done.
    rewrite (alter_map_twice _ _
               (λ v, change_vm job2 newState (recreate_vm d1 job1 index1 v)))
      by (intros; apply recreate_change_commute).
    done.
  - by rewrite alter_alter_ne.
Qed.

Lemma change_vm_other (job newState : string) (v : VM.t) :
  job ≠ "" → VM.Job v ≠ job → change_vm job newState v = v.
Proof. intros H1 H2. unfold change_vm. by rewrite job_guard_passes_over. Qed.

Lemma change_instance_other (job newState : string) (x : Instance.t) :
  job ≠ "" → Instance.Job x ≠ job → change_instance job newState x = x.
Proof. intros H1 H2. unfold change_instance. by rewrite job_guard_passes_over. Qed.

Lemma change_vm_jobs_commute (j1 n1 j2 n2 : string) (v : VM.t) :
  j1 ≠ "" → j2 ≠ "" → j1 ≠ j2 →
  change_vm j1 n1 (change_vm j2 n2 v) = change_vm j2 n2 (change_vm j1 n1 v).
Proof.
  intros H1 H2 Hne.
  destruct (decide (VM.Job v = j1)) as [Ev | Ev].
  - rewrite (change_vm_other j2 n2 v H2) by congruence.
    rewrite (change_vm_other j2 n2 (change_vm j1 n1 v) H2)
      by (rewrite change_vm_Job; congruence).
    done.
  - rewrite (change_vm_other j1 n1 v H1) by done.
    by rewrite (change_vm_other j1 n1 (change_vm j2 n2 v) H1)
      by (by rewrite change_vm_Job).
Qed.

Lemma change_instance_jobs_commute (j1 n1 j2 n2 : string) (x : Instance.t) :
  j1 ≠ "" → j2 ≠ "" → j1 ≠ j2 →
  change_instance j1 n1 (change_instance j2 n2 x)
  = change_instance j2 n2 (change_instance j1 n1 x).
Proof.
  intros H1 H2 Hne.
  destruct (decide (Instance.Job x = j1)) as [Ev | Ev].
  - rewrite (change_instance_other j2 n2 x H2) by congruence.
    rewrite (change_instance_other j2 n2 (change_instance j1 n1 x) H2)
      by (rewrite change_instance_Job; congruence).
    done.
  - rewrite (change_instance_other j1 n1 x H1) by done.
    by rewrite (change_instance_other j1 n1 (change_instance j2 n2 x) H1)
      by (by rewrite change_instance_Job).
Qed.

(** X11.  In a store whose slices have their backing arrays to themselves
    (no two instances share an array of processes, no two names an array of
    VMs or of instances), state changes of two different deployments, or of
    two different jobs both given by name, commute: the store after both is
    the same in either order.  (With an array of processes shared by
    instances of the two jobs, the later call would decide the states of
    these processes.) *)
Theorem ChangeJobState_jobs_commute (d1 j1 n1 d2 j2 n2 : string) (s : StateData.t) :
  d1 ≠ d2 ∨ (j1 ≠ "" ∧ j2 ≠ "" ∧ j1 ≠ j2) →
  (ChangeJobState d1 j1 n1 (ChangeJobState d2 j2 n2 s).2).2
  = (ChangeJobState d2 j2 n2 (ChangeJobState d1 j1 n1 s).2).2
  ∧ (ChangeJobState d1 j1 n1 (ChangeJobState d2 j2 n2 s).2).1
    = (ChangeJobState d1 j1 n1 s).1.
Proof.
  intros H. unfold ChangeJobState.
  destruct (StateData.Deployments s !! d1) eqn:E1,
    (StateData.Deployments s !! d2) eqn:E2; simpl;
    rewrite ?E1, ?E2; simpl; try done.
  split; [| done].
  unfold StateData.set_Instances, StateData.set_VMs. simpl.
  destruct (decide (d1 = d2)) as [-> | Hd].
  - destruct H as [H | (Hj1 & Hj2 & Hne)]; [done |].
    f_equal.
    + rewrite (alter_map_twice _ _ (λ v, change_vm j1 n1 (change_vm j2 n2 v)))
        by done.
      rewrite (alter_map_twice _ _ (λ v, change_vm j1 n1 (change_vm j2 n2 v)))
        by (intros; symmetry; by apply change_vm_jobs_commute).
      done.
    + rewrite (alter_map_twice _ _
                 (λ x, change_instance j1 n1 (change_instance j2 n2 x))) by done.
      rewrite (alter_map_twice _ _
                 (λ x, change_instance j1 n1 (change_instance j2 n2 x)))
        by (intros; symmetry; by apply change_instance_jobs_commute).
      done.
  - f_equal; by rewrite alter_alter_ne.
Qed.

Lemma ChangeJobState_jobs_commute_witness :
  (ChangeJobState "cf" "router" "stopped"
     (ChangeJobState "cf" "diego_cell" "started" (DefaultFixtures t0)).2).2
  = (ChangeJobState "cf" "diego_cell" "started"
       (ChangeJobState "cf" "router" "stopped" (DefaultFixtures t0)).2).2.
Proof.
  apply (ChangeJobState_jobs_commute "cf" "router" "stopped" "cf" "diego_cell"
           "started" (DefaultFixtures t0)).
  right. repeat split; discriminate.
Defined.

Example ChangeJobState_same_job_order_matters :
  (ChangeJobState "cf" "router" "stopped"
     (ChangeJobState "cf" "router" "started" (DefaultFixtures t0)).2).2
  ≠ (ChangeJobState "cf" "router" "started"
       (ChangeJobState "cf" "router" "stopped" (DefaultFixtures t0)).2).2.
Proof. vm_compute. discriminate. Qed.

(** ** Tasks, continued *)

(** X12.  Two [UpdateTaskState] on the same id amount to one: the state of
    the second, and as result text the text of the second, or that of the
    first when the second gives none.  This holds for what is returned as
    for the store, on a known id or not. *)
Theorem UpdateTaskState_twice (id : Z) (state1 result1 state2 result2 : string)
    (s : StateData.t) :
  UpdateTaskState id state2 result2 (UpdateTaskState id state1 result1 s).2
  = UpdateTaskState id state2 (if nonempty result2 then result2 else result1) s.
Proof.
  unfold UpdateTaskState.
  destruct (StateData.Tasks s !! id) as [p |] eqn:Hp; simpl; rewrite ?Hp; [| done].
  destruct (StateData.taskObjects s !! p) as [t |] eqn:Ht; simpl; rewrite Hp;
    [| by rewrite Ht].
  simpl. rewrite lookup_insert_eq. f_equal.
  unfold StateData.set_taskObjects. simpl. rewrite insert_insert_eq.
  do 2 f_equal.
  destruct (nonempty result2) eqn:E2.
  - rewrite E2. by destruct (nonempty result1).
  - by destruct (nonempty result1).
Qed.

Lemma omap_ext_elem {A B : Type} (f g : A → option B) (l : list A) :
  (∀ x, x ∈ l → f x = g x) → omap f l = omap g l.
Proof.
  induction l as [| x l IH]; intros H; [done |]. csimpl.
  rewrite (H x) by left. rewrite IH; [done |]. intros y Hy. apply H. by right.
Qed.

(** X13.  In a store without nil task pointers [CreateTask] does not
    disturb the rest: a task stored under another id than the new one is
    read as before, every task record that was in the store is still there,
    and everything of the store but the tasks and the counter is
    unchanged. *)
Theorem CreateTask_leaves_others (description deployment user : string) (now : Z)
    (s : StateData.t) :
  tasks_allocated s →
  (∀ id, id ≠ StateData.nextTaskID (CreateTask description deployment user now s).2 →
         GetTask id (CreateTask description deployment user now s).2 = GetTask id s)
  ∧ (∀ q t, StateData.taskObjects s !! q = Some t →
            StateData.taskObjects (CreateTask description deployment user now s).2 !! q
            = Some t)
  ∧ StateData.set_Tasks (StateData.Tasks s)
      (StateData.set_taskObjects (StateData.taskObjects s)
         (StateData.set_nextTaskID (StateData.nextTaskID s)
            (CreateTask description deployment user now s).2)) = s.
Proof.
  intros Halloc.
  destruct (CreateTask_effect description deployment user now s)
    as (p & s1 & E & Hfresh & Hn & HT & HO).
  assert (∀ q t, StateData.taskObjects s !! q = Some t →
                 StateData.taskObjects s1 !! q = Some t) as Hold.
  { intros q t Hq. rewrite HO, lookup_insert_ne; [done |]. congruence. }
  split; [| split].
  - rewrite E. simpl. intros id Hid. unfold GetTask.
    rewrite HT, lookup_insert_ne by done.
    destruct (StateData.Tasks s !! id) as [q |] eqn:Hq; [| done].
    destruct (Halloc _ _ Hq) as [t Ht]. by rewrite (Hold _ _ Ht), Ht.
  - rewrite E. exact Hold.
  - by destruct s.
Qed.

Lemma CreateTask_leaves_others_witness :
  GetTask 2 (CreateTask "stop jobs in deployment cf" "cf" "admin" t0
               (DefaultFixtures t0)).2
  = GetTask 2 (DefaultFixtures t0).
Proof.
  apply (CreateTask_leaves_others "stop jobs in deployment cf" "cf" "admin" t0
           (DefaultFixtures t0) tasks_allocated_fixtures).
  vm_compute. discriminate.
Defined.

Lemma next_id_unused (s : StateData.t) :
  ids_below_counter s →
  min_int ≤ StateData.nextTaskID s → StateData.nextTaskID s < max_int →
  wrap_int (StateData.nextTaskID s + 1) = StateData.nextTaskID s + 1
  ∧ StateData.Tasks s !! (StateData.nextTaskID s + 1) = None.
Proof.
  intros Hb Hlo Hhi. split.
  - apply wrap_int_in_range. lia.
  - destruct (StateData.Tasks s !! (StateData.nextTaskID s + 1)) as [p |] eqn:E;
      [| done].
    apply Hb in E. lia.
Qed.

(** X14.  While the counter is not behind the tasks and below the greatest
    [int], [CreateTask] takes an id that no task has: no task is replaced,
    the store has one task more, and the counter is again not behind the
    tasks. *)
Theorem CreateTask_no_overwrite (description deployment user : string) (now : Z)
    (s : StateData.t) :
  ids_below_counter s →
  min_int ≤ StateData.nextTaskID s → StateData.nextTaskID s < max_int →
  StateData.Tasks s !! (StateData.nextTaskID s + 1) = None
  ∧ StateData.nextTaskID (CreateTask description deployment user now s).2
    = StateData.nextTaskID s + 1
  ∧ size (StateData.Tasks (CreateTask description deployment user now s).2)
    = S (size (StateData.Tasks s))
  ∧ (∀ id, is_Some (StateData.Tasks s !! id) →
           is_Some (StateData.Tasks (CreateTask description deployment user now s).2
                    !! id))
  ∧ ids_below_counter (CreateTask description deployment user now s).2.
Proof.
  intros Hb Hlo Hhi. destruct (next_id_unused s Hb Hlo Hhi) as [Hw Hnone].
  destruct (CreateTask_effect description deployment user now s)
    as (p & s1 & -> & _ & Hn & HT & _).
  simpl. rewrite Hw in Hn. rewrite Hn in HT.
  split; [done |]. split; [done |]. split; [| split].
  - rewrite HT. by apply map_size_insert_None.
  - intros id [q Hq]. rewrite HT. exists q. rewrite lookup_insert_ne; [done |].
    congruence.
  - intros id q. rewrite HT, Hn. intros Hq.
    apply lookup_insert_Some in Hq as [[<- _] | [_ Hq]]; [lia |].
    apply Hb in Hq. lia.
Qed.

Lemma CreateTask_no_overwrite_witness :
  StateData.Tasks (DefaultFixtures t0) !! (StateData.nextTaskID (DefaultFixtures t0) + 1)
  = None
  ∧ size (StateData.Tasks
            (CreateTask "stop jobs in deployment cf" "cf" "admin" t0
               (DefaultFixtures t0)).2)
    = S (size (StateData.Tasks (DefaultFixtures t0))).
Proof.
  destruct (CreateTask_no_overwrite "stop jobs in deployment cf" "cf" "admin" t0
              (DefaultFixtures t0)) as (H1 & _ & H3 & _).
  - exact ids_below_counter_fixtures.
  - vm_compute. discriminate.
  - vm_compute. reflexivity.
  - exact (conj H1 H3).
Defined.

(** A store whose counter is behind its tasks: [CreateTask] replaces the
    task 1. *)
Example CreateTask_counter_behind :
  GetTask 1 (CreateTask "new" "redis" "admin" t0
               (StateData.set_nextTaskID 0 (DefaultFixtures t0))).2
  = Returns (Task.mk 1 "queued" "new" t0 "" "admin" "redis" "").
Proof. vm_compute. reflexivity. Qed.

Lemma stored_tasks_CreateTask (description deployment user : string) (now : Z)
    (s : StateData.t) :
  tasks_allocated s →
  StateData.Tasks s
    !! StateData.nextTaskID (CreateTask description deployment user now s).2 = None →
  stored_tasks (CreateTask description deployment user now s).2
  ≡ₚ Task.mk (StateData.nextTaskID (CreateTask description deployment user now s).2)
       "queued" description now "" user deployment "" :: stored_tasks s.
Proof.
  intros Halloc.
  destruct (CreateTask_effect description deployment user now s)
    as (p & s1 & -> & Hfresh & Hn & HT & HO).
  simpl. intros Hnone. unfold stored_tasks.
  rewrite HT, map_to_list_insert by done. csimpl.
  unfold deref at 1. simpl. rewrite HO, lookup_insert_eq.
  constructor. erewrite omap_ext_elem; [reflexivity |].
  intros [id q] He. apply elem_of_map_to_list in He.
  unfold deref. simpl. rewrite lookup_insert_ne; [done |].
  intros <-. destruct (Halloc _ _ He) as [t Ht]. congruence.
Qed.

(** X15.  A created task heads the list.  In a store without nil task
    pointers, with every task under its own id and the counter not behind
    the tasks and below the greatest [int]: after [CreateTask] the unlimited
    [GetTasks] returns, for filters that the new task passes, the new task
    followed by the list that it returned before, and for other filters the
    list that it returned before. *)
Theorem GetTasks_after_CreateTask (description deployment user : string) (now : Z)
    (state filter : string) (s : StateData.t) :
  tasks_allocated s → keyed_by_id s → ids_below_counter s →
  min_int ≤ StateData.nextTaskID s → StateData.nextTaskID s < max_int →
  ∃ before,
    GetTasks state filter 0 s = Returns before
    ∧ GetTasks state filter 0 (CreateTask description deployment user now s).2
      = Returns
          (if decide ((state = "" ∨ state = "queued")
                      ∧ (filter = "" ∨ filter = deployment))
           then Task.mk (StateData.nextTaskID s + 1) "queued" description now ""
                  user deployment "" :: before
           else before).
Proof.
  intros Halloc Hkey Hb Hlo Hhi.
  destruct (next_id_unused s Hb Hlo Hhi) as [Hw Hnone].
  destruct (CreateTask_keeps_invariants description deployment user now s Halloc Hkey)
    as [Halloc1 Hkey1].
  pose proof (stored_tasks_CreateTask description deployment user now s Halloc) as HP.
  assert (StateData.nextTaskID (CreateTask description deployment user now s).2
          = StateData.nextTaskID s + 1) as Hn by (simpl; exact Hw).
  rewrite Hn in HP. specialize (HP Hnone).
  set (new := Task.mk (StateData.nextTaskID s + 1) "queued" description now ""
                user deployment "") in *.
  eexists. split; [apply (GetTasks_allocated _ _ _ _ Halloc) |].
  rewrite (GetTasks_allocated _ _ _ _ Halloc1), !truncate_unbounded by lia.
  f_equal.
  assert (Forall (λ a, Task.ID a < Task.ID new) (stored_tasks s)) as Hlt.
  { apply Forall_forall. intros a Ha.
    apply elem_of_stored_tasks in Ha as (id & p & Hp & Ht).
    rewrite (Hkey _ _ _ Hp Ht). apply Hb in Hp. simpl. lia. }
  assert (∀ a b, a ∈ new :: stored_tasks s → b ∈ new :: stored_tasks s →
                 Task.ID a = Task.ID b → a = b) as Hdist.
  { intros a b Ha Hb'. rewrite <- HP in Ha, Hb'.
    by apply (keyed_by_id_distinct _ _ _ Hkey1). }
  apply (StronglySorted_unique_strong newest_first).
  - intros x1 x2 H1 H2 R1 R2. unfold newest_first in R1, R2.
    rewrite merge_sort_Permutation in H1. apply list_elem_of_filter in H1 as [_ H1].
    apply (keyed_by_id_distinct _ _ _ Hkey1); [done | | lia].
    rewrite HP. destruct (decide _) in H2.
    + apply elem_of_cons in H2 as [-> | H2]; [left |].
      rewrite merge_sort_Permutation in H2.
      apply list_elem_of_filter in H2 as [_ H2]. by right.
    + rewrite merge_sort_Permutation in H2.
      apply list_elem_of_filter in H2 as [_ H2]. by right.
  - apply StronglySorted_merge_sort; apply _.
  - destruct (decide _).
    + constructor; [apply StronglySorted_merge_sort; apply _ |].
      rewrite merge_sort_Permutation. apply Forall_forall. intros x Hx.
      apply list_elem_of_filter in Hx as [_ Hx].
      rewrite Forall_forall in Hlt. specialize (Hlt x Hx).
      unfold newest_first. subst new. simpl in *. lia.
    + apply StronglySorted_merge_sort; apply _.
  - rewrite merge_sort_Permutation, HP, filter_cons.
    assert (task_matches state filter new
            ↔ (state = "" ∨ state = "queued") ∧ (filter = "" ∨ filter = deployment))
      as Hm.
    { unfold task_matches. simpl. split; intros [[|] [|]]; auto. }
    destruct (decide (task_matches state filter new)) as [Hy | Hno].
    + rewrite decide_True by (by apply Hm).
      constructor. by rewrite merge_sort_Permutation.
    + rewrite decide_False by (by rewrite <- Hm).
      by rewrite merge_sort_Permutation.
Qed.

Lemma GetTasks_after_CreateTask_witness :
  ∃ before,
    GetTasks "" "cf" 0 (DefaultFixtures t0) = Returns before
    ∧ GetTasks "" "cf" 0
        (CreateTask "stop jobs in deployment cf" "cf" "admin" t0 (DefaultFixtures t0)).2
      = Returns
          (if decide (("" = "" ∨ "" = "queued") ∧ ("cf" = "" ∨ "cf" = "cf"))
           then Task.mk (StateData.nextTaskID (DefaultFixtures t0) + 1) "queued"
                  "stop jobs in deployment cf" t0 "" "admin" "cf" "" :: before
           else before).
Proof.
  apply (GetTasks_after_CreateTask "stop jobs in deployment cf" "cf" "admin" t0
           "" "cf" (DefaultFixtures t0)).
  - exact tasks_allocated_fixtures.
  - exact keyed_by_id_fixtures.
  - exact ids_below_counter_fixtures.
  - vm_compute. discriminate.
  - vm_compute. reflexivity.
Defined.

Lemma stored_tasks_ids (s : StateData.t) :
  tasks_allocated s → keyed_by_id s →
  Task.ID <$> stored_tasks s = (map_to_list (StateData.Tasks s)).*1.
Proof.
  intros Halloc Hkey. unfold stored_tasks.
  assert (∀ e, e ∈ map_to_list (StateData.Tasks s) →
               ∃ t, deref (StateData.taskObjects s) e = Some t ∧ Task.ID t = e.1)
    as H.
  { intros [id p] He. apply elem_of_map_to_list in He.
    destruct (Halloc _ _ He) as [t Ht]. exists t. split; [done |].
    by apply (Hkey id p). }
  induction (map_to_list (StateData.Tasks s)) as [| e l IH]; [done |].
  csimpl. destruct (H e) as (t & -> & Hid); [left |].
  csimpl. rewrite Hid, IH; [done |]. intros e' He'. apply H. by right.
Qed.

Lemma filter_no_filter (l : list Task.t) : filter (task_matches "" "") l = l.
Proof.
  induction l as [| t l IH]; [done |].
  rewrite filter_cons, decide_True by (by split; left). by rewrite IH.
Qed.

Lemma descending_strict (l : list Task.t) :
  NoDup (Task.ID <$> l) → StronglySorted newest_first l →
  StronglySorted (λ a b, Task.ID b < Task.ID a) l.
Proof.
  induction 2 as [| a l Hs IH Hall]; [constructor |].
  rewrite fmap_cons in H. apply NoDup_cons in H as [Hnotin Hnd].
  constructor; [by apply IH |].
  apply Forall_forall. intros b Hb. rewrite Forall_forall in Hall.
  specialize (Hall b Hb). unfold newest_first in Hall.
  assert (Task.ID b ≠ Task.ID a); [| lia].
  intros E. apply Hnotin. rewrite <- E. apply list_elem_of_fmap. eauto.
Qed.

(** X16.  The list and the single read agree.  In a store without nil task
    pointers and with every task under its own id, the unfiltered, unlimited
    [GetTasks] returns a list that holds a task exactly when [GetTask]
    returns that task for its id; the list has one task for each entry of
    the task map, and its ids are strictly decreasing. *)
Theorem GetTasks_agrees_with_GetTask (s : StateData.t) :
  tasks_allocated s → keyed_by_id s →
  ∃ all,
    GetTasks "" "" 0 s = Returns all
    ∧ (∀ t, t ∈ all ↔ GetTask (Task.ID t) s = Returns t)
    ∧ length all = size (StateData.Tasks s)
    ∧ StronglySorted (λ a b, Task.ID b < Task.ID a) all.
Proof.
  intros Halloc Hkey.
  eexists. split; [apply (GetTasks_allocated _ _ _ _ Halloc) |].
  rewrite truncate_unbounded by lia.
  rewrite filter_no_filter.
  split; [| split].
  - intros t. rewrite merge_sort_Permutation, elem_of_stored_tasks.
    unfold GetTask. split.
    + intros (id & p & Hp & Ht). rewrite (Hkey _ _ _ Hp Ht), Hp, Ht. done.
    + intros H. destruct (StateData.Tasks s !! Task.ID t) as [p |] eqn:Hp;
        [| discriminate].
      destruct (StateData.taskObjects s !! p) as [t' |] eqn:Ht; [| discriminate].
      injection H as ->. eauto.
  - rewrite merge_sort_Permutation.
    rewrite <- (length_fmap Task.ID), stored_tasks_ids by done.
    rewrite length_fmap. apply length_map_to_list.
  - apply descending_strict.
    + rewrite merge_sort_Permutation, stored_tasks_ids by done.
      apply NoDup_fst_map_to_list.
    + apply StronglySorted_merge_sort; apply _.
Qed.

Lemma GetTasks_agrees_with_GetTask_witness :
  ∃ all,
    GetTasks "" "" 0 (DefaultFixtures t0) = Returns all
    ∧ (∀ t, t ∈ all ↔ GetTask (Task.ID t) (DefaultFixtures t0) = Returns t)
    ∧ length all = size (StateData.Tasks (DefaultFixtures t0))
    ∧ StronglySorted (λ a b, Task.ID b < Task.ID a) all.
Proof.
  apply (GetTasks_agrees_with_GetTask (DefaultFixtures t0)).
  - exact tasks_allocated_fixtures.
  - exact keyed_by_id_fixtures.
Defined.

(** X17.  [GetTaskOutput] gives the empty text in one case only: a kind
    that is neither empty nor recognized, for a task without result text. *)
Theorem GetTaskOutput_empty (task : Task.t) (kind : string) :
  GetTaskOutput task kind = ""
  ↔ kind ≠ "" ∧ ¬ recognized kind ∧ Task.Result task = "".
Proof.
  unfold GetTaskOutput, recognized.
  destruct (String.eqb_spec kind "") as [-> | Hk]; simpl.
  - split; [| intros [[] _]; done].
    destruct (nonempty (Task.Result task)) eqn:E; [| discriminate].
    intros H. apply nonempty_true in E. done.
  - destruct (String.eqb_spec kind "result") as [-> | H1].
    { split; [| intros (_ & H & _); exfalso; apply H; by left].
      destruct (nonempty (Task.Result task)) eqn:E; [| discriminate].
      intros H. apply nonempty_true in E. done. }
    destruct (String.eqb_spec kind "debug") as [-> | H2].
    { split; [discriminate | intros (_ & H & _); exfalso; apply H; auto]. }
    destruct (String.eqb_spec kind "cpi") as [-> | H3].
    { split; [discriminate | intros (_ & H & _); exfalso; apply H; auto]. }
    destruct (String.eqb_spec kind "event") as [-> | H4].
    { split; [discriminate | intros (_ & H & _); exfalso; apply H; auto]. }
    split; [| tauto]. intros H. repeat split; try done. tauto.
Qed.

(** * Properties of the simulator *)

(** ** Reasoning about a goroutine among others *)

Lemma always_ends_run_among (rely : StateData.t → StateData.t → Prop)
    (crash : Prop) (post : StateData.t → Prop) (g : goroutine) :
  (∀ s, rely s s) →
  ∀ others s,
    Forall (λ e, ∀ x, rely x (e x)) others →
    always_ends rely crash g post s →
    match run_among others g s with
    | (s', true) => post s'
    | (_, false) => crash
    end.
Proof.
  intros Hrefl. induction g as [| A op k IH]; intros others s Hothers Hwp.
  - exact Hwp.
  - simpl in *.
    assert (rely s (hd id others s)) as Hr.
    { destruct Hothers as [| e others He _]; [apply Hrefl | apply He]. }
    specialize (Hwp _ Hr).
    destruct (op (hd id others s)) as [o s'].
    assert (Forall (λ e, ∀ x, rely x (e x)) (tl others)) as Htl.
    { destruct Hothers; [constructor | done]. }
    destruct o; [by apply IH | by apply IH | done].
Qed.

Lemma always_ends_post (rely : StateData.t → StateData.t → Prop) (crash : Prop)
    (post post' : StateData.t → Prop) (g : goroutine) :
  (∀ s, post s → post' s) →
  ∀ s, always_ends rely crash g post s → always_ends rely crash g post' s.
Proof.
  intros Himp. induction g as [| A op k IH]; intros s H; simpl in *; [auto |].
  intros s1 Hr. specialize (H s1 Hr). destruct (op s1) as [o s'].
  destruct o; auto.
Qed.

(** ** The calls of the store, seen from a goroutine *)

Lemma task_untouched_refl (taskID : Z) (s : StateData.t) : task_untouched taskID s s.
Proof. by split. Qed.

Lemma task_is_stable (taskID : Z) (p : ptr) (φ : Task.t → Prop)
    (s s1 : StateData.t) :
  task_untouched taskID s s1 → task_is taskID p φ s → task_is taskID p φ s1.
Proof.
  intros [H1 H2] [Hp (t & Ht & Hφ)]. split; [by rewrite H1 |].
  exists t. by rewrite (H2 _ Hp).
Qed.

Lemma task_is_same_tasks (taskID : Z) (p : ptr) (φ : Task.t → Prop)
    (s s' : StateData.t) :
  StateData.Tasks s' = StateData.Tasks s →
  StateData.taskObjects s' = StateData.taskObjects s →
  task_is taskID p φ s → task_is taskID p φ s'.
Proof. intros HT HO. unfold task_is. by rewrite HT, HO. Qed.

Lemma UpdateTaskState_task_is (taskID : Z) (p : ptr) (φ : Task.t → Prop)
    (state result : string) (s : StateData.t) :
  task_is taskID p φ s →
  ∃ s', UpdateTaskState taskID state result s = (Returns tt, s')
        ∧ task_is taskID p
            (λ t, Task.State t = state ∧ (result ≠ "" → Task.Result t = result)) s'.
Proof.
  intros [Hp (t & Ht & _)]. unfold UpdateTaskState. rewrite Hp, Ht.
  eexists. split; [reflexivity |]. split; [done |]. simpl.
  rewrite lookup_insert_eq. eexists. split; [reflexivity |].
  destruct (nonempty result) eqn:E; [done |].
  apply nonempty_false in E. done.
Qed.

Lemma DeleteDeployment_entity_call (deployment : string) :
  entity_call (DeleteDeployment deployment).
Proof.
  intros s. unfold DeleteDeployment.
  by destruct (StateData.Deployments s !! deployment).
Qed.

Lemma RecreateVMs_entity_call (deployment job index : string) :
  entity_call (RecreateVMs deployment job index).
Proof.
  intros s. unfold RecreateVMs.
  by destruct (StateData.Deployments s !! deployment).
Qed.

Lemma ChangeJobState_entity_call (deployment job newState : string) :
  entity_call (ChangeJobState deployment job newState).
Proof.
  intros s. unfold ChangeJobState.
  by destruct (StateData.Deployments s !! deployment).
Qed.

Lemma deleted_text_nonempty (deployment : string) :
  "Deleted deployment " ++ deployment ≠ "".
Proof. discriminate. Qed.

Lemma error_text_nonempty (e : error) : error_text e ≠ "".
Proof. destruct e; discriminate. Qed.

Lemma recreate_result_nonempty (deployment job index : string) :
  recreate_result deployment job index ≠ "".
Proof.
  unfold recreate_result. destruct (nonempty job), (nonempty index); discriminate.
Qed.

Lemma job_result_nonempty (verb deployment job : string) :
  verb ≠ "" → job_result verb deployment job ≠ "".
Proof.
  intros H. unfold job_result.
  destruct verb; [done |]. destruct (nonempty job); discriminate.
Qed.

(** ** The task of a simulation reaches a final state *)

Section Terminal.
Variables (taskID : Z) (deployment : string) (p : ptr).

Let rely := task_untouched taskID.
Let post := task_is taskID p finished.

Lemma fail_path_finishes (e : error) (φ : Task.t → Prop) (s : StateData.t) :
  task_is taskID p φ s →
  always_ends rely False
    (Call (UpdateTaskState taskID "error" (error_text e)) (λ _,
     Call (void (RemoveLock deployment)) (λ _, Exit))) post s.
Proof.
  intros H. simpl. intros s1 Hr.
  apply (task_is_stable _ _ _ _ _ Hr) in H.
  destruct (UpdateTaskState_task_is _ _ _ "error" (error_text e) _ H)
    as (s' & -> & H').
  intros s2 Hr2. apply (task_is_stable _ _ _ _ _ Hr2) in H'.
  simpl. destruct H' as [Hp (t & Ht & Hs & Hres)].
  split; [done |]. exists t. split; [done |]. split; [by right |].
  rewrite Hres; apply error_text_nonempty.
Qed.

Lemma done_path_finishes (text : string) (φ : Task.t → Prop) (s : StateData.t) :
  text ≠ "" →
  task_is taskID p φ s →
  always_ends rely False
    (Call (void (RemoveLock deployment)) (λ _,
     Call (UpdateTaskState taskID "done" text) (λ _, Exit))) post s.
Proof.
  intros Htext H. simpl. intros s1 Hr.
  apply (task_is_stable _ _ _ _ _ Hr) in H.
  intros s2 Hr2.
  assert (task_is taskID p φ (RemoveLock deployment s1)) as H1.
  { revert H. by apply task_is_same_tasks. }
  apply (task_is_stable _ _ _ _ _ Hr2) in H1.
  destruct (UpdateTaskState_task_is _ _ _ "done" text _ H1) as (s' & -> & H').
  destruct H' as [Hp (t & Ht & Hs & Hres)].
  split; [done |]. exists t. split; [done |]. split; [by left |].
  by rewrite Hres.
Qed.

Lemma prologue_finishes (g : goroutine) (φ : Task.t → Prop) (s : StateData.t) :
  task_is taskID p φ s →
  (∀ s', task_is taskID p (λ _, True) s' → always_ends rely False g post s') →
  always_ends rely False
    (Call (UpdateTaskState taskID "processing" "") (λ _,
     Call (void (AddLock "deployment" deployment (fmt_d taskID) lock_timeout))
       (λ _, g))) post s.
Proof.
  intros H Hg. simpl. intros s1 Hr.
  apply (task_is_stable _ _ _ _ _ Hr) in H.
  destruct (UpdateTaskState_task_is _ _ _ "processing" "" _ H) as (s' & -> & H').
  intros s2 Hr2. apply (task_is_stable _ _ _ _ _ Hr2) in H'.
  apply Hg. destruct H' as [Hp (t & Ht & _)].
  split; [done |]. exists t. done.
Qed.

Lemma mutation_finishes (op : StateData.t → outcome unit * StateData.t)
    (k : outcome unit → goroutine) (s : StateData.t) :
  entity_call op →
  task_is taskID p (λ _, True) s →
  (∀ o s', o ≠ Panics → task_is taskID p (λ _, True) s' →
           always_ends rely False (k o) post s') →
  always_ends rely False (Call op k) post s.
Proof.
  intros Hop H Hk. simpl. intros s1 Hr.
  apply (task_is_stable _ _ _ _ _ Hr) in H.
  destruct (Hop s1) as (Hnp & HT & HO & _).
  destruct (op s1) as [o s']. simpl in *.
  assert (task_is taskID p (λ _, True) s') as H'
    by (revert H; by apply task_is_same_tasks).
  destruct o; [by apply Hk | by apply Hk | done].
Qed.

Lemma simulated_finishes (g : goroutine) (s : StateData.t) :
  simulated taskID deployment g →
  task_is taskID p (λ _, True) s →
  always_ends rely False g post s.
Proof.
  intros Hg H. destruct Hg.
  - apply (prologue_finishes _ _ _ H). intros s1 H1.
    apply (mutation_finishes _ _ _ (DeleteDeployment_entity_call _) H1).
    intros [[] | e |] s2 Hnp H2; [| | done].
    + exact (done_path_finishes _ _ _ (deleted_text_nonempty _) H2).
    + exact (fail_path_finishes e _ _ H2).
  - apply (prologue_finishes _ _ _ H). intros s1 H1.
    apply (mutation_finishes _ _ _ (RecreateVMs_entity_call _ _ _) H1).
    intros [[] | e |] s2 Hnp H2; [| | done].
    + exact (done_path_finishes _ _ _ (recreate_result_nonempty _ _ _) H2).
    + exact (fail_path_finishes e _ _ H2).
  - apply (prologue_finishes _ _ _ H). intros s1 H1.
    apply (mutation_finishes _ _ _ (ChangeJobState_entity_call _ _ _) H1).
    intros [[] | e |] s2 Hnp H2; [| | done].
    + exact (done_path_finishes _ _ _ (job_result_nonempty "Started" _ _ ltac:(discriminate)) H2).
    + exact (fail_path_finishes e _ _ H2).
  - apply (prologue_finishes _ _ _ H). intros s1 H1.
    apply (mutation_finishes _ _ _ (ChangeJobState_entity_call _ _ _) H1).
    intros [[] | e |] s2 Hnp H2; [| | done].
    + exact (done_path_finishes _ _ _ (job_result_nonempty "Stopped" _ _ ltac:(discriminate)) H2).
    + exact (fail_path_finishes e _ _ H2).
  - apply (prologue_finishes _ _ _ H). intros s1 H1.
    apply (mutation_finishes _ _ _ (ChangeJobState_entity_call _ _ _) H1).
    intros [[] | e |] s2 Hnp H2; [| | done].
    + apply (mutation_finishes _ _ _ (ChangeJobState_entity_call _ _ _) H2).
      intros [[] | e |] s3 Hnp3 H3; [| | done].
      * exact (done_path_finishes _ _ _ (job_result_nonempty "Restarted" _ _ ltac:(discriminate)) H3).
      * exact (fail_path_finishes e _ _ H3).
    + exact (fail_path_finishes e _ _ H2).
Qed.
End Terminal.

(** X18.  Every simulation brings its task to a final state.  For each of
    the five goroutines of the simulator, started for a task that the store
    has: whatever the other goroutines do between its calls of the store, as
    long as they leave the pointer and the record of this task alone, the
    goroutine returns (no panic), and the task is then in state "done" or
    "error" and has a result text. *)
Theorem simulation_reaches_final_state (taskID : Z) (deployment : string) (p : ptr)
    (g : goroutine) (others : list (StateData.t → StateData.t)) (s : StateData.t) :
  simulated taskID deployment g →
  StateData.Tasks s !! taskID = Some p →
  is_Some (StateData.taskObjects s !! p) →
  Forall (λ e, ∀ x, task_untouched taskID x (e x)) others →
  ∃ s' t,
    run_among others g s = (s', true)
    ∧ GetTask taskID s' = Returns t
    ∧ (Task.State t = "done" ∨ Task.State t = "error")
    ∧ Task.Result t ≠ "".
Proof.
  intros Hg Hp [t0 Ht0] Hothers.
  assert (task_is taskID p (λ _, True) s) as H by (split; eauto).
  pose proof (always_ends_run_among (task_untouched taskID) False
                (task_is taskID p finished) g (task_untouched_refl taskID)
                others s Hothers
                (simulated_finishes taskID deployment p g s Hg H)) as Hrun.
  destruct (run_among others g s) as [s' [|]]; [| done].
  destruct Hrun as [Hp' (t & Ht & Hfin & Hres)].
  exists s', t. split; [done |]. split; [| done].
  unfold GetTask. by rewrite Hp', Ht.
Qed.

Lemma entity_call_untouched (taskID : Z)
    (op : StateData.t → outcome unit * StateData.t) (x : StateData.t) :
  entity_call op → task_untouched taskID x (op x).2.
Proof.
  intros Hop. destruct (Hop x) as (_ & HT & HO & _).
  split; [by rewrite HT | intros; by rewrite HO].
Qed.

Lemma simulation_reaches_final_state_witness :
  ∃ s' t,
    run_among [λ s, (DeleteDeployment "redis" s).2;
               λ s, (ChangeJobState "cf" "router" "started" s).2]
      (ExecuteStop 2 "cf" "router") (DefaultFixtures t0) = (s', true)
    ∧ GetTask 2 s' = Returns t
    ∧ (Task.State t = "done" ∨ Task.State t = "error")
    ∧ Task.Result t ≠ "".
Proof.
  apply (simulation_reaches_final_state 2 "cf" 2%positive).
  - constructor.
  - vm_compute. reflexivity.
  - eexists. vm_compute. reflexivity.
  - constructor; [| constructor; [| constructor]]; intros x.
    + apply entity_call_untouched, DeleteDeployment_entity_call.
    + apply entity_call_untouched, ChangeJobState_entity_call.
Defined.

(** ** The lock of a simulation is released *)

Section Release.
Variables (taskID : Z) (deployment : string).

Let rely := no_lock_added taskID deployment.
Let post := lock_free taskID deployment.

Lemma no_lock_added_refl (s : StateData.t) : rely s s.
Proof. by intros l. Qed.

Lemma lock_free_stable (s s1 : StateData.t) : rely s s1 → post s → post s1.
Proof.
  intros Hr H l Hl [H1 H2]. apply (H l); [| done]. by apply Hr.
Qed.

Lemma lock_free_RemoveLock (s : StateData.t) : post (RemoveLock deployment s).
Proof.
  intros l Hl [H1 _]. simpl in Hl. by apply elem_of_other_locks in Hl as [_ ?].
Qed.

Lemma UpdateTaskState_Locks (id : Z) (state result : string) (s : StateData.t) :
  StateData.Locks (UpdateTaskState id state result s).2 = StateData.Locks s.
Proof.
  unfold UpdateTaskState. destruct (StateData.Tasks s !! id) as [p |]; [| done].
  by destruct (StateData.taskObjects s !! p).
Qed.

Lemma any_call_releases {A : Type} (op : StateData.t → outcome A * StateData.t)
    (k : outcome A → goroutine) (s : StateData.t) :
  (∀ o s', always_ends rely True (k o) post s') →
  always_ends rely True (Call op k) post s.
Proof.
  intros Hk. simpl. intros s1 _. destruct (op s1) as [o s'].
  destruct o; [apply Hk | apply Hk | done].
Qed.

Lemma fail_path_releases (text : string) (s : StateData.t) :
  always_ends rely True
    (Call (UpdateTaskState taskID "error" text) (λ _,
     Call (void (RemoveLock deployment)) (λ _, Exit))) post s.
Proof.
  apply any_call_releases. intros _ s'. simpl. intros s2 _.
  apply lock_free_RemoveLock.
Qed.

Lemma done_path_releases (text : string) (s : StateData.t) :
  always_ends rely True
    (Call (void (RemoveLock deployment)) (λ _,
     Call (UpdateTaskState taskID "done" text) (λ _, Exit))) post s.
Proof.
  simpl. intros s1 _ s2 Hr.
  pose proof (lock_free_stable _ _ Hr (lock_free_RemoveLock s1)) as H.
  pose proof (UpdateTaskState_Locks taskID "done" text s2) as HL.
  destruct (UpdateTaskState taskID "done" text s2) as [o s']. simpl in HL.
  assert (post s') as H' by (intros l Hl; apply H; by rewrite <- HL).
  by destruct o.
Qed.

Lemma simulated_releases (g : goroutine) (s : StateData.t) :
  simulated taskID deployment g → always_ends rely True g post s.
Proof.
  intros Hg. destruct Hg;
    apply any_call_releases; intros _ s1;
    apply any_call_releases; intros _ s2;
    apply any_call_releases; intros [[] | e |] s3;
    try apply done_path_releases; try apply fail_path_releases.
  all: apply any_call_releases; intros [[] | e |] s4;
    try apply done_path_releases; try apply fail_path_releases.
Qed.
End Release.

(** X19.  Every simulation releases its lock.  For each of the five
    goroutines of the simulator: whatever the other goroutines do between
    its calls of the store, as long as they add no lock on the deployment in
    the name of this task, when the goroutine has returned the store holds
    no lock on the deployment in the name of the task, on the path of
    success as on the path of failure. *)
Theorem simulation_releases_lock (taskID : Z) (deployment : string)
    (g : goroutine) (others : list (StateData.t → StateData.t))
    (s s' : StateData.t) :
  simulated taskID deployment g →
  Forall (λ e, ∀ x, no_lock_added taskID deployment x (e x)) others →
  run_among others g s = (s', true) →
  ∀ l, l ∈ GetLocks s' →
       ¬ (Lock.Resource l = deployment ∧ Lock.TaskID l = fmt_d taskID).
Proof.
  intros Hg Hothers Hrun.
  pose proof (always_ends_run_among (no_lock_added taskID deployment) True
                (lock_free taskID deployment) g
                (no_lock_added_refl taskID deployment) others s Hothers
                (simulated_releases taskID deployment g s Hg)) as H.
  rewrite Hrun in H. exact H.
Qed.

Lemma simulation_releases_lock_witness :
  Forall (λ l, ¬ (Lock.Resource l = "redis" ∧ Lock.TaskID l = fmt_d 2))
    (GetLocks
       (run_among [λ s, AddLock "deployment" "redis" "7" lock_timeout s]
          (ExecuteDelete 2 "redis" false) (DefaultFixtures t0)).1).
Proof.
  apply Forall_forall.
  apply (simulation_releases_lock 2 "redis" (ExecuteDelete 2 "redis" false)
           [λ s, AddLock "deployment" "redis" "7" lock_timeout s]
           (DefaultFixtures t0)).
  - constructor.
  - constructor; [| constructor]. intros x l Hl _ Hid. simpl in Hl.
    apply elem_of_app in Hl as [Hl | Hl]; [done |].
    apply list_elem_of_singleton in Hl. subst l. discriminate Hid.
  - vm_compute. reflexivity.
Defined.

(** ** A simulation that nothing interrupts *)

Lemma run_Call {A : Type} (op : StateData.t → outcome A * StateData.t)
    (k : outcome A → goroutine) (s : StateData.t) :
  run (Call op k) s
  = match op s with
    | (Panics, s') => (s', false)
    | (o, s') => run (k o) s'
    end.
Proof. reflexivity. Qed.

Lemma set_taskObjects_same (s : StateData.t) :
  StateData.set_taskObjects (StateData.taskObjects s) s = s.
Proof. by destruct s. Qed.

Lemma UpdateTaskState_as (id : Z) (state result : string) (s : StateData.t) :
  UpdateTaskState id state result s
  = (update_outcome id (StateData.Tasks s) (StateData.taskObjects s),
     StateData.set_taskObjects
       (updated_objects id state result (StateData.Tasks s) (StateData.taskObjects s))
       s).
Proof.
  unfold UpdateTaskState, update_outcome, updated_objects.
  destruct (StateData.Tasks s !! id) as [p |];
    [| by rewrite set_taskObjects_same].
  destruct (StateData.taskObjects s !! p) as [t |];
    [| by rewrite set_taskObjects_same].
  by destruct (nonempty result).
Qed.

Lemma updated_objects_twice (id : Z) (state1 state2 result : string)
    (T : gmap Z ptr) (O : gmap ptr Task.t) :
  updated_objects id state2 result T (updated_objects id state1 "" T O)
  = updated_objects id state2 result T O.
Proof.
  unfold updated_objects. destruct (T !! id) as [p |] eqn:Hp; [| done].
  destruct (O !! p) as [t |] eqn:Ht; [| by rewrite Ht].
  cbn [nonempty String.eqb negb]. rewrite lookup_insert_eq, insert_insert_eq.
  by destruct (nonempty result).
Qed.

Lemma update_outcome_twice (id : Z) (state result : string)
    (T : gmap Z ptr) (O : gmap ptr Task.t) :
  update_outcome id T (updated_objects id state result T O) = update_outcome id T O.
Proof.
  unfold update_outcome, updated_objects. destruct (T !! id) as [p |]; [| done].
  destruct (O !! p) as [t |] eqn:Ht; [| by rewrite Ht].
  by rewrite lookup_insert_eq.
Qed.

Lemma update_outcome_no_panic (id : Z) (T : gmap Z ptr) (O : gmap ptr Task.t) :
  (∀ p, T !! id = Some p → is_Some (O !! p)) →
  update_outcome id T O = Returns tt ∨ update_outcome id T O = Fails (TaskNotFound id).
Proof.
  intros H. unfold update_outcome. destruct (T !! id) as [p |]; [| by right].
  destruct (H p eq_refl) as [t ->]. by left.
Qed.

Lemma DeleteDeployment_entity_only (deployment : string) :
  entity_only (DeleteDeployment deployment).
Proof.
  intros O L s. unfold DeleteDeployment.
  destruct s as [D V I Va T St R C RC CP L0 n O0].
  cbn [StateData.Deployments set_Locks StateData.set_taskObjects].
  by destruct (D !! deployment).
Qed.

Lemma RecreateVMs_entity_only (deployment job index : string) :
  entity_only (RecreateVMs deployment job index).
Proof.
  intros O L s. unfold RecreateVMs.
  destruct s as [D V I Va T St R C RC CP L0 n O0].
  cbn [StateData.Deployments set_Locks StateData.set_taskObjects].
  by destruct (D !! deployment).
Qed.

Lemma ChangeJobState_entity_only (deployment job newState : string) :
  entity_only (ChangeJobState deployment job newState).
Proof.
  intros O L s. unfold ChangeJobState.
  destruct s as [D V I Va T St R C RC CP L0 n O0].
  cbn [StateData.Deployments set_Locks StateData.set_taskObjects].
  by destruct (D !! deployment).
Qed.

Lemma other_locks_added (deployment lockType taskID timeout : string)
    (locks : list Lock.t) :
  other_locks deployment (locks ++ [Lock.mk lockType deployment timeout taskID])
  = other_locks deployment locks.
Proof.
  rewrite other_locks_app. cbn [other_locks Lock.Resource].
  rewrite (proj2 (differs_false _ _)) by done. apply app_nil_r.
Qed.

Ltac state_fields :=
  cbn [StateData.Deployments StateData.VMs StateData.Instances
         StateData.Variables StateData.Tasks StateData.Stemcells
         StateData.Releases StateData.CloudConfig StateData.RuntimeConfigs
         StateData.CPIConfig StateData.Locks StateData.nextTaskID
         StateData.taskObjects RemoveLock set_Locks StateData.set_taskObjects
         fst snd] in *.

Lemma run_done_tail (id : Z) (deployment text : string) (O : gmap ptr Task.t)
    (L : list Lock.t) (r : StateData.t) :
  update_outcome id (StateData.Tasks r) O ≠ Panics →
  run (Call (void (RemoveLock deployment)) (λ _,
       Call (UpdateTaskState id "done" text) (λ _, Exit)))
    (set_Locks L (StateData.set_taskObjects O r))
  = (set_Locks (other_locks deployment L)
       (StateData.set_taskObjects
          (updated_objects id "done" text (StateData.Tasks r) O) r), true).
Proof.
  intros Hnp. rewrite run_Call. unfold void. cbv beta iota.
  rewrite run_Call, UpdateTaskState_as. state_fields.
  destruct (update_outcome id (StateData.Tasks r) O); [| | done].
  all: cbn [run]; f_equal; by destruct r.
Qed.

Lemma run_fail_tail (id : Z) (deployment text : string) (O : gmap ptr Task.t)
    (L : list Lock.t) (r : StateData.t) :
  update_outcome id (StateData.Tasks r) O ≠ Panics →
  run (Call (UpdateTaskState id "error" text) (λ _,
       Call (void (RemoveLock deployment)) (λ _, Exit)))
    (set_Locks L (StateData.set_taskObjects O r))
  = (set_Locks (other_locks deployment L)
       (StateData.set_taskObjects
          (updated_objects id "error" text (StateData.Tasks r) O) r), true).
Proof.
  intros Hnp. rewrite run_Call, UpdateTaskState_as. state_fields.
  destruct (update_outcome id (StateData.Tasks r) O); [| | done].
  all: cbv beta iota; rewrite run_Call; unfold void; cbv beta iota.
  all: cbn [run]; f_equal; by destruct r.
Qed.

Lemma settled_as (id : Z) (deployment text : string) (o : outcome unit)
    (st txt : string) (s r : StateData.t) :
  StateData.Tasks r = StateData.Tasks s →
  StateData.taskObjects r = StateData.taskObjects s →
  StateData.Locks r = StateData.Locks s →
  st = match o with Fails _ => "error" | _ => "done" end →
  txt = match o with Fails e => error_text e | _ => text end →
  set_Locks
    (other_locks deployment
       (StateData.Locks s
        ++ [Lock.mk "deployment" deployment lock_timeout (fmt_d id)]))
    (StateData.set_taskObjects
       (updated_objects id st txt (StateData.Tasks r)
          (updated_objects id "processing" "" (StateData.Tasks s)
             (StateData.taskObjects s))) r)
  = settled id deployment (o, r) text.
Proof.
  intros HT HO HL -> ->. unfold settled. cbn [fst snd].
  rewrite UpdateTaskState_as, HT, HO, updated_objects_twice, other_locks_added.
  destruct r. state_fields. by rewrite HL.
Qed.

Lemma run_bracket (id : Z) (deployment text : string)
    (op : StateData.t → outcome unit * StateData.t) (s : StateData.t) :
  entity_only op → entity_call op →
  (∀ p, StateData.Tasks s !! id = Some p →
        is_Some (StateData.taskObjects s !! p)) →
  run (Call (UpdateTaskState id "processing" "") (λ _,
       Call (void (AddLock "deployment" deployment (fmt_d id) lock_timeout)) (λ _,
       Call op (λ err,
         match err with
         | Fails e =>
             Call (UpdateTaskState id "error" (error_text e)) (λ _,
             Call (void (RemoveLock deployment)) (λ _, Exit))
         | _ =>
             Call (void (RemoveLock deployment)) (λ _,
             Call (UpdateTaskState id "done" text) (λ _, Exit))
         end)))) s
  = (settled id deployment (op s) text, true).
Proof.
  intros Hlift Hcall Hnil.
  rewrite run_Call, UpdateTaskState_as.
  assert (∀ st r, update_outcome id (StateData.Tasks s)
                    (updated_objects id st r (StateData.Tasks s)
                       (StateData.taskObjects s)) ≠ Panics) as Hnp.
  { intros st r. rewrite update_outcome_twice.
    destruct (update_outcome_no_panic id _ _ Hnil) as [-> | ->]; discriminate. }
  destruct (Hcall s) as (Hop & HT & HO & HL).
  destruct (update_outcome_no_panic id _ _ Hnil) as [E | E]; rewrite E;
    cbv beta iota; rewrite run_Call; unfold void at 1; cbv beta iota;
    rewrite run_Call; unfold AddLock; rewrite Hlift;
    destruct (op s) as [o r]; cbn [fst snd] in *;
    (destruct o as [[] | e |]; [| | done]); cbv beta iota; state_fields.
  1,3: rewrite run_done_tail by (rewrite HT; apply Hnp).
  3,4: rewrite run_fail_tail by (rewrite HT; apply Hnp).
  all: f_equal; by apply settled_as.
Qed.

Lemma run_restart (id : Z) (deployment job : string) (s : StateData.t) :
  (∀ p, StateData.Tasks s !! id = Some p →
        is_Some (StateData.taskObjects s !! p)) →
  run (ExecuteRestart id deployment job) s
  = (settled id deployment (ChangeJobState deployment job "started" s)
       (job_result "Restarted" deployment job), true).
Proof.
  intros Hnil. unfold ExecuteRestart.
  rewrite run_Call, UpdateTaskState_as.
  assert (∀ st r, update_outcome id (StateData.Tasks s)
                    (updated_objects id st r (StateData.Tasks s)
                       (StateData.taskObjects s)) ≠ Panics) as Hnp.
  { intros st r. rewrite update_outcome_twice.
    destruct (update_outcome_no_panic id _ _ Hnil) as [-> | ->]; discriminate. }
  pose proof (ChangeJobState_then deployment job "stopped" "started" s) as Hthen.
  assert (∀ e r, ChangeJobState deployment job "stopped" s = (Fails e, r) →
                 ChangeJobState deployment job "started" s = (Fails e, r)) as Hfail.
  { unfold ChangeJobState. intros e r.
    by destruct (StateData.Deployments s !! deployment). }
  destruct (ChangeJobState_entity_call deployment job "stopped" s)
    as (Hop1 & HT1 & HO1 & HL1).
  destruct (ChangeJobState_entity_call deployment job "started" s)
    as (Hop2 & HT2 & HO2 & HL2).
  destruct (update_outcome_no_panic id _ _ Hnil) as [E | E]; rewrite E;
    cbv beta iota; rewrite run_Call; unfold void at 1; cbv beta iota;
    rewrite run_Call; unfold AddLock;
    rewrite (ChangeJobState_entity_only deployment job "stopped");
    destruct (ChangeJobState deployment job "stopped" s) as [o1 r1];
    cbn [fst snd] in *;
    (destruct o1 as [[] | e |]; [| | done]); cbv beta iota; state_fields.
  1,3: rewrite run_Call, (ChangeJobState_entity_only deployment job "started"),
         Hthen;
       destruct (ChangeJobState deployment job "started" s) as [o2 r2];
       cbn [fst snd] in *;
       (destruct o2 as [[] | e |]; [| | done]); cbv beta iota.
  1,3: rewrite run_done_tail by (rewrite HT2; apply Hnp).
  3,4: rewrite run_fail_tail by (rewrite HT2; apply Hnp).
  5,6: rewrite run_fail_tail by (rewrite HT1; apply Hnp).
  1-4: f_equal; by apply settled_as.
  all: rewrite (Hfail e r1 eq_refl); f_equal; by apply settled_as.
Qed.

(** X20.  A simulation that no other goroutine interrupts amounts to three
    calls of the store: the mutation, one update of the task (to "error"
    with the text of the error when the mutation fails, to "done" with the
    text of the operation otherwise) and the removal of the locks on the
    deployment; the goroutine returns.  This holds for the five operations,
    for a task id that the store has or not, as long as the id does not lead
    to a nil pointer; a restart amounts to a start, with its own text. *)
Theorem simulation_uninterrupted (taskID : Z) (deployment job index : string)
    (force : bool) (s : StateData.t) :
  (∀ p, StateData.Tasks s !! taskID = Some p →
        is_Some (StateData.taskObjects s !! p)) →
  run (ExecuteDelete taskID deployment force) s
  = (settled taskID deployment (DeleteDeployment deployment s)
       ("Deleted deployment " ++ deployment), true)
  ∧ run (ExecuteRecreate taskID deployment job index) s
    = (settled taskID deployment (RecreateVMs deployment job index s)
         (recreate_result deployment job index), true)
  ∧ run (ExecuteStart taskID deployment job) s
    = (settled taskID deployment (ChangeJobState deployment job "started" s)
         (job_result "Started" deployment job), true)
  ∧ run (ExecuteStop taskID deployment job) s
    = (settled taskID deployment (ChangeJobState deployment job "stopped" s)
         (job_result "Stopped" deployment job), true)
  ∧ run (ExecuteRestart taskID deployment job) s
    = (settled taskID deployment (ChangeJobState deployment job "started" s)
         (job_result "Restarted" deployment job), true).
Proof.
  intros Hnil. split; [| split; [| split; [| split]]].
  - apply run_bracket;
      [apply DeleteDeployment_entity_only | apply DeleteDeployment_entity_call | done].
  - apply run_bracket;
      [apply RecreateVMs_entity_only | apply RecreateVMs_entity_call | done].
  - apply run_bracket;
      [apply ChangeJobState_entity_only | apply ChangeJobState_entity_call | done].
  - apply run_bracket;
      [apply ChangeJobState_entity_only | apply ChangeJobState_entity_call | done].
  - by apply run_restart.
Qed.

Lemma simulation_uninterrupted_witness :
  run (ExecuteDelete 2 "redis" false) (DefaultFixtures t0)
  = (settled 2 "redis" (DeleteDeployment "redis" (DefaultFixtures t0))
       ("Deleted deployment " ++ "redis"), true)
  ∧ run (ExecuteRestart 2 "cf" "router") (DefaultFixtures t0)
    = (settled 2 "cf" (ChangeJobState "cf" "router" "started" (DefaultFixtures t0))
         (job_result "Restarted" "cf" "router"), true).
Proof.
  destruct (simulation_uninterrupted 2 "redis" "" "" false (DefaultFixtures t0))
    as (H1 & _).
  { intros p Hp. by apply (tasks_allocated_fixtures 2). }
  destruct (simulation_uninterrupted 2 "cf" "router" "" false (DefaultFixtures t0))
    as (_ & _ & _ & _ & H5).
  { intros p Hp. by apply (tasks_allocated_fixtures 2). }
  exact (conj H1 H5).
Defined.

Example ExecuteDelete_on_fixtures :
  let s' := (run (ExecuteDelete 2 "redis" false) (DefaultFixtures t0)).1 in
  GetDeployment "redis" s' = Fails (DeploymentNotFound "redis")
  ∧ GetTask 2 s'
    = Returns (Task.mk 2 "done" "create deployment redis" (t0 - 72000)
                 "Deleted deployment redis" "admin" "redis" "")
  ∧ GetLocks s' = [].
Proof. vm_compute. done. Qed.

Example ExecuteDelete_deployment_vanished :
  let s' := (run (ExecuteDelete 2 "mysql" false) (DefaultFixtures t0)).1 in
  GetTask 2 s'
  = Returns (Task.mk 2 "error" "create deployment redis" (t0 - 72000)
               "deployment 'mysql' not found" "admin" "redis" "")
  ∧ GetLocks s' = [].
Proof. vm_compute. done. Qed.

Lemma sorted_result_unique_witness :
  Returns [Task.mk 5 "error" "run errand acceptance_tests" (t0 - 28800)
             "Error: Test failure in router tests" "admin" "cf" "";
           Task.mk 1 "done" "create deployment cf" (t0 - 86400) "Created"
             "admin" "cf" ""]
  = GetTasks "" "cf" 0 (DefaultFixtures t0).
Proof.
  apply (sorted_result_unique "" "cf" 0 (DefaultFixtures t0)).
  - exact tasks_allocated_fixtures.
  - exact keyed_by_id_fixtures.
  - exists [(5, 3%positive); (8, 4%positive); (1, 1%positive); (2, 2%positive)].
    split.
    + vm_compute map_to_list. do 2 apply perm_skip. apply perm_swap.
    + vm_compute collect.
      eexists. split; [reflexivity |]. split; [| reflexivity].
      repeat constructor; unfold newest_first; simpl; lia.
Defined.

(** ** The invariants of the task map *)

(** X22.  The operations of the store keep the task map well formed: from a
    store without nil task pointers in which every task is stored under its
    own id, every mutating operation ([CreateTask], [UpdateTaskState],
    [DeleteDeployment], [RecreateVMs], [ChangeJobState], [AddLock],
    [RemoveLock]) leads to such a store. *)
Theorem store_keeps_task_invariants (s : StateData.t)
    (description deployment user job index newState state result : string)
    (lockType resource taskID timeout : string) (now id : Z) :
  tasks_allocated s → keyed_by_id s →
  Forall (λ s', tasks_allocated s' ∧ keyed_by_id s')
    [(CreateTask description deployment user now s).2;
     (UpdateTaskState id state result s).2;
     (DeleteDeployment deployment s).2;
     (RecreateVMs deployment job index s).2;
     (ChangeJobState deployment job newState s).2;
     AddLock lockType resource taskID timeout s;
     RemoveLock resource s].
Proof.
  intros Ha Hk.
  assert (∀ s', StateData.Tasks s' = StateData.Tasks s →
                StateData.taskObjects s' = StateData.taskObjects s →
                tasks_allocated s' ∧ keyed_by_id s') as Hsame.
  { intros s' HT HO. unfold tasks_allocated, keyed_by_id. by rewrite HT, HO. }
  repeat apply Forall_cons_2; [| | | | | | | apply Forall_nil_2].
  - by apply CreateTask_keeps_invariants.
  - by apply UpdateTaskState_keeps_invariants.
  - apply Hsame; apply DeleteDeployment_entity_call.
  - apply Hsame; apply RecreateVMs_entity_call.
  - apply Hsame; apply ChangeJobState_entity_call.
  - by apply Hsame.
  - by apply Hsame.
Qed.

Lemma store_keeps_task_invariants_witness :
  Forall (λ s', tasks_allocated s' ∧ keyed_by_id s')
    [(CreateTask "stop jobs in deployment cf" "cf" "admin" t0 (DefaultFixtures t0)).2;
     (UpdateTaskState 2 "processing" "" (DefaultFixtures t0)).2;
     (DeleteDeployment "cf" (DefaultFixtures t0)).2;
     (RecreateVMs "cf" "router" "0" (DefaultFixtures t0)).2;
     (ChangeJobState "cf" "router" "stopped" (DefaultFixtures t0)).2;
     AddLock "deployment" "cf" "101" lock_timeout (DefaultFixtures t0);
     RemoveLock "cf" (DefaultFixtures t0)].
Proof.
  apply (store_keeps_task_invariants (DefaultFixtures t0)).
  - exact tasks_allocated_fixtures.
  - exact keyed_by_id_fixtures.
Defined.

(** ** The list of deployments *)

Lemma GetDeployments_as (s : StateData.t) :
  match GetDeployments s with
  | Returns ds =>
      (map_to_list (StateData.Deployments s)).*2 = Some <$> ds
  | Panics => ∃ name, StateData.Deployments s !! name = Some None
  | Fails _ => False
  end.
Proof.
  unfold GetDeployments.
  destruct (mapM id (map_to_list (StateData.Deployments s)).*2) as [ds |] eqn:E.
  - apply mapM_Some in E. 
    induction E as [| o d l k Ho _ IH]; [done |]. simpl in Ho. subst o.
    cbn [fmap list_fmap]. by rewrite IH.
  - apply mapM_None in E. apply Exists_exists in E as (o & Hin & Ho).
    simpl in Ho. subst o.
    apply list_elem_of_fmap in Hin as ([name o] & -> & Hin).
    apply elem_of_map_to_list in Hin. by exists name.
Qed.

(** X23.  [GetDeployments] and [GetDeployment] agree.  When [GetDeployments]
    returns, the map holds no nil pointer, the list holds a deployment
    exactly when [GetDeployment] returns it for some name, it has one
    element for each name of the map, and after [DeleteDeployment] of a name
    that [HasDeployment] knows [GetDeployments] returns again, one element
    less.  Otherwise it panics, and then there is a name that
    [HasDeployment] knows and on which [GetDeployment] panics as well: the
    nil pointer in the map.  It never returns an error. *)
Theorem GetDeployments_agrees (s : StateData.t) :
  match GetDeployments s with
  | Returns ds =>
      deployments_allocated s
      ∧ (∀ d, d ∈ ds ↔ ∃ name, GetDeployment name s = Returns d)
      ∧ length ds = size (StateData.Deployments s)
      ∧ ∀ name, HasDeployment name s = true →
          ∃ ds', GetDeployments (DeleteDeployment name s).2 = Returns ds'
                 ∧ S (length ds') = length ds
  | Panics =>
      ∃ name, HasDeployment name s = true ∧ GetDeployment name s = Panics
  | Fails _ => False
  end.
Proof.
  pose proof (GetDeployments_as s) as H.
  destruct (GetDeployments s) as [ds | e |]; [| done |].
  - assert (deployments_allocated s) as Halloc.
    { intros name o Ho. apply elem_of_map_to_list in Ho.
      assert (o ∈ (map_to_list (StateData.Deployments s)).*2) as Hin.
      { apply list_elem_of_fmap. by exists (name, o). }
      rewrite H in Hin. apply list_elem_of_fmap in Hin as (d & -> & _). by eexists. }
    split; [done |]. split; [| split].
    + intros d. unfold GetDeployment. split.
      * intros Hd.
        assert (Some d ∈ (map_to_list (StateData.Deployments s)).*2) as Hin.
        { rewrite H. by apply list_elem_of_fmap_2. }
        apply list_elem_of_fmap in Hin as ([name o] & Ho & Hin). simpl in Ho. subst o.
        apply elem_of_map_to_list in Hin. exists name. by rewrite Hin.
      * intros (name & Hname).
        destruct (StateData.Deployments s !! name) as [[d' |] |] eqn:E;
          try discriminate. injection Hname as ->.
        apply elem_of_map_to_list in E.
        assert (Some d ∈ (map_to_list (StateData.Deployments s)).*2) as Hin.
        { apply list_elem_of_fmap. by exists (name, Some d). }
        rewrite H in Hin. by apply list_elem_of_fmap in Hin as (d' & [= <-] & ?).
    + rewrite <- (length_fmap Some ds), <- H, length_fmap. apply length_map_to_list.
    + intros name Hname.
      pose proof (GetDeployments_as (DeleteDeployment name s).2) as H'.
      rewrite DeleteDeployment_state in H'. unfold HasDeployment in Hname.
      destruct (GetDeployments (DeleteDeployment name s).2) as [ds' | e |];
        [| done |].
      * exists ds'. split; [done |].
        rewrite <- (length_fmap Some ds'), <- H', <- (length_fmap Some ds), <- H.
        rewrite !length_fmap, !length_map_to_list.
        destruct (StateData.Deployments s !! name) as [o |] eqn:E; [| done].
        rewrite map_size_delete, E.
        assert (size (StateData.Deployments s) ≠ 0%nat); [| simpl; lia].
        apply map_size_ne_0_lookup_2 with name. eauto.
      * destruct H' as (name' & Hnil). apply lookup_delete_Some in Hnil as [_ Hnil].
        by destruct (Halloc name' None Hnil).
  - destruct H as (name & Hnil). exists name.
    unfold HasDeployment, GetDeployment. by rewrite Hnil.
Qed.

(** * Properties of the HTTP interface *)

(** ** Paths and numerals *)


Lemma Split_slash_free (text : string) : slash_free text → Split text = [text].
Proof.
  unfold slash_free. induction text as [| c rest IH]; [done |].
  cbn [cut_slash Split]. destruct (String.eqb (String c "") "/"); [done |].
  destruct (cut_slash rest) as [[before after] |]; [done |].
  intros _. by rewrite IH.
Qed.

Lemma Split_segment (segment rest : string) :
  slash_free segment → Split (segment ++ "/" ++ rest) = segment :: Split rest.
Proof.
  unfold slash_free. induction segment as [| c segment IH]; [done |].
  cbn [cut_slash]. change (String c segment ++ "/" ++ rest)
    with (String c (segment ++ "/" ++ rest)). cbn [Split].
  destruct (String.eqb (String c "") "/"); [done |].
  destruct (cut_slash segment) as [[before after] |]; [done |].
  intros _. by rewrite IH.
Qed.

Lemma cut_slash_segment (segment rest : string) :
  slash_free segment → cut_slash (segment ++ "/" ++ rest) = Some (segment, rest).
Proof.
  unfold slash_free. induction segment as [| c segment IH]; [done |].
  cbn [cut_slash]. change (String c segment ++ "/" ++ rest)
    with (String c (segment ++ "/" ++ rest)). cbn [cut_slash].
  destruct (String.eqb (String c "") "/"); [done |].
  destruct (cut_slash segment) as [[before after] |]; [done |].
  intros _. by rewrite IH.
Qed.

Lemma TrimPrefix_from_prefix (prefix text whole : string) :
  TrimPrefix_from (prefix ++ text) prefix whole = text.
Proof.
  induction prefix as [| c prefix IH]; [by destruct text |].
  change (String c prefix ++ text) with (String c (prefix ++ text)).
  cbn [TrimPrefix_from]. by rewrite Ascii.eqb_refl.
Qed.

Lemma TrimPrefix_prefix (prefix text : string) :
  TrimPrefix (prefix ++ text) prefix = text.
Proof. apply TrimPrefix_from_prefix. Qed.

Lemma longer_differs (prefix text : string) :
  String.eqb text "" = false → String.eqb (prefix ++ text) prefix = false.
Proof.
  intros H. induction prefix as [| p prefix IH]; [exact H |].
  change (String p prefix ++ text) with (String p (prefix ++ text)).
  cbn [String.eqb]. by rewrite Ascii.eqb_refl.
Qed.

Lemma digits_numeral (d : Decimal.uint) (value : Z) :
  digits (NilEmpty.string_of_uint d) value = Some (numeral_value d value).
Proof.
  revert value. induction d; intros value; [done | ..];
    cbn [NilEmpty.string_of_uint digits numeral_value]; apply IHd.
Qed.

Lemma numeral_value_acc (d : Decimal.uint) (acc : positive) :
  numeral_value d (Z.pos acc) = Z.pos (Pos.of_uint_acc d acc).
Proof.
  revert acc. induction d; intros acc; [done | ..];
    cbn [numeral_value Pos.of_uint_acc];
    rewrite <- IHd; f_equal; lia.
Qed.

Lemma numeral_value_of_uint (d : Decimal.uint) :
  numeral_value d 0 = Z.of_N (Pos.of_uint d).
Proof.
  induction d; [done | ..]; cbn [numeral_value Pos.of_uint];
    [exact IHd | ..]; apply (numeral_value_acc d).
Qed.

Lemma digits_of_positive (p : positive) :
  digits (NilEmpty.string_of_uint (Pos.to_uint p)) 0 = Some (Z.pos p).
Proof.
  rewrite digits_numeral, numeral_value_of_uint, DecimalPos.Unsigned.of_to. done.
Qed.

Lemma numeral_slash_free (d : Decimal.uint) :
  slash_free (NilEmpty.string_of_uint d).
Proof.
  unfold slash_free. induction d; [done | ..];
    cbn [NilEmpty.string_of_uint cut_slash]; by rewrite IHd.
Qed.

Lemma fmt_d_positive (p : positive) :
  ∃ c rest, NilEmpty.string_of_uint (Pos.to_uint p) = String c rest
            ∧ fmt_d (Z.pos p) = String c rest ∧ is_Some (digit c).
Proof.
  unfold fmt_d. cbn [Z.to_int NilZero.string_of_int].
  pose proof (DecimalPos.Unsigned.to_uint_nonnil p) as H.
  destruct (Pos.to_uint p); [done | ..];
    (eexists; eexists; split; [reflexivity |]; split; [reflexivity |]; by eexists).
Qed.

Lemma Atoi_fmt_d (n : Z) : min_int ≤ n ≤ max_int → Atoi (fmt_d n) = Some n.
Proof.
  intros Hn. destruct n as [| p | p].
  - reflexivity.
  - destruct (fmt_d_positive p) as (c & rest & E & -> & [d Hd]).
    pose proof (digits_of_positive p) as Hp. rewrite E in Hp.
    unfold Atoi.
    assert (String.eqb (String c "") "-" = false) as ->.
    { destruct (String.eqb_spec (String c "") "-") as [[= ->] |]; done. }
    assert (String.eqb (String c "") "+" = false) as ->.
    { destruct (String.eqb_spec (String c "") "+") as [[= ->] |]; done. }
    rewrite Hp.
    destruct (Z.leb_spec min_int (Z.pos p)), (Z.leb_spec (Z.pos p) max_int);
      (done || lia).
  - destruct (fmt_d_positive p) as (c & rest & E & _ & _).
    pose proof (digits_of_positive p) as Hp. rewrite E in Hp.
    unfold fmt_d. cbn [Z.to_int NilZero.string_of_int].
    assert (NilZero.string_of_uint (Pos.to_uint p) = String c rest) as ->.
    { rewrite <- E. pose proof (DecimalPos.Unsigned.to_uint_nonnil p).
      by destruct (Pos.to_uint p). }
    unfold Atoi. cbn [String.eqb Ascii.eqb Bool.eqb]. cbv beta iota.
    rewrite Hp. change (- Z.pos p) with (Z.neg p).
    destruct (Z.leb_spec min_int (Z.neg p)), (Z.leb_spec (Z.neg p) max_int);
      (done || lia).
Qed.

Lemma fmt_d_slash_free (n : Z) : slash_free (fmt_d n).
Proof.
  destruct n as [| p | p]; [done | |].
  - destruct (fmt_d_positive p) as (c & rest & E & -> & _). rewrite <- E.
    apply numeral_slash_free.
  - unfold fmt_d. cbn [Z.to_int NilZero.string_of_int].
    pose proof (DecimalPos.Unsigned.to_uint_nonnil p).
    pose proof (numeral_slash_free (Pos.to_uint p)) as Hs.
    unfold slash_free in *. cbn [cut_slash]. 
    replace (NilZero.string_of_uint (Pos.to_uint p))
      with (NilEmpty.string_of_uint (Pos.to_uint p))
      by by destruct (Pos.to_uint p).
    by rewrite Hs.
Qed.

Lemma fmt_d_nonempty (n : Z) : String.eqb (fmt_d n) "" = false.
Proof.
  destruct n as [| p | p]; [done | | done].
  by destruct (fmt_d_positive p) as (c & rest & _ & -> & _).
Qed.

Lemma accept_as (h : Handlers.t) (description deployment : string) (now : Z)
    (simulate : Z → goroutine) (s : StateData.t) :
  accept h description deployment now simulate s
  = let s' := (CreateTask description deployment (Handlers.username h) now s).2 in
    Served (task_location (StateData.nextTaskID s')) s'
      (Some (simulate (StateData.nextTaskID s'))).
Proof.
  unfold accept.
  destruct (CreateTask_effect description deployment (Handlers.username h) now s)
    as (p & s1 & -> & _ & _ & _ & HO).
  unfold read_through. rewrite HO, lookup_insert_eq. done.
Qed.

Lemma error_answered (status : Z) (message : string) (s : StateData.t) :
  status ≠ StatusFound → answered s (Served (writeError status message) s None).
Proof. intros H. by eexists. Qed.

Lemma HandleDeleteDeployment_operation (h : Handlers.t) (r : Request.t)
    (deployment : string) (now : Z) (s : StateData.t) :
  operation h r now s (HandleDeleteDeployment h r deployment now s).
Proof.
  unfold HandleDeleteDeployment.
  destruct (differs _ _); [by left; apply error_answered |].
  destruct (HasDeployment deployment s) eqn:E; [| by left; apply error_answered].
  right. left. eexists _, _, _. split; [done |]. split; [| reflexivity].
  intros id. constructor.
Qed.

Lemma HandleDeploymentRecreate_operation (h : Handlers.t) (r : Request.t)
    (deployment : string) (now : Z) (s : StateData.t) :
  operation h r now s (HandleDeploymentRecreate h r deployment now s).
Proof.
  unfold HandleDeploymentRecreate.
  destruct (differs _ _); [by left; apply error_answered |].
  destruct (HasDeployment deployment s) eqn:E; [| by left; apply error_answered].
  cbn [negb]. destruct (differs _ _); [by left; apply error_answered |].
  right. left. eexists _, _, _. split; [done |]. split; [| reflexivity].
  intros id. constructor.
Qed.

Lemma HandleDeploymentJobs_operation (h : Handlers.t) (r : Request.t)
    (deployment job : string) (now : Z) (s : StateData.t) :
  operation h r now s (HandleDeploymentJobs h r deployment job now s).
Proof.
  unfold HandleDeploymentJobs.
  destruct (differs _ _); [by left; apply error_answered |].
  destruct (HasDeployment deployment s) eqn:E; [| by left; apply error_answered].
  cbn [negb]. destruct (String.eqb _ ""); [by left; apply error_answered |].
  destruct (match cut_slash job with Some _ => _ | None => _ end) as [jobName index].
  repeat (destruct (String.eqb _ _);
          [right; left; eexists _, _, _; split; [done |]; split; [| reflexivity];
           intros id; constructor |]).
  by left; apply error_answered.
Qed.

Lemma routeDeployments_operation (h : Handlers.t) (r : Request.t) (now : Z)
    (s : StateData.t) :
  operation h r now s (routeDeployments h r now s).
Proof.
  assert (∀ v, answered s (Served (writeJSON StatusOK v) s None)) as Hok.
  { intros v. by eexists. }
  unfold routeDeployments.
  destruct (String.eqb (Request.Path r) "/deployments").
  { unfold HandleDeployments, differs.
    destruct (String.eqb_spec (Request.Method r) MethodGet) as [Hget |];
      [| by left; apply error_answered].
    cbn [negb]. pose proof (GetDeployments_as s) as H.
    destruct (GetDeployments s) as [ds | e |]; [left; apply Hok | done |].
    right. right. done. }
  destruct (Split _) as [| deployment others]; [by left; apply error_answered |].
  destruct (String.eqb deployment ""); [by left; apply error_answered |].
  destruct others as [| kind [| job more]].
  - destruct (String.eqb_spec (Request.Method r) MethodGet) as [Hget |].
    { unfold GetDeployment.
      destruct (StateData.Deployments s !! deployment) as [[d |] |] eqn:E;
        [left; apply Hok | | by left; apply error_answered].
      right. right. split; [done |]. split; [done |]. by exists deployment. }
    destruct (String.eqb _ MethodDelete);
      [apply HandleDeleteDeployment_operation |].
    destruct (String.eqb _ MethodPut); [| by left; apply error_answered].
    destruct (String.eqb _ "recreate");
      [apply HandleDeploymentRecreate_operation | by left; apply error_answered].
  - left.
    unfold HandleDeploymentVMs, HandleDeploymentInstances,
      HandleDeploymentVariables, GetVMs, GetInstances, GetVariables.
    repeat (destruct (String.eqb kind _);
            [destruct (differs _ _); [by apply error_answered |];
             destruct (_ !! _); [apply Hok | by apply error_answered] |]).
    by apply error_answered.
  - destruct (String.eqb kind "jobs"); [| by left; apply error_answered].
    apply HandleDeploymentJobs_operation.
Qed.

Lemma wrap_int_range (z : Z) : min_int ≤ wrap_int z ≤ max_int.
Proof.
  unfold min_int, max_int, wrap_int.
  pose proof (Z.mod_pos_bound (z + 2 ^ 63) (2 ^ 64)). lia.
Qed.

Lemma GetTask_created (description deployment user : string) (now : Z)
    (s : StateData.t) :
  GetTask (StateData.nextTaskID (CreateTask description deployment user now s).2)
    (CreateTask description deployment user now s).2
  = Returns (Task.mk
               (StateData.nextTaskID (CreateTask description deployment user now s).2)
               "queued" description now "" user deployment "").
Proof.
  destruct (CreateTask_effect description deployment user now s)
    as (p & s1 & E & _ & _ & HT & HO).
  rewrite E. cbn [snd]. unfold GetTask.
  by rewrite HT, lookup_insert_eq, HO, lookup_insert_eq.
Qed.

Lemma routeTasks_task (h : Handlers.t) (id : Z) (query : list (string * string))
    (auth : option (string * string)) (s : StateData.t) :
  min_int ≤ id ≤ max_int →
  routeTasks h (Request.mk MethodGet ("/tasks/" ++ fmt_d id) query auth) s
  = HandleTask h (Request.mk MethodGet ("/tasks/" ++ fmt_d id) query auth) id s.
Proof.
  intros Hid. unfold routeTasks. cbn [Request.Path].
  change ("/tasks/" ++ fmt_d id) with ("/tasks" ++ "/" ++ fmt_d id) at 1.
  rewrite (longer_differs "/tasks" ("/" ++ fmt_d id)) by reflexivity.
  rewrite (TrimPrefix_prefix "/tasks/").
  rewrite (Split_slash_free _ (fmt_d_slash_free id)), fmt_d_nonempty.
  by rewrite Atoi_fmt_d.
Qed.


(** X25.  The location that an accepted operation returns leads to its
    task: after a request to [routeDeployments] that is answered 302, a GET
    of the path in the [Location] header, routed by [routeTasks] on the
    store that the request has left, is answered 200 with the new task --
    queued, without result, with the time of the request, in the name of the
    user of the handlers, for a deployment that the store had -- and leaves
    the store as it is.  The id printed into the location by [%d] is read
    back by [strconv.Atoi], whatever the value of the counter. *)
Theorem Location_leads_to_task (h : Handlers.t) (r : Request.t) (now : Z)
    (s s' : StateData.t) (response : Response.t) (started : option goroutine)
    (query : list (string * string)) (auth : option (string * string)) :
  routeDeployments h r now s = Served response s' started →
  Response.Status response = StatusFound →
  ∃ location task,
    Response.Header response = [("Location", location)]
    ∧ routeTasks h (Request.mk MethodGet location query auth) s'
      = Served (writeJSON StatusOK (JSON_Task task)) s' None
    ∧ Task.ID task = StateData.nextTaskID s'
    ∧ Task.State task = "queued"
    ∧ Task.Result task = ""
    ∧ Task.Timestamp task = now
    ∧ Task.User task = Handlers.username h
    ∧ HasDeployment (Task.Deployment task) s = true.
Proof.
  intros Hx Hstatus.
  destruct (routeDeployments_operation h r now s)
    as [(resp & E & Hno)
       | [(deployment & description & simulate & Hd & _ & E) | (E & _)]];
    rewrite Hx in E; [| | discriminate].
  { injection E as -> _ _. done. }
  rewrite accept_as in E. cbv zeta in E.
  pose proof (GetTask_created description deployment (Handlers.username h) now s)
    as Hget.
  assert (min_int ≤ StateData.nextTaskID
            (CreateTask description deployment (Handlers.username h) now s).2
          ≤ max_int) as Hid by apply wrap_int_range.
  destruct (CreateTask description deployment (Handlers.username h) now s)
    as [p s1]. cbn [snd] in *.
  injection E as -> -> _.
  eexists _, _. split; [reflexivity |].
  rewrite routeTasks_task by done.
  unfold HandleTask. cbn [Request.Method].
  change (differs MethodGet MethodGet) with false. cbv iota.
  rewrite Hget. done.
Qed.

Lemma Location_leads_to_task_witness :
  ∃ location task,
    Response.Header (task_location 101) = [("Location", location)]
    ∧ routeTasks (Handlers.mk "admin" "admin")
        (Request.mk MethodGet location [] (Some ("admin", "admin")))
        (CreateTask "delete deployment redis" "redis" "admin" t0
           (DefaultFixtures t0)).2
      = Served (writeJSON StatusOK (JSON_Task task))
          (CreateTask "delete deployment redis" "redis" "admin" t0
             (DefaultFixtures t0)).2 None
    ∧ Task.ID task
      = StateData.nextTaskID
          (CreateTask "delete deployment redis" "redis" "admin" t0
             (DefaultFixtures t0)).2
    ∧ Task.State task = "queued"
    ∧ Task.Result task = ""
    ∧ Task.Timestamp task = t0
    ∧ Task.User task = "admin"
    ∧ HasDeployment (Task.Deployment task) (DefaultFixtures t0) = true.
Proof.
  apply (Location_leads_to_task (Handlers.mk "admin" "admin")
           (Request.mk MethodDelete "/deployments/redis" []
              (Some ("admin", "admin")))
           t0 (DefaultFixtures t0) _ (task_location 101)
           (Some (ExecuteDelete 101 "redis" false)));
    [vm_compute; reflexivity | reflexivity].
Defined.





Lemma Split_parts (text : string) :
  ¬ slash_free text → ∃ first second more, Split text = first :: second :: more.
Proof.
  unfold slash_free. induction text as [| c rest IH]; [done |].
  cbn [cut_slash Split]. destruct (String.eqb (String c "") "/").
  - intros _. destruct rest as [| c' rest]; [by eexists _, _, _ |].
    cbn [Split]. destruct (String.eqb (String c' "") "/"); [by eexists _, _, _ |].
    destruct (Split rest); by eexists _, _, _.
  - destruct (cut_slash rest) as [[before after] |]; [| done].
    intros _. destruct IH as (first & second & more & ->); [done |].
    by eexists _, _, _.
Qed.

Lemma route_job (h : Handlers.t) (method deployment job : string)
    (query : list (string * string)) (auth : option (string * string))
    (now : Z) (s : StateData.t) :
  slash_free deployment → deployment ≠ "" → slash_free job →
  routeDeployments h
    (Request.mk method ("/deployments/" ++ deployment ++ "/jobs/" ++ job) query auth)
    now s
  = HandleDeploymentJobs h
      (Request.mk method ("/deployments/" ++ deployment ++ "/jobs/" ++ job) query auth)
      deployment job now s.
Proof.
  intros Hd Hne Hj. unfold routeDeployments. cbn [Request.Path].
  assert (String.eqb deployment "" = false) as Hne'.
  { by destruct (String.eqb_spec deployment ""). }
  change ("/deployments/" ++ deployment ++ "/jobs/" ++ job)
    with ("/deployments" ++ "/" ++ deployment ++ "/jobs/" ++ job) at 1.
  rewrite (longer_differs "/deployments") by reflexivity.
  rewrite (TrimPrefix_prefix "/deployments/").
  change (deployment ++ "/jobs/" ++ job)
    with (deployment ++ "/" ++ "jobs" ++ "/" ++ job).
  rewrite (Split_segment deployment) by done.
  rewrite (Split_segment "jobs") by reflexivity.
  rewrite (Split_slash_free job) by done.
  by rewrite Hne'.
Qed.

Lemma route_job_index (h : Handlers.t) (method deployment job index : string)
    (query : list (string * string)) (auth : option (string * string))
    (now : Z) (s : StateData.t) :
  slash_free deployment → deployment ≠ "" → slash_free job →
  routeDeployments h
    (Request.mk method
       ("/deployments/" ++ deployment ++ "/jobs/" ++ job ++ "/" ++ index) query auth)
    now s
  = HandleDeploymentJobs h
      (Request.mk method
         ("/deployments/" ++ deployment ++ "/jobs/" ++ job ++ "/" ++ index) query auth)
      deployment
      (match Split index with [index] => job ++ "/" ++ index | _ => job end)
      now s.
Proof.
  intros Hd Hne Hj. unfold routeDeployments. cbn [Request.Path].
  assert (String.eqb deployment "" = false) as Hne'.
  { by destruct (String.eqb_spec deployment ""). }
  change ("/deployments/" ++ deployment ++ "/jobs/" ++ job ++ "/" ++ index)
    with ("/deployments" ++ "/" ++ deployment ++ "/jobs/" ++ job ++ "/" ++ index) at 1.
  rewrite (longer_differs "/deployments") by reflexivity.
  rewrite (TrimPrefix_prefix "/deployments/").
  change (deployment ++ "/jobs/" ++ job ++ "/" ++ index)
    with (deployment ++ "/" ++ "jobs" ++ "/" ++ job ++ "/" ++ index).
  rewrite (Split_segment deployment) by done.
  rewrite (Split_segment "jobs") by reflexivity.
  rewrite (Split_segment job) by done.
  by rewrite Hne'.
Qed.

Lemma empty_deployment_name (h : Handlers.t) (method rest : string)
    (query : list (string * string)) (auth : option (string * string))
    (now : Z) (s : StateData.t) :
  routeDeployments h (Request.mk method ("/deployments//" ++ rest) query auth) now s
  = Served (writeError StatusNotFound "deployment name required") s None.
Proof.
  unfold routeDeployments. cbn [Request.Path].
  change ("/deployments//" ++ rest) with ("/deployments" ++ "/" ++ "/" ++ rest) at 1.
  rewrite (longer_differs "/deployments") by reflexivity.
  change ("/deployments//" ++ rest) with ("/deployments/" ++ "" ++ "/" ++ rest).
  rewrite (TrimPrefix_prefix "/deployments/").
  by rewrite (Split_segment "") by reflexivity.
Qed.

Lemma HandleDeploymentJobs_index (h : Handlers.t) (r r' : Request.t)
    (deployment job index : string) (now : Z) (s : StateData.t) :
  Request.Method r = Request.Method r' → Request.Query r = Request.Query r' →
  slash_free job →
  Query_Get "state" (Request.Query r) ≠ "recreate" →
  HandleDeploymentJobs h r deployment (job ++ "/" ++ index) now s
  = HandleDeploymentJobs h r' deployment job now s.
Proof.
  intros Hm Hq Hj Hstate. unfold HandleDeploymentJobs.
  rewrite (cut_slash_segment job index Hj), Hj, <- Hm, <- Hq.
  destruct (String.eqb_spec (Query_Get "state" (Request.Query r)) "recreate");
    done.
Qed.

Lemma HandleDeploymentJobs_request (h : Handlers.t) (r r' : Request.t)
    (deployment job : string) (now : Z) (s : StateData.t) :
  Request.Method r = Request.Method r' → Request.Query r = Request.Query r' →
  HandleDeploymentJobs h r deployment job now s
  = HandleDeploymentJobs h r' deployment job now s.
Proof. intros Hm Hq. unfold HandleDeploymentJobs. by rewrite Hm, Hq. Qed.

(** X27.  The index of a job path is used by "recreate" only: for every
    other value of the [state] parameter (also a missing or unknown one), a
    request for [/deployments/{name}/jobs/{job}/{index}] is served exactly
    as the request for [/deployments/{name}/jobs/{job}] -- a stop of
    "router/0" stops every instance of "router".  When what follows the job
    contains a further "/", it is ignored for "recreate" as well. *)
Theorem index_ignored_unless_recreate (h : Handlers.t)
    (method deployment job index : string) (query : list (string * string))
    (auth : option (string * string)) (now : Z) (s : StateData.t) :
  slash_free deployment → slash_free job →
  Query_Get "state" query ≠ "recreate" ∨ ¬ slash_free index →
  routeDeployments h
    (Request.mk method
       ("/deployments/" ++ deployment ++ "/jobs/" ++ job ++ "/" ++ index) query auth)
    now s
  = routeDeployments h
      (Request.mk method ("/deployments/" ++ deployment ++ "/jobs/" ++ job) query auth)
      now s.
Proof.
  intros Hd Hj Hor.
  destruct (String.eqb_spec deployment "") as [-> | Hne].
  { change ("/deployments/" ++ "" ++ "/jobs/" ++ job ++ "/" ++ index)
      with ("/deployments//" ++ "jobs/" ++ job ++ "/" ++ index).
    change ("/deployments/" ++ "" ++ "/jobs/" ++ job)
      with ("/deployments//" ++ "jobs/" ++ job).
    by rewrite !empty_deployment_name. }
  rewrite route_job_index, route_job by done.
  destruct (decide (slash_free index)) as [Hi | Hi].
  - destruct Hor as [Hstate | ?]; [| done].
    rewrite (Split_slash_free index Hi). by apply HandleDeploymentJobs_index.
  - destruct (Split_parts index Hi) as (first & second & more & ->).
    by apply HandleDeploymentJobs_request.
Qed.

Lemma index_ignored_unless_recreate_witness :
  routeDeployments (Handlers.mk "admin" "admin")
    (Request.mk MethodPut
       ("/deployments/" ++ "cf" ++ "/jobs/" ++ "router" ++ "/" ++ "0")
       [("state", "stopped")] (Some ("admin", "admin"))) t0 (DefaultFixtures t0)
  = routeDeployments (Handlers.mk "admin" "admin")
      (Request.mk MethodPut ("/deployments/" ++ "cf" ++ "/jobs/" ++ "router")
         [("state", "stopped")] (Some ("admin", "admin"))) t0 (DefaultFixtures t0).
Proof.
  apply (index_ignored_unless_recreate (Handlers.mk "admin" "admin") MethodPut
           "cf" "router" "0" [("state", "stopped")] (Some ("admin", "admin")) t0
           (DefaultFixtures t0));
    [reflexivity | reflexivity | left; discriminate].
Defined.



(** X29.  Reading changes nothing.  On a store without nil task pointers,
    every request to [routeTasks] is answered, with the store left as it was
    and no goroutine started, and none panics; and when the map of
    deployments holds no nil pointer either, so is every request to
    [routeDeployments] whose method is neither PUT nor DELETE, whatever its
    path and query. *)
Theorem reads_change_nothing (h : Handlers.t) (r r' : Request.t) (now : Z)
    (s : StateData.t) :
  tasks_allocated s →
  answered s (routeTasks h r s)
  ∧ (deployments_allocated s →
     Request.Method r' ≠ MethodPut → Request.Method r' ≠ MethodDelete →
     answered s (routeDeployments h r' now s)).
Proof.
  intros Halloc.
  assert (∀ v, answered s (Served (writeJSON StatusOK v) s None)) as Hok.
  { intros v. by eexists. }
  assert (∀ id, GetTask id s ≠ Panics) as Hget.
  { intros id. unfold GetTask.
    destruct (StateData.Tasks s !! id) as [p |] eqn:E; [| done].
    by destruct (Halloc id p E) as [t ->]. }
  split.
  - unfold routeTasks.
    destruct (String.eqb (Request.Path r) "/tasks").
    { unfold HandleTasks.
      destruct (differs _ _); [by apply error_answered |].
      destruct (if nonempty _ then _ else _) as [limit |];
        [| by apply error_answered].
      rewrite GetTasks_allocated by done. apply Hok. }
    destruct (Split _) as [| first others]; [by apply error_answered |].
    destruct (String.eqb first ""); [by apply error_answered |].
    destruct (Atoi first) as [taskID |]; [| by apply error_answered].
    destruct others as [| kind [| ? ?]]; [| | by apply error_answered].
    + unfold HandleTask.
      destruct (differs _ _); [by apply error_answered |].
      pose proof (Hget taskID).
      destruct (GetTask taskID s); [apply Hok | by apply error_answered | done].
    + destruct (String.eqb kind "output"); [| by apply error_answered].
      unfold HandleTaskOutput.
      destruct (differs _ _); [by apply error_answered |].
      pose proof (Hget taskID).
      destruct (GetTask taskID s); [by eexists | by apply error_answered | done].
  - intros Hnil Hput Hdelete.
    destruct (routeDeployments_operation h r' now s)
      as [H | [H | (_ & _ & name & H)]]; [done | |].
    2:{ by destruct (Hnil name None H). }
    exfalso. revert H. unfold routeDeployments.
    assert (String.eqb (Request.Method r') MethodPut = false) as Hp.
    { by destruct (String.eqb_spec (Request.Method r') MethodPut). }
    assert (String.eqb (Request.Method r') MethodDelete = false) as Hd.
    { by destruct (String.eqb_spec (Request.Method r') MethodDelete). }
    unfold HandleDeployments, HandleDeploymentVMs, HandleDeploymentInstances,
      HandleDeploymentVariables, HandleDeploymentJobs, differs, GetDeployment,
      GetVMs, GetInstances, GetVariables.
    rewrite Hp, Hd. cbn [negb].
    intros (deployment & description & simulate & _ & _ & E).
    rewrite accept_as in E. cbv zeta in E.
    repeat match type of E with
           | context [match ?x with _ => _ end] => destruct x
           end; discriminate.
Qed.

Lemma reads_change_nothing_witness :
  answered (DefaultFixtures t0)
    (routeTasks (Handlers.mk "admin" "admin")
       (Request.mk MethodGet "/tasks/2/output" [("type", "debug")]
          (Some ("admin", "admin")))
       (DefaultFixtures t0))
  ∧ answered (DefaultFixtures t0)
      (routeDeployments (Handlers.mk "admin" "admin")
         (Request.mk MethodGet "/deployments/cf/vms" [] (Some ("admin", "admin")))
         t0 (DefaultFixtures t0)).
Proof.
  destruct (reads_change_nothing (Handlers.mk "admin" "admin")
              (Request.mk MethodGet "/tasks/2/output" [("type", "debug")]
                 (Some ("admin", "admin")))
              (Request.mk MethodGet "/deployments/cf/vms" []
                 (Some ("admin", "admin")))
              t0 (DefaultFixtures t0) tasks_allocated_fixtures) as [H1 H2].
  split; [exact H1 | apply H2; [| discriminate | discriminate]].
  change (map_Forall (λ (_ : string) (o : option Deployment.t), is_Some o)
            (StateData.Deployments (DefaultFixtures t0))).
  apply (bool_decide_unpack _). vm_compute. exact I.
Defined.
